(** * skutil.h2o: feature selectors and the H2OPipeline

    A shallow embedding of [skutil/h2o/select.py] and
    [skutil/h2o/pipeline.py].  Python objects are records whose optional
    attributes ([drop_], [training_cols_], ...) are [option] fields; methods
    are computations in a state-and-exception monad whose state is the
    receiver object together with a chronological log of the calls made into
    the frame engine, of the warnings issued and of the estimator's training
    calls. *)

From Stdlib Require Import ZArith QArith Qabs Ascii String List Bool Lia.
From Stdlib Require Import SpecFloat.
From stdpp Require Import base gmap strings list fin_maps.

Local Open Scope string_scope.
Local Open Scope list_scope.

(** ** Numbers and Python values *)

(** The value of a double, as Python, numpy and the engine hand it around:
    NaN, an infinity ([Inf true] is the negative one) or a number, kept as
    the rational it is.  The two zeros are one value: the code tells them
    apart nowhere. *)
Inductive num : Type :=
| NaN
| Fin (q : Q)
| Inf (negative : bool).

Definition Qlt_bool (x y : Q) : bool :=
  (Qnum x * Zpos (Qden y) <? Qnum y * Zpos (Qden x))%Z.

(** [a < b], [a <= b] on doubles: false as soon as one side is NaN. *)
Definition num_ltb (a b : num) : bool :=
  match a, b with
  | NaN, _ | _, NaN => false
  | Fin x, Fin y => Qlt_bool x y
  | Fin _, Inf negative => negb negative
  | Inf negative, Fin _ => negative
  | Inf na, Inf nb => na && negb nb
  end.

Definition num_leb (a b : num) : bool :=
  match a, b with
  | NaN, _ | _, NaN => false
  | Fin x, Fin y => Qle_bool x y
  | Fin _, Inf negative => negb negative
  | Inf negative, Fin _ => negative
  | Inf na, Inf nb => na || negb nb
  end.

Definition num_abs (a : num) : num :=
  match a with
  | NaN => NaN
  | Fin x => Fin (Qabs x)
  | Inf _ => Inf false
  end.

(** *** Arithmetic in binary64

    What the code computes in doubles is computed here with the IEEE 754
    operations of [SpecFloat] at the precision and exponent range of
    binary64; only the value of the result is kept. *)

Definition prec : Z := 53.
Definition emax : Z := 1024.

(** The value of a double, in lowest terms. *)
Definition num_of_float (f : spec_float) : num :=
  match f with
  | S754_nan => NaN
  | S754_infinity negative => Inf negative
  | S754_zero _ => Fin 0
  | S754_finite negative m e =>
      Fin (Qred (inject_Z (cond_Zopp negative (Zpos m)) * Qpower 2 e))
  end.

(** The double nearest to an integer, ties to even: what a conversion of an
    integer to a double gives. *)
Definition float_of_Z (z : Z) : spec_float := binary_normalize prec emax z 0 false.

Definition float64 (z : Z) : num := num_of_float (float_of_Z z).

(** The double nearest to a rational, ties to even: what a literal of that
    value denotes and what the engine answers for a statistic of that
    value. *)
Definition float_of_Q (q : Q) : spec_float :=
  match Qnum q with
  | Z0 => S754_zero false
  | Zpos n => SFdiv prec emax (S754_finite false n 0) (S754_finite false (Qden q) 0)
  | Zneg n => SFdiv prec emax (S754_finite true n 0) (S754_finite false (Qden q) 0)
  end.

Definition double (q : Q) : num := num_of_float (float_of_Q q).

(** A number converted to float64: a double is left as it is. *)
Definition as_float64 (x : num) : num :=
  match x with
  | Fin q => double q
  | NaN | Inf _ => x
  end.

(** [count / nrows] in the engine, a division of two doubles: the double
    nearest to the quotient, NaN for [0 / 0]. *)
Definition num_div_nat (count nrows : nat) : num :=
  num_of_float (SFdiv prec emax (float_of_Z (Z.of_nat count))
                                (float_of_Z (Z.of_nat nrows))).

(** [.astype(np.bool)]: everything but zero is true, NaN included. *)
Definition astype_bool (a : num) : bool :=
  match a with
  | Fin x => negb (Qeq_bool x 0)
  | NaN | Inf _ => true
  end.

(** The Python values a configuration attribute can hold.  [PyFloat] holds
    the value of its double: the float [0.5] is [PyFloat (Fin (1 # 2))], the
    float [0.3] is [PyFloat (double (3 # 10))].  [PyIterable] is
    an iterable that is no sequence: an object with [__iter__] and neither a
    length nor a truth value of its own (an instance of a class that defines
    [__iter__] alone), which yields [items] each time it is iterated; with no
    items it is also what an exhausted iterator or generator is. *)
#[warnings="-register-all"]
Inductive pyval : Type :=
| PyNone
| PyInt (z : Z)
| PyFloat (x : num)
| PyStr (s : string)
| PyList (l : list pyval)
| PyIterable (items : list pyval).

(** Truth value of an object, as [not x] and [if x] take it: an object
    without [__len__] and [__bool__] is true. *)
Definition truthy (v : pyval) : bool :=
  match v with
  | PyNone => false
  | PyInt z => negb (z =? 0)%Z
  | PyFloat x => astype_bool x
  | PyStr s => negb (String.eqb s "")
  | PyList l => match l with [] => false | _ :: _ => true end
  | PyIterable _ => true
  end.

Definition isinstance_str (v : pyval) : bool :=
  match v with
  | PyStr _ => true
  | _ => false
  end.

(** [x == name] for a column name [name]: only an equal string is equal. *)
Definition py_eq_str (name : string) (v : pyval) : bool :=
  match v with
  | PyStr s => String.eqb name s
  | _ => false
  end.

(** The float that a literal of value [q] denotes. *)
Definition py_float (q : Q) : pyval := PyFloat (double q).

(** The number a numeric Python value denotes: Python compares an int and
    a float by their exact values. *)
Definition as_num (v : pyval) : option num :=
  match v with
  | PyInt z => Some (Fin (inject_Z z))
  | PyFloat x => Some x
  | _ => None
  end.

(** The operand numpy makes of a Python number that is compared with an
    array of doubles, a float64 in both cases: the conversion leaves a float
    as it is and takes an int that fits a 64-bit integer to the double
    nearest to it. *)
Definition np_scalar (v : pyval) : option num :=
  match v with
  | PyFloat x => Some (as_float64 x)
  | PyInt z =>
      if ((- 2 ^ 63 <=? z) && (z <? 2 ^ 64))%Z then Some (float64 z) else None
  | _ => None
  end.

(** ** Exceptions, events and the monad *)

Inductive exn : Type :=
| ValueError (msg : string)
| TypeError (msg : string)
| KeyError (key : string)
| IndexError (msg : string)
| AttributeError (attr : string)
| NotFittedError (attr : string).

(** A training call of the final estimator:
    [train(training_frame=Xt, x=..., y=..., **params)]. *)
Record train_call : Type := TrainCall {
  tc_frame_columns : list string;
  tc_x : list string;
  tc_y : string;
  tc_params : gmap string pyval
}.

(** What a method does to the outside world, in the order it does it. *)
Inductive event : Type :=
| FrameSubset (names : list string)        (* X[names] *)
| FrameColumns                             (* X.columns *)
| FrameIsNaSum                             (* X.isna().sum() *)
| FrameIsNaFraction                        (* X.isna().apply(sum) / X.shape[0] *)
| FrameVar (na_rm : bool) (use : string)   (* X.var(na_rm=, use=) *)
| FrameCor (use : string) (na_rm : bool)   (* X.cor(use=, na_rm=) *)
| FrameSeries (name : string)              (* as_series(X[name]) *)
| Warn (nasum : nat)                       (* warnings.warn(...) *)
| Train (call : train_call).

(** The events that compute a statistic of the data (sparsity, variance,
    correlation, frequency ratio). *)
Definition is_statistic (e : event) : bool :=
  match e with
  | FrameIsNaFraction | FrameVar _ _ | FrameCor _ _ | FrameSeries _ => true
  | _ => false
  end.

(** The events that read the frame at all. *)
Definition is_frame_access (e : event) : bool :=
  match e with
  | Warn _ | Train _ => false
  | _ => true
  end.

Definition result (A : Type) : Type := sum exn A.

(** A method of an object of type [O]: it reads and writes the object and
    appends to the log; an exception keeps what was written before it. *)
Definition M (O A : Type) : Type := O * list event -> (O * list event) * result A.

Definition ret {O A} (a : A) : M O A := fun w => (w, inr a).

Definition raise {O A} (e : exn) : M O A := fun w => (w, inl e).

Definition bind {O A B} (m : M O A) (k : A -> M O B) : M O B :=
  fun w =>
    match m w with
    | (w', inl e) => (w', inl e)
    | (w', inr a) => k a w'
    end.

Definition emit {O} (e : event) : M O unit :=
  fun w => ((fst w, snd w ++ [e]), inr tt).

Definition getself {O} : M O O := fun w => (w, inr (fst w)).

Definition modify {O} (f : O -> O) : M O unit :=
  fun w => ((f (fst w), snd w), inr tt).

(** A pure computation that may raise. *)
Definition lift {O A} (r : result A) : M O A := fun w => (w, r).

Declare Scope py_scope.
Delimit Scope py_scope with py.
Notation "'let*' x ':=' m 'in' k" := (bind m (fun x => k))
  (at level 10, x name, m at level 100, k at level 200) : py_scope.
Notation "'do' m 'then' k" := (bind m (fun _ => k))
  (at level 10, m at level 100, k at level 200) : py_scope.
Local Open Scope py_scope.

(** ** Frames *)

(** A column of an H2OFrame: its name and its cells, [None] for NA. *)
Record column : Type := Column {
  cname : string;
  cells : list (option Q)
}.

Definition frame : Type := list column.

(** [X.columns] *)
Definition columns (X : frame) : list string := map cname X.

(** [X.shape[0]] *)
Definition nrow (X : frame) : nat :=
  match X with
  | [] => O
  | c :: _ => length (cells c)
  end.

Definition find_column (name : string) (X : frame) : option column :=
  List.find (fun c => String.eqb name (cname c)) X.

(** [X[names]]: the named columns in the order asked for; a name the frame
    does not have is an error of the engine. *)
Fixpoint select (X : frame) (names : list string) : result frame :=
  match names with
  | [] => inr []
  | n :: rest =>
      match find_column n X with
      | None => inl (KeyError n)
      | Some c =>
          match select X rest with
          | inl e => inl e
          | inr cs => inr (c :: cs)
          end
      end
  end.

(** Number of NA cells of a column. *)
Definition na_count (c : column) : nat :=
  length (List.filter (fun x => match x with None => true | Some _ => false end) (cells c)).

(** [X.isna().sum()] *)
Definition isna_sum (X : frame) : nat :=
  fold_right Nat.add O (map na_count X).

(** The missing-value fraction of a column of [X]: its NA count over the
    row count of [X]. *)
Definition missing_fraction (X : frame) (c : column) : num :=
  num_div_nat (na_count c) (nrow X).

(** [X.isna().apply(lambda x: x.sum()) / X.shape[0]], one value per column. *)
Definition isna_fraction (X : frame) : list num :=
  map (missing_fraction X) X.

(** ** The environment

    What the selectors call but do not define: the frame engine's statistics
    and the two helpers of [skutil.feature_selection].  [py3] tells which
    major version of Python runs the code. *)

(** An entry of [correlations_]. *)
Record corr_record : Type := CorrRecord {
  cr_feature_x : string;
  cr_feature_y : string;
  cr_abs_corr : num;
  cr_dropped : string;
  cr_mac : num
}.

Definition matrix : Type := list (list num).

Class Env : Type := {
  py3 : bool;
  (* frame.var(na_rm=, use=): the covariance matrix *)
  h2o_var : frame -> bool -> string -> result matrix;
  (* frame.cor(use=, na_rm=): the correlation matrix *)
  h2o_cor : frame -> string -> bool -> result matrix;
  (* filter_collinearity(c, threshold), c labelled by the column names *)
  filter_collinearity :
    list string -> matrix -> pyval ->
    result (list string * list num * list corr_record);
  (* _near_zero_variance_ratio(series, ratio): the pair (ratio, drop flag) *)
  _near_zero_variance_ratio : column -> pyval -> num * num;
  (* numpy's array < operand for an operand that is neither a float nor an
     int of 64 bits: a sequence is broadcast against the array, a larger int
     and any other object are compared as numpy and Python see fit *)
  np_less : list num -> pyval -> result (list bool)
}.

(** ** Selectors *)

Inductive selector_class : Type :=
| H2OFeatureDropper
| H2OSparseFeatureDropper
| H2OMulticollinearityFilterer
| H2ONearZeroVarianceFilterer.

(** A selector object.  The constructor arguments come first, the attributes
    a fit creates last; [None] is an attribute the object does not have. *)
Record selector : Type := Selector {
  cls : selector_class;
  feature_names : pyval;
  target_feature : pyval;
  exclude_features : pyval;
  threshold : pyval;
  na_warn : bool;
  na_rm : bool;
  use : string;
  strategy : string;
  drop_ : option (list pyval);
  sparsity_ : option (list num);
  mean_abs_correlations_ : option (list num);
  correlations_ : option (list corr_record);
  var_ : option (gmap string num)
}.

Definition set_target_feature (v : pyval) (s : selector) : selector :=
  Selector (cls s) (feature_names s) v (exclude_features s) (threshold s)
    (na_warn s) (na_rm s) (use s) (strategy s) (drop_ s) (sparsity_ s)
    (mean_abs_correlations_ s) (correlations_ s) (var_ s).

Definition set_drop_ (v : list pyval) (s : selector) : selector :=
  Selector (cls s) (feature_names s) (target_feature s) (exclude_features s)
    (threshold s) (na_warn s) (na_rm s) (use s) (strategy s) (Some v)
    (sparsity_ s) (mean_abs_correlations_ s) (correlations_ s) (var_ s).

Definition set_sparsity_ (v : list num) (s : selector) : selector :=
  Selector (cls s) (feature_names s) (target_feature s) (exclude_features s)
    (threshold s) (na_warn s) (na_rm s) (use s) (strategy s) (drop_ s)
    (Some v) (mean_abs_correlations_ s) (correlations_ s) (var_ s).

Definition set_mean_abs_correlations_ (v : list num) (s : selector) : selector :=
  Selector (cls s) (feature_names s) (target_feature s) (exclude_features s)
    (threshold s) (na_warn s) (na_rm s) (use s) (strategy s) (drop_ s)
    (sparsity_ s) (Some v) (correlations_ s) (var_ s).

Definition set_correlations_ (v : list corr_record) (s : selector) : selector :=
  Selector (cls s) (feature_names s) (target_feature s) (exclude_features s)
    (threshold s) (na_warn s) (na_rm s) (use s) (strategy s) (drop_ s)
    (sparsity_ s) (mean_abs_correlations_ s) (Some v) (var_ s).

Definition set_var_ (v : gmap string num) (s : selector) : selector :=
  Selector (cls s) (feature_names s) (target_feature s) (exclude_features s)
    (threshold s) (na_warn s) (na_rm s) (use s) (strategy s) (drop_ s)
    (sparsity_ s) (mean_abs_correlations_ s) (correlations_ s) (Some v).

(** [dict(items)]: a later item overwrites an earlier one with its key. *)
Definition py_dict {V} (items : list (string * V)) : gmap string V :=
  fold_left (fun m kv => <[fst kv := snd kv]> m) items ∅.

(** *** Helpers of [skutil.utils] and [skutil.h2o.base] *)

(** Modelled from the spec: [is_numeric] of [skutil.utils], which is not among
    the sources; a threshold "must be numeric", that is an int or a float. *)
Definition is_numeric (v : pyval) : bool :=
  match v with
  | PyInt _ | PyFloat _ => true
  | _ => false
  end.

(** Modelled from the spec: [is_iterable] of [skutil.utils.fixes], which is
    not among the sources; a list or another iterable object is iterable,
    [None], a number and a single string are not ("an iterable of
    strings"). *)
Definition is_iterable (v : pyval) : bool :=
  match v with
  | PyList _ | PyIterable _ => true
  | _ => false
  end.

(** Modelled from the spec: [check_frame] of [skutil.h2o.base], which is not
    among the sources; it hands the frame back, copied when asked to.  A
    value of type [frame] is an H2OFrame, so the type check cannot fail. *)
Definition check_frame {O} (X : frame) (copy : bool) : M O frame :=
  if copy then
    do emit (FrameSubset (columns X)) then lift (select X (columns X))
  else ret X.

(** Modelled from the spec: [_retain_features] of [skutil.h2o.base], which is
    not among the sources; the names of [columns(frame) \ drop_], in the
    frame's order. *)
Definition _retain_features (X : frame) (exclude : list pyval) : list string :=
  List.filter (fun n => negb (existsb (py_eq_str n) exclude)) (columns X).

(** The frame [X] without the columns named in [drop]. *)
Definition without (drop : list pyval) (X : frame) : frame :=
  List.filter (fun c => negb (existsb (py_eq_str (cname c)) drop)) X.

Fixpoint str_list (l : list pyval) : option (list string) :=
  match l with
  | [] => Some []
  | PyStr s :: rest => option_map (cons s) (str_list rest)
  | _ :: _ => None
  end.

(** A list of names held in an attribute; a falsy attribute gives [dflt]. *)
Definition names_or (dflt : list string) (v : pyval) : result (list string) :=
  if truthy v then
    match v with
    | PyList l | PyIterable l =>
        match str_list l with
        | Some names => inr names
        | None => inl (TypeError "expected an iterable of strings")
        end
    | _ => inl (TypeError "expected an iterable of strings")
    end
  else inr dflt.

(** The candidate column names:
    [(feature_names or all columns) - exclude_features - {target_feature}]. *)
Definition candidate_names (X : frame) (fn tf ef : pyval) : result (list string) :=
  match names_or (columns X) fn with
  | inl e => inl e
  | inr names =>
      match names_or [] ef with
      | inl e => inl e
      | inr excl =>
          inr (List.filter
                 (fun n => negb (existsb (String.eqb n) excl) && negb (py_eq_str n tf))
                 names)
      end
  end.

(** Modelled from the spec: [_frame_from_x_y] of [skutil.h2o.base], which is
    not among the sources; it resolves the candidate columns and selects
    exactly those from the frame. *)
Definition _frame_from_x_y {O} (X : frame) (fn tf ef : pyval) : M O frame :=
  let* names := lift (candidate_names X fn tf ef) in
  do emit (FrameSubset names) then
  lift (select X names).

(** The candidate frame of a selector on [X]: the names it resolves to and
    the frame selected. *)
Definition resolves (s : selector) (X : frame) (names : list string) (cand : frame) : Prop :=
  candidate_names X (feature_names s) (target_feature s) (exclude_features s) = inr names
  /\ select X names = inr cand.

(** *** Constructors

    Each class stores its arguments; an attribute a class does not have is
    left at a value no method of that class reads. *)

Definition H2OFeatureDropper_init (feature_names target_feature exclude_features : pyval)
  : selector :=
  Selector H2OFeatureDropper feature_names target_feature exclude_features
    PyNone true false "complete.obs" "variance" None None None None None.

Definition H2OSparseFeatureDropper_init
    (feature_names target_feature exclude_features threshold : pyval) : selector :=
  Selector H2OSparseFeatureDropper feature_names target_feature exclude_features
    threshold true false "complete.obs" "variance" None None None None None.

Definition H2OMulticollinearityFilterer_init
    (feature_names target_feature exclude_features threshold : pyval)
    (na_warn na_rm : bool) (use : string) : selector :=
  Selector H2OMulticollinearityFilterer feature_names target_feature exclude_features
    threshold na_warn na_rm use "variance" None None None None None.

Definition H2ONearZeroVarianceFilterer_init
    (feature_names target_feature exclude_features threshold : pyval)
    (na_warn na_rm : bool) (use strategy : string) : selector :=
  Selector H2ONearZeroVarianceFilterer feature_names target_feature exclude_features
    threshold na_warn na_rm use strategy None None None None None.

(** *** [_validate_use] *)

Definition _valid_use : list string := ["complete.obs"; "all.obs"; "everything"].

Definition _validate_use {O} (X : frame) (use : string) (na_warn : bool) : M O string :=
  (* validate use *)
  if negb (existsb (String.eqb use) _valid_use) then
    raise (ValueError "expected one of (complete.obs, all.obs, everything)")
  (* check on NAs *)
  else if String.eqb use "complete.obs" then ret use
  else if na_warn then
    do emit FrameIsNaSum then
    let nasum := isna_sum X in
    if (0 <? nasum)%nat then
      do emit (Warn nasum) then ret "complete.obs"
    else ret use
  else ret use.

(** What [_validate_use] answers for a valid [use], and the events it
    leaves, as functions of its arguments. *)
Definition effective_use (X : frame) (use : string) (na_warn : bool) : string :=
  if String.eqb use "complete.obs" then use
  else if na_warn && (0 <? isna_sum X)%nat then "complete.obs"
  else use.

Definition use_events (X : frame) (use : string) (na_warn : bool) : list event :=
  if String.eqb use "complete.obs" then []
  else if na_warn then
    FrameIsNaSum :: (if (0 <? isna_sum X)%nat then [Warn (isna_sum X)] else [])
  else [].

(** *** [BaseH2OFeatureSelector.transform] *)

Definition transform (X : frame) : M selector frame :=
  let* self := getself in
  (* check_is_fitted(self, 'drop_') *)
  match drop_ self with
  | None => raise (NotFittedError "drop_")
  | Some drop =>
      let* X := check_frame X false in
      let names := _retain_features X drop in
      do emit (FrameSubset names) then
      lift (select X names)
  end.

(** *** [H2OFeatureDropper.fit] *)

Definition H2OFeatureDropper_fit (X : frame) : M selector unit :=
  let* self := getself in
  let fn := match feature_names self with PyNone => PyList [] | v => v end in
  if is_iterable fn then
    match fn with
    | PyList l | PyIterable l => modify (set_drop_ l)
    | _ => raise (TypeError "object is not iterable")
    end
  else raise (ValueError "expected iterable for feature_names").

(** *** [H2OSparseFeatureDropper.fit] *)

(** [0.0 <= thresh < 1.0] for a numeric [thresh]. *)
Definition in_unit_interval (thresh : pyval) : bool :=
  match as_num thresh with
  | Some t => num_leb (Fin 0) t && num_ltb t (Fin 1)
  | None => false
  end.

(** [ser > thresh], element by element.  The threshold has passed
    [is_numeric(thresh) and 0.0 <= thresh < 1.0] when this runs: it is a
    float or the int 0, and the last branch is never taken. *)
Definition gt_mask (ser : list num) (thresh : pyval) : result (list bool) :=
  match np_scalar thresh with
  | Some t => inr (map (fun v => num_ltb t v) ser)
  | None => inl (TypeError "invalid type comparison")
  end.

Fixpoint mask_filter {A} (xs : list A) (mask : list bool) : list A :=
  match xs, mask with
  | x :: xs', b :: mask' => if b then x :: mask_filter xs' mask' else mask_filter xs' mask'
  | _, _ => []
  end.

(** [xs[mask]] on arrays: the mask must be as long as the array. *)
Definition mask_select {A} (xs : list A) (mask : list bool) : result (list A) :=
  if (length xs =? length mask)%nat then inr (mask_filter xs mask)
  else inl (IndexError "boolean index did not match indexed array").

Definition H2OSparseFeatureDropper_fit (X : frame) : M selector unit :=
  let* X := check_frame X false in
  let* self := getself in
  let thresh := threshold self in
  (* do copy *)
  let* cand := _frame_from_x_y X (feature_names self) (target_feature self)
                                 (exclude_features self) in
  (* validate the threshold *)
  if negb (is_numeric thresh && in_unit_interval thresh) then
    raise (ValueError "thresh must be a float between 0 (inclusive) and 1")
  else
    do emit FrameIsNaFraction then
    let df := isna_fraction cand in
    do emit FrameColumns then
    let index := columns cand in
    let* mask := lift (gt_mask df thresh) in
    let* dropped := lift (mask_select index mask) in
    do modify (set_drop_ (map PyStr dropped)) then
    modify (set_sparsity_ df).

Section WithEnv.
Context {E : Env}.

(** *** [H2OMulticollinearityFilterer] *)

Definition H2OMulticollinearityFilterer_fit_transform (X : frame) : M selector frame :=
  let* X := check_frame X false in
  let* self := getself in
  let* cand := _frame_from_x_y X (feature_names self) (target_feature self)
                                 (exclude_features self) in
  (* validate use, check NAs *)
  let* use := _validate_use cand (use self) (na_warn self) in
  (* Generate absolute correlation matrix *)
  do emit (FrameCor use (na_rm self)) then
  let* c := lift (h2o_cor cand use (na_rm self)) in
  let c := map (map num_abs) c in
  do emit FrameColumns then
  do emit FrameColumns then
  let labels := columns cand in
  (* get drops list *)
  let* r := lift (filter_collinearity labels c (threshold self)) in
  let '(drop, macs, corrs) := r in
  do modify (set_drop_ (map PyStr drop)) then
  do modify (set_mean_abs_correlations_ macs) then
  do modify (set_correlations_ corrs) then
  transform X.

Definition H2OMulticollinearityFilterer_fit (X : frame) : M selector unit :=
  do H2OMulticollinearityFilterer_fit_transform X then
  ret tt.

(** *** [H2ONearZeroVarianceFilterer] *)

Definition valid_strategies : list string := ["variance"; "ratio"].

(** [diag < thresh], element by element.  Nothing has been asked of the
    threshold when this runs: what numpy does with an operand that is no
    number it holds in 64 bits is the environment's [np_less]. *)
Definition lt_mask (diag : list num) (thresh : pyval) : result (list bool) :=
  match np_scalar thresh with
  | Some t => inr (map (fun v => num_ltb v t) diag)
  | None => np_less diag thresh
  end.

(** [np.diagonal]: entry [i] of row [i], counted from row [i]. *)
Fixpoint diagonal_from (i : nat) (m : matrix) : list num :=
  match m with
  | [] => []
  | row :: rest =>
      match nth_error row i with
      | Some v => v :: diagonal_from (S i) rest
      | None => []
      end
  end.

Definition diagonal (m : matrix) : list num := diagonal_from 0 m.

(** [ratio > 1.0].  Python 3 refuses to order a number and a value of
    another type; Python 2 orders [None] below and every other type above
    the numbers. *)
Definition gt_one (ratio : pyval) : result bool :=
  match as_num ratio with
  | Some t => inr (num_ltb (Fin 1) t)
  | None =>
      if py3 then inl (TypeError "'>' not supported between these types")
      else inr (match ratio with PyNone => false | _ => true end)
  end.

(** [[_near_zero_variance_ratio(as_series(frame[col]), ratio)
      for col in frame.columns]] *)
Fixpoint ratio_rows (cand : frame) (names : list string) (ratio : pyval)
  : M selector (list (num * num)) :=
  match names with
  | [] => ret []
  | col :: rest =>
      do emit (FrameSeries col) then
      match find_column col cand with
      | None => raise (KeyError col)
      | Some c =>
          let* rows := ratio_rows cand rest ratio in
          ret (_near_zero_variance_ratio c ratio :: rows)
      end
  end.

Definition H2ONearZeroVarianceFilterer_fit_transform (X : frame) : M selector frame :=
  let* X := check_frame X false in
  let* self := getself in
  let* cand := _frame_from_x_y X (feature_names self) (target_feature self)
                                 (exclude_features self) in
  (* validate use, check NAs *)
  let* use := _validate_use cand (use self) (na_warn self) in
  do emit FrameColumns then
  let cols := columns cand in
  (* validate strategy *)
  if negb (existsb (String.eqb (strategy self)) valid_strategies) then
    raise (ValueError "strategy must be one of ('variance', 'ratio')")
  else if String.eqb (strategy self) "variance" then
    (* get covariance matrix, extract the diagonal *)
    do emit (FrameVar (na_rm self) use) then
    let* v := lift (h2o_var cand (na_rm self) use) in
    let diag := diagonal v in
    (* create mask *)
    let* var_mask := lift (lt_mask diag (threshold self)) in
    let* dropped := lift (mask_select cols var_mask) in
    do modify (set_drop_ (map PyStr dropped)) then
    do modify (set_var_ (py_dict (combine dropped (mask_filter diag var_mask)))) then
    transform X
  else
    (* validate ratio *)
    let ratio := threshold self in
    let* ok := lift (gt_one ratio) in
    if negb ok then
      raise (ValueError "when strategy=='ratio', threshold must be greater than 1.0")
    else
      (* get a np.array mask *)
      do emit FrameColumns then
      let* rows := ratio_rows cand (columns cand) ratio in
      match rows with
      | [] => raise (IndexError "too many indices for array")
      | _ :: _ =>
          let drop_mask := map (fun r => astype_bool (snd r)) rows in
          do emit FrameColumns then
          let* dropped := lift (mask_select (columns cand) drop_mask) in
          do modify (set_drop_ (map PyStr dropped)) then
          do modify (set_var_ (py_dict (combine dropped
                                          (mask_filter (map fst rows) drop_mask)))) then
          transform X
      end.

Definition H2ONearZeroVarianceFilterer_fit (X : frame) : M selector unit :=
  do H2ONearZeroVarianceFilterer_fit_transform X then
  ret tt.

End WithEnv.

(** ** The pipeline *)

Module H2OPipeline.

(** A step object: an instance of [BaseH2OTransformer] (here, one of the
    selectors), or any other object, of which the pipeline only asks whether
    it has a [train] method. *)
Inductive step_obj : Type :=
| Transformer (s : selector)
| Other (has_train : bool).

Definition isinstance_BaseH2OTransformer (o : step_obj) : bool :=
  match o with
  | Transformer _ => true
  | Other _ => false
  end.

Definition hasattr_train (o : step_obj) : bool :=
  match o with
  | Transformer _ => false
  | Other b => b
  end.

Record pipeline : Type := Pipeline {
  steps : list (string * step_obj);
  feature_names : pyval;
  target_feature : pyval;
  training_cols_ : option (list string)
}.

Definition set_steps (v : list (string * step_obj)) (p : pipeline) : pipeline :=
  Pipeline v (feature_names p) (target_feature p) (training_cols_ p).

Definition set_training_cols_ (v : option (list string)) (p : pipeline) : pipeline :=
  Pipeline (steps p) (feature_names p) (target_feature p) v.

(** What follows a leading ['__'], when the string starts with one. *)
Definition after_dunder (s : string) : option string :=
  match s with
  | String a (String b rest) =>
      if Ascii.eqb a "_"%char && Ascii.eqb b "_"%char then Some rest else None
  | _ => None
  end.

(** [pname.split('__', 1)], when it has two parts: the text before the
    first ['__'] and the text after it. *)
Fixpoint split_dunder (s : string) : option (string * string) :=
  match s with
  | EmptyString => None
  | String c rest =>
      match after_dunder s with
      | Some after => Some (EmptyString, after)
      | None =>
          match split_dunder rest with
          | Some (step, param) => Some (String c step, param)
          | None => None
          end
      end
  end.

(** The loop of [_pre_transform] that fills [fit_params_steps]. *)
Fixpoint split_fit_params (fit_params : list (string * pyval))
    (fit_params_steps : gmap string (gmap string pyval))
  : result (gmap string (gmap string pyval)) :=
  match fit_params with
  | [] => inr fit_params_steps
  | (pname, pval) :: rest =>
      match split_dunder pname with
      | None => inl (ValueError "need more than 1 value to unpack")
      | Some (step, param) =>
          match fit_params_steps !! step with
          | None => inl (KeyError step)
          | Some bucket =>
              split_fit_params rest (<[step := <[param := pval]> bucket]> fit_params_steps)
          end
      end
  end.

(** [fit_params_steps[step][param]], when both keys are there. *)
Definition bucket_lookup (fit_params_steps : gmap string (gmap string pyval))
    (step param : string) : option pyval :=
  match fit_params_steps !! step with
  | Some bucket => bucket !! param
  | None => None
  end.

(** [dict((step, {}) for step, _ in self.steps)] *)
Definition empty_buckets (steps : list (string * step_obj))
  : gmap string (gmap string pyval) :=
  py_dict (map (fun st => (fst st, (∅ : gmap string pyval))) steps).

(** Run a method of the transformer at position [i] of [self.steps]; what it
    writes to the transformer stays written, also when it raises.  A step
    holds its transformer by value: a list of steps that names one and the
    same object twice is read as a list of two transformers. *)
Definition with_step {A} (i : nat) (m : M selector A) : M pipeline A :=
  fun w =>
    match steps (fst w) !! i with
    | Some (name, Transformer s) =>
        let '((s', log'), r) := m (s, snd w) in
        ((set_steps (<[i := (name, Transformer s')]> (steps (fst w))) (fst w), log'), r)
    | _ => (w, inl (AttributeError "fit_transform"))
    end.

Section WithEnv.
Context {E : Env}.

(** [hasattr(x, '__iter__')]: a list and an iterable object have it; a
    string only in Python 3. *)
Definition hasattr_iter (x : pyval) : bool :=
  match x with
  | PyList _ | PyIterable _ => true
  | PyStr _ => py3
  | _ => false
  end.

Definition _val_features (x : pyval) : result pyval :=
  if negb (truthy x) then inl (ValueError "invalid value for feature_names")
  else if negb (hasattr_iter x) then inl (TypeError "expected iterable for feature_names")
  else inr x.

(** The constructor.  The base constructor stores [target_feature]; its
    version gate is not modelled. *)
Definition __init__ (steps : list (string * step_obj))
    (feature_names target_feature : pyval) : result pipeline :=
  match _val_features feature_names with
  | inl e => inl e
  | inr fn =>
      match steps with
      | [] => inl (ValueError "need more than 0 values to unpack")
      | _ :: _ =>
          if negb (size (py_dict steps) =? length steps)%nat then
            inl (ValueError "Provided step names are not unique")
          else
            let estimators := map snd steps in
            if negb (forallb isinstance_BaseH2OTransformer (removelast estimators)) then
              inl (TypeError "All intermediate steps of the chain should be instances of BaseH2OTransformer")
            else if negb (hasattr_train (List.last estimators (Other false))) then
              inl (TypeError "Last step of chain should implement train")
            else inr (Pipeline steps fn target_feature None)
      end
  end.

(** A call [transform.fit_transform(frameT, **kwargs)], or
    [transform.fit(frameT, **kwargs).transform(frameT)] for a class without
    [fit_transform]: the two agree on the droppers.  No selector method takes
    a keyword argument. *)
Definition fit_transform (X : frame) (kwargs : gmap string pyval) : M selector frame :=
  if negb (size kwargs =? 0)%nat then
    raise (TypeError "got an unexpected keyword argument")
  else
    let* self := getself in
    match cls self with
    | H2OFeatureDropper => do H2OFeatureDropper_fit X then transform X
    | H2OSparseFeatureDropper => do H2OSparseFeatureDropper_fit X then transform X
    | H2OMulticollinearityFilterer => H2OMulticollinearityFilterer_fit_transform X
    | H2ONearZeroVarianceFilterer => H2ONearZeroVarianceFilterer_fit_transform X
    end.

(** [for name, transform in self.steps[:-1]: ...], from position [i] on. *)
Fixpoint run_transforms (fit_params_steps : gmap string (gmap string pyval))
    (i : nat) (names : list string) (frameT : frame) : M pipeline frame :=
  match names with
  | [] => ret frameT
  | name :: rest =>
      let* self := getself in
      do with_step i (modify (set_target_feature (target_feature self))) then
      let* frameT' :=
        with_step i (fit_transform frameT (default ∅ (fit_params_steps !! name))) in
      run_transforms fit_params_steps (S i) rest frameT'
  end.

Definition _pre_transform (frame0 : frame) (fit_params : list (string * pyval))
  : M pipeline (frame * gmap string pyval) :=
  let* self := getself in
  let* fit_params_steps :=
    lift (split_fit_params fit_params (empty_buckets (steps self))) in
  let* frameT :=
    run_transforms fit_params_steps 0 (removelast (map fst (steps self))) frame0 in
  (* this will have y and exclude re-combined in the matrix *)
  match List.last (map (fun st => Some (fst st)) (steps self)) None with
  | None => raise (IndexError "list index out of range")
  | Some final =>
      match fit_params_steps !! final with
      | None => raise (KeyError final)
      | Some bucket => ret (frameT, bucket)
      end
  end.

Definition _reset : M pipeline unit := modify (set_training_cols_ None).

(** What [for i in n] runs over. *)
Definition py_iter (v : pyval) : result (list pyval) :=
  match v with
  | PyList l | PyIterable l => inr l
  | PyStr s => inr (map (fun c => PyStr (String c EmptyString)) (list_ascii_of_string s))
  | _ => inl (TypeError "object is not iterable")
  end.

(** [for n in (x): if n and not all([isinstance(i, str) for i in n]): raise] *)
Fixpoint check_names (x : list pyval) : result unit :=
  match x with
  | [] => inr tt
  | n :: rest =>
      if truthy n then
        match py_iter n with
        | inl e => inl e
        | inr items =>
            if negb (forallb isinstance_str items) then
              inl (TypeError "feature_names must be a list of strings")
            else check_names rest
        end
      else check_names rest
  end.

(** [fit(frame, **kwargs)]: the method is declared as [fit(self, frame=None)],
    so a call that supplies a keyword argument besides [frame] does not bind. *)
Definition fit (frame0 : frame) (kwargs : list (string * pyval)) : M pipeline unit :=
  match kwargs with
  | _ :: _ => raise (TypeError "fit() got an unexpected keyword argument")
  | [] =>
      do _reset then (* reset if needed *)
      let* self := getself in
      let x := feature_names self in
      (* we need a y for the pipeline *)
      match target_feature self with
      | PyStr y =>
          (* make sure they're strings *)
          let* names := lift (py_iter x) in
          do lift (check_names names) then
          (* First, if there are any columns in the frame that are not in x, y drop them *)
          match str_list (names ++ [PyStr y]) with
          | None => raise (TypeError "column names must be strings")
          | Some xy =>
              (* retain only XY *)
              do emit (FrameSubset xy) then
              let* frame1 := lift (select frame0 xy) in
              (* get the fit *)
              let* r := _pre_transform frame1 [] in
              let '(Xt, fit_params) := r in
              (* get the names of the matrix that are not Y *)
              do emit FrameColumns then
              let training_cols := columns Xt in
              do modify (set_training_cols_
                           (Some (List.filter (fun n => negb (String.eqb n y)) training_cols))) then
              match training_cols with
              | [] => raise (ValueError "no columns retained after fit!")
              | _ :: _ =>
                  let* self := getself in
                  if hasattr_train (List.last (map snd (steps self)) (Other false)) then
                    emit (Train (TrainCall (columns Xt)
                                   (default [] (training_cols_ self)) y fit_params))
                  else raise (AttributeError "train")
              end
          end
      | _ => raise (TypeError "target_feature should be a single string")
      end
  end.

End WithEnv.

(** [named_steps]: [dict(self.steps)] *)
Definition named_steps (p : pipeline) : gmap string step_obj := py_dict (steps p).

(** [_final_estimator]: [self.steps[-1][1]] *)
Definition _final_estimator (p : pipeline) : result step_obj :=
  match List.last (map (fun st => Some (snd st)) (steps p)) None with
  | Some o => inr o
  | None => inl (IndexError "list index out of range")
  end.

(** [for name, transform in self.steps[:-1]: Xt = transform.transform(Xt)],
    from position [i] on. *)
Fixpoint predict_transforms (i : nat) (names : list string) (Xt : frame)
  : M pipeline frame :=
  match names with
  | [] => ret Xt
  | _ :: rest =>
      let* Xt' := with_step i (transform Xt) in
      predict_transforms (S i) rest Xt'
  end.

(** [predict(frame)].  The method is guarded by
    [if_delegate_has_method(delegate='_final_estimator')]: it is there only
    when the final estimator has a [predict]; [delegate_predict] is that
    method, [None] when the estimator has none. *)
Definition predict {A} (delegate_predict : option (frame -> result A)) (X : frame)
  : M pipeline A :=
  let* self := getself in
  let* _ := lift (_final_estimator self) in
  match delegate_predict with
  | None => raise (AttributeError "predict")
  | Some estimator_predict =>
      let* Xt := predict_transforms 0 (removelast (map fst (steps self))) X in
      lift (estimator_predict Xt)
  end.

End H2OPipeline.

(** ** Sample data

    A small frame and an engine that answers from a table, to run the
    methods on. *)

(** Four rows; [a] misses 3 of 4 cells, [b] 2 of 4, [c] and [y] none. *)
Definition sample_frame : frame :=
  [ Column "a" [Some 1%Q; None; None; None];
    Column "b" [Some 1%Q; Some 1%Q; None; None];
    Column "c" [Some 1%Q; Some 2%Q; Some 3%Q; Some 5%Q];
    Column "y" [Some 0%Q; Some 1%Q; Some 0%Q; Some 1%Q] ].

(** A square matrix with [d] on its diagonal and zeros elsewhere. *)
Definition diag_matrix (d : list num) : matrix :=
  imap (fun i v => <[i := v]> (replicate (length d) (Fin 0))) d.

(** The engine of the samples: every column has variance [1/4] but [c],
    which has the double nearest to [35/12]; columns are uncorrelated;
    nothing is collinear and no column is dominated by one value. *)
Definition sample_env : Env := {|
  py3 := true;
  h2o_var := fun X _ _ =>
    inr (diag_matrix (map (fun c => if String.eqb (cname c) "c"
                                    then double (35 # 12) else Fin (1 # 4)) X));
  h2o_cor := fun X _ _ => inr (diag_matrix (map (fun _ => Fin 1) X));
  filter_collinearity := fun _ _ _ => inr ([], [], []);
  _near_zero_variance_ratio := fun _ _ => (Fin 1, Fin 0);
  np_less := fun _ _ => inl (TypeError "'<' not supported between these types")
|}.

Definition sample_estimator : H2OPipeline.step_obj := H2OPipeline.Other true.

(** [H2ONearZeroVarianceFilterer(threshold=1, use='everything')] on the
    target [y]. *)
Definition sample_nzv : selector :=
  H2ONearZeroVarianceFilterer_init PyNone (PyStr "y") PyNone (PyInt 1)
    true false "everything" "variance".

(** [H2OPipeline([('drop', H2OFeatureDropper(['a'])), ('model', Estimator())],
                feature_names=['a', 'b'], target_feature='y')] *)
Definition sample_pipeline : H2OPipeline.pipeline :=
  H2OPipeline.Pipeline
    [("drop", H2OPipeline.Transformer
                (H2OFeatureDropper_init (PyList [PyStr "a"]) PyNone PyNone));
     ("model", sample_estimator)]
    (PyList [PyStr "a"; PyStr "b"]) (PyStr "y") None.

(** The same pipeline on the single feature [a], which its dropper drops. *)
Definition sample_pipeline_one : H2OPipeline.pipeline :=
  H2OPipeline.Pipeline (H2OPipeline.steps sample_pipeline)
    (PyList [PyStr "a"]) (PyStr "y") None.

(** A pipeline whose dropper drops the single feature and the target. *)
Definition sample_pipeline_drop_all : H2OPipeline.pipeline :=
  H2OPipeline.Pipeline
    [("drop", H2OPipeline.Transformer
                (H2OFeatureDropper_init (PyList [PyStr "a"; PyStr "y"]) PyNone PyNone));
     ("model", sample_estimator)]
    (PyList [PyStr "a"]) (PyStr "y") None.

(** An engine like that of the samples, in which [a] is dominated by one
    value: thirty times as frequent as the next. *)
Definition sample_env_ratio : Env := {|
  py3 := true;
  h2o_var := @h2o_var sample_env;
  h2o_cor := @h2o_cor sample_env;
  filter_collinearity := @filter_collinearity sample_env;
  _near_zero_variance_ratio := fun c _ =>
    if String.eqb (cname c) "a" then (Fin 30, Fin 1) else (Fin 1, Fin 0);
  np_less := @np_less sample_env
|}.




(** An engine like that of the samples, in which [a] and [b] are correlated
    at [-0.875] and [c] with neither; its stand-in for [filter_collinearity]
    drops the second column when the correlation it is handed for the first
    two is above the threshold. *)
Definition sample_env_collinear : Env := {|
  py3 := true;
  h2o_var := @h2o_var sample_env;
  h2o_cor := fun _ _ _ =>
    inr [[Fin 1; Fin (-7 # 8); Fin 0];
         [Fin (-7 # 8); Fin 1; Fin 0];
         [Fin 0; Fin 0; Fin 1]];
  filter_collinearity := fun labels c threshold =>
    match as_num threshold, c, labels with
    | Some t, (_ :: r :: _) :: _, x :: y :: _ =>
        if num_ltb t r then inr ([y], [r], [CorrRecord x y r y r])
        else inr ([], [], [])
    | _, _, _ => inr ([], [], [])
    end;
  _near_zero_variance_ratio := @_near_zero_variance_ratio sample_env;
  np_less := @np_less sample_env
|}.

(** [H2OMulticollinearityFilterer(threshold=0.85)] on the target [y]. *)
Definition sample_mcf : selector :=
  H2OMulticollinearityFilterer_init PyNone (PyStr "y") PyNone
    (py_float (85 # 100)) true false "complete.obs".

(** [H2ONearZeroVarianceFilterer(threshold=20, strategy='ratio')] on the
    target [y]. *)
Definition sample_nzv_ratio_ok : selector :=
  H2ONearZeroVarianceFilterer_init PyNone (PyStr "y") PyNone (PyInt 20)
    true false "complete.obs" "ratio".

(** [H2OFeatureDropper()] with the default [feature_names=None]. *)
Definition sample_dropper_none : selector :=
  H2OFeatureDropper_init PyNone PyNone PyNone.


(** [H2OSparseFeatureDropper(threshold=0.5)] on the target [y]. *)
Definition sample_sparse : selector :=
  H2OSparseFeatureDropper_init PyNone (PyStr "y") PyNone (PyFloat (Fin (1 # 2))).

(** Ten rows; [a] misses 3 of 10 cells, [b] 4 of 10, [y] none. *)
Definition sample_frame_tenths : frame :=
  [ Column "a" (replicate 3 None ++ replicate 7 (Some 1%Q));
    Column "b" (replicate 4 None ++ replicate 6 (Some 1%Q));
    Column "y" (replicate 10 (Some 0%Q)) ].

(** [H2OSparseFeatureDropper(threshold=0.3)] on the target [y]: the
    threshold is the double nearest to three tenths,
    [5404319552844595 / 2^54], which is below three tenths. *)
Definition sample_sparse_tenths : selector :=
  H2OSparseFeatureDropper_init PyNone (PyStr "y") PyNone (py_float (3 # 10)).


(** [H2OSparseFeatureDropper(threshold=1.5)]: the threshold is out of
    domain. *)
Definition sample_sparse_bad : selector :=
  H2OSparseFeatureDropper_init PyNone (PyStr "y") PyNone (PyFloat (Fin (3 # 2))).

(** [H2ONearZeroVarianceFilterer(use='everything', strategy='mode')]: the
    strategy is not a valid one. *)
Definition sample_nzv_bad : selector :=
  H2ONearZeroVarianceFilterer_init PyNone (PyStr "y") PyNone (PyInt 1)
    true false "everything" "mode".

(** The candidate frame of the samples: all columns but the target. *)
Definition sample_candidates : frame := removelast sample_frame.

(** ** Configuration and fitted state *)

(** What the constructor of a selector stores. *)
Definition config (s : selector) :=
  (cls s, feature_names s, target_feature s, exclude_features s, threshold s,
   na_warn s, na_rm s, use s, strategy s).

(** The target a selector holds. *)
Definition target_of (s : selector) : pyval := target_feature s.

Definition is_train (e : event) : bool :=
  match e with
  | Train _ => true
  | _ => false
  end.

(** A selector method keeps the configuration and only appends to the log,
    and what it appends is never a training call. *)
Definition keeps_config {A} (m : M selector A) : Prop :=
  forall s log,
    config (fst (fst (m (s, log)))) = config s
    /\ exists rest,
         snd (fst (m (s, log))) = log ++ rest
         /\ Forall (fun e => is_train e = false) rest.

(** A selector method that never writes to the object. *)
Definition readonly {A} (m : M selector A) : Prop :=
  forall s log, fst (fst (m (s, log))) = s.

(** A selector method that either raises with the object as it was, or
    returns with a [drop_] in place. *)
Definition atomic_fit {A} (m : M selector A) : Prop :=
  forall s log,
    match snd (m (s, log)) with
    | inl _ => fst (fst (m (s, log))) = s
    | inr _ => drop_ (fst (fst (m (s, log)))) <> None
    end.

(** A selector method that, on a fitted object, returns and keeps it
    fitted. *)
Definition total_on_fitted {A} (m : M selector A) : Prop :=
  forall s log,
    drop_ s <> None ->
    (exists a, snd (m (s, log)) = inr a) /\ drop_ (fst (fst (m (s, log)))) <> None.

(** A selector method that returns a frame leaves a [drop_] behind and
    returns columns of [X]: those that [drop_] does not name. *)
Definition ends_fitted (X : frame) (m : M selector frame) : Prop :=
  forall s log Xt,
    snd (m (s, log)) = inr Xt ->
    exists drop,
      drop_ (fst (fst (m (s, log)))) = Some drop
      /\ columns Xt = _retain_features X drop
      /\ incl Xt X.

(** The drop list of the transformer at position [i], when it is fitted. *)
Definition step_drop (p : H2OPipeline.pipeline) (i : nat) : option (list pyval) :=
  match H2OPipeline.steps p !! i with
  | Some (_, H2OPipeline.Transformer s) => drop_ s
  | _ => None
  end.

(** [p'] is [p] after the loop of [_pre_transform] has run over the [n]
    steps from position [i]: each of them is the transformer it was, given
    the pipeline's target and fitted; nothing else has changed. *)
Definition refitted (p p' : H2OPipeline.pipeline) (i n : nat) : Prop :=
  H2OPipeline.feature_names p' = H2OPipeline.feature_names p
  /\ H2OPipeline.target_feature p' = H2OPipeline.target_feature p
  /\ H2OPipeline.training_cols_ p' = H2OPipeline.training_cols_ p
  /\ length (H2OPipeline.steps p') = length (H2OPipeline.steps p)
  /\ (forall j, (j < i \/ i + n <= j)%nat ->
        H2OPipeline.steps p' !! j = H2OPipeline.steps p !! j)
  /\ (forall j, (i <= j < i + n)%nat ->
        exists name s s' drop,
          H2OPipeline.steps p !! j = Some (name, H2OPipeline.Transformer s)
          /\ H2OPipeline.steps p' !! j = Some (name, H2OPipeline.Transformer s')
          /\ config s' = config (set_target_feature (H2OPipeline.target_feature p) s)
          /\ drop_ s' = Some drop).

(** The drop lists of the [n] steps from position [i], one after the
    other. *)
Definition drops_from (p : H2OPipeline.pipeline) (i n : nat) : list pyval :=
  flat_map (fun j => default [] (step_drop p j)) (seq i n).

(** * Properties *)

(** Unfold the monad's operations at the head of a goal. *)
Ltac run :=
  unfold bind, ret, raise, emit, getself, modify, lift, check_frame; simpl.

Lemma existsb_eqb_In (u : string) (l : list string) :
  existsb (String.eqb u) l = true <-> In u l.
Proof.
  rewrite existsb_exists. split.
  - intros [x [Hin Heq]]. apply String.eqb_eq in Heq. now subst.
  - intros Hin. exists u. split; [assumption | apply String.eqb_refl].
Qed.

Lemma existsb_eqb_not_In (u : string) (l : list string) :
  existsb (String.eqb u) l = false <-> ~ In u l.
Proof.
  rewrite <- existsb_eqb_In. destruct (existsb (String.eqb u) l); split; intros H.
  - discriminate.
  - exfalso. now apply H.
  - intros Hc. discriminate.
  - reflexivity.
Qed.

Lemma Qlt_bool_iff (x y : Q) : Qlt_bool x y = true <-> (x < y)%Q.
Proof. unfold Qlt_bool, Qlt. apply Z.ltb_lt. Qed.

(** ** [_validate_use] *)

Lemma validate_use_invalid {O : Type} (X : frame) (u : string) (warn : bool)
    (w : O * list event) :
  ~ In u _valid_use ->
  _validate_use X u warn w =
    (w, inl (ValueError "expected one of (complete.obs, all.obs, everything)")).
Proof.
  intros Hu. apply existsb_eqb_not_In in Hu.
  unfold _validate_use. rewrite Hu. reflexivity.
Qed.

Lemma validate_use_forced {O : Type} (X : frame) (u : string) (w : O * list event) :
  In u _valid_use -> u <> "complete.obs" -> (0 < isna_sum X)%nat ->
  _validate_use X u true w =
    ((fst w, snd w ++ [FrameIsNaSum; Warn (isna_sum X)]), inr "complete.obs").
Proof.
  intros Hu Hne Hna. apply existsb_eqb_In in Hu.
  apply String.eqb_neq in Hne. apply Nat.ltb_lt in Hna.
  unfold _validate_use. rewrite Hu, Hne. run. rewrite Hna. run.
  now rewrite <- app_assoc.
Qed.

Lemma validate_use_honored {O : Type} (X : frame) (u : string) (w : O * list event) :
  In u _valid_use ->
  _validate_use X u false w = (w, inr u).
Proof.
  intros Hu. apply existsb_eqb_In in Hu.
  unfold _validate_use. rewrite Hu. simpl.
  destruct (String.eqb u "complete.obs"); reflexivity.
Qed.

Lemma frame_from_x_y_resolves {O : Type} (s : selector) (X : frame)
    (names : list string) (cand : frame) (w : O * list event) :
  resolves s X names cand ->
  _frame_from_x_y X (feature_names s) (target_feature s) (exclude_features s) w =
    ((fst w, snd w ++ [FrameSubset names]), inr cand).
Proof.
  intros [Hn Hs]. unfold _frame_from_x_y. run. rewrite Hn. simpl. now rewrite Hs.
Qed.

(** The first steps of the two filterers' [fit_transform], up to the call of
    [_validate_use] on the candidate frame. *)
Ltac prologue Hres :=
  unfold bind at 1; unfold check_frame; unfold ret at 1;
  unfold bind at 1; unfold getself; simpl fst;
  unfold bind at 1; rewrite (frame_from_x_y_resolves _ _ _ _ _ Hres);
  simpl fst; simpl snd; unfold bind at 1.

(** Close a goal [exists rest, l = log ++ prefix ++ rest] on explicit logs. *)
Ltac log_prefix :=
  repeat rewrite <- app_assoc; simpl; eexists; reflexivity.

Section UsePolicy.
Context {E : Env}.
Variables (s : selector) (X : frame) (names : list string) (cand : frame).
Variable (log : list event).
Hypothesis Hres : resolves s X names cand.

Lemma mcf_invalid_use :
  ~ In (use s) _valid_use ->
  H2OMulticollinearityFilterer_fit_transform X (s, log) =
    ((s, log ++ [FrameSubset names]),
     inl (ValueError "expected one of (complete.obs, all.obs, everything)")).
Proof.
  intros Hu. unfold H2OMulticollinearityFilterer_fit_transform. prologue Hres.
  now rewrite (validate_use_invalid _ _ _ _ Hu).
Qed.

Lemma nzv_invalid_use :
  ~ In (use s) _valid_use ->
  H2ONearZeroVarianceFilterer_fit_transform X (s, log) =
    ((s, log ++ [FrameSubset names]),
     inl (ValueError "expected one of (complete.obs, all.obs, everything)")).
Proof.
  intros Hu. unfold H2ONearZeroVarianceFilterer_fit_transform. prologue Hres.
  now rewrite (validate_use_invalid _ _ _ _ Hu).
Qed.

(** What the multicollinearity filterer does once [_validate_use] has
    answered [u]: it asks the engine for the correlations under [u]. *)
Lemma mcf_calls_cor (u : string) (pre : list event) :
  _validate_use cand (use s) (na_warn s) (s, log ++ [FrameSubset names]) =
    ((s, (log ++ [FrameSubset names]) ++ pre), inr u) ->
  exists rest,
    snd (fst (H2OMulticollinearityFilterer_fit_transform X (s, log))) =
      log ++ [FrameSubset names] ++ pre ++ [FrameCor u (na_rm s)] ++ rest.
Proof.
  intros Hv. unfold H2OMulticollinearityFilterer_fit_transform. prologue Hres.
  rewrite Hv. run.
  destruct (h2o_cor cand u (na_rm s)) as [e|c]; run; [log_prefix|].
  destruct (filter_collinearity _ _ _) as [e|[[d m] r]]; run; [log_prefix|].
  unfold transform. run. log_prefix.
Qed.

(** Likewise for the variance strategy of the near-zero-variance filterer. *)
Lemma nzv_calls_var (u : string) (pre : list event) :
  strategy s = "variance" ->
  _validate_use cand (use s) (na_warn s) (s, log ++ [FrameSubset names]) =
    ((s, (log ++ [FrameSubset names]) ++ pre), inr u) ->
  exists rest,
    snd (fst (H2ONearZeroVarianceFilterer_fit_transform X (s, log))) =
      log ++ [FrameSubset names] ++ pre ++ [FrameColumns; FrameVar (na_rm s) u] ++ rest.
Proof.
  intros Hst Hv. unfold H2ONearZeroVarianceFilterer_fit_transform. prologue Hres.
  rewrite Hv. run. rewrite Hst. simpl.
  destruct (h2o_var cand (na_rm s) u) as [e|v]; run; [log_prefix|].
  destruct (lt_mask _ _) as [e|mask]; run; [log_prefix|].
  destruct (mask_select _ _) as [e|dropped]; run; [log_prefix|].
  unfold transform. run. log_prefix.
Qed.

End UsePolicy.

(** C6: when H2OMulticollinearityFilterer or H2ONearZeroVarianceFilterer is
    fitted on a frame whose candidate columns resolve, (1) a [use] outside
    {'complete.obs', 'all.obs', 'everything'} raises a ValueError; (2) if
    [use] is valid but not 'complete.obs', [na_warn] is true and the candidate
    frame holds at least one NA, [_validate_use] counts the NAs, warns and
    answers 'complete.obs', and that is the policy the engine is then called
    with; (3) with [na_warn] false the caller's [use] is answered unchanged,
    without counting or warning, and is what the engine is called with. *)
Theorem use_policy_on_fit {E : Env} (s : selector) (X : frame)
    (names : list string) (cand : frame) (log : list event) :
  resolves s X names cand ->
  (~ In (use s) _valid_use ->
     exists msg,
       H2OMulticollinearityFilterer_fit_transform X (s, log) =
         ((s, log ++ [FrameSubset names]), inl (ValueError msg))
       /\ H2ONearZeroVarianceFilterer_fit_transform X (s, log) =
            ((s, log ++ [FrameSubset names]), inl (ValueError msg)))
  /\ (In (use s) _valid_use -> use s <> "complete.obs" -> na_warn s = true ->
      (0 < isna_sum cand)%nat ->
        _validate_use cand (use s) (na_warn s) (s, log) =
          ((s, log ++ [FrameIsNaSum; Warn (isna_sum cand)]), inr "complete.obs")
        /\ (exists rest,
              snd (fst (H2OMulticollinearityFilterer_fit_transform X (s, log))) =
                log ++ [FrameSubset names; FrameIsNaSum; Warn (isna_sum cand);
                        FrameCor "complete.obs" (na_rm s)] ++ rest)
        /\ (strategy s = "variance" ->
            exists rest,
              snd (fst (H2ONearZeroVarianceFilterer_fit_transform X (s, log))) =
                log ++ [FrameSubset names; FrameIsNaSum; Warn (isna_sum cand);
                        FrameColumns; FrameVar (na_rm s) "complete.obs"] ++ rest))
  /\ (In (use s) _valid_use -> na_warn s = false ->
        _validate_use cand (use s) (na_warn s) (s, log) = ((s, log), inr (use s))
        /\ (exists rest,
              snd (fst (H2OMulticollinearityFilterer_fit_transform X (s, log))) =
                log ++ [FrameSubset names; FrameCor (use s) (na_rm s)] ++ rest)
        /\ (strategy s = "variance" ->
            exists rest,
              snd (fst (H2ONearZeroVarianceFilterer_fit_transform X (s, log))) =
                log ++ [FrameSubset names; FrameColumns;
                        FrameVar (na_rm s) (use s)] ++ rest)).
Proof.
  intros Hres. split; [|split].
  - intros Hu. eexists. split.
    + now apply mcf_invalid_use with (cand := cand).
    + now apply nzv_invalid_use with (cand := cand).
  - intros Hu Hne Hw Hna. rewrite Hw.
    assert (Hv : forall l, _validate_use cand (use s) true (s, l) =
                   ((s, l ++ [FrameIsNaSum; Warn (isna_sum cand)]), inr "complete.obs")).
    { intros l. now rewrite (validate_use_forced cand (use s) (s, l) Hu Hne Hna). }
    split; [apply Hv|split].
    + destruct (mcf_calls_cor s X names cand log Hres "complete.obs"
                  [FrameIsNaSum; Warn (isna_sum cand)]) as [rest Hrest].
      { rewrite Hw. apply Hv. }
      exists rest. exact Hrest.
    + intros Hst.
      destruct (nzv_calls_var s X names cand log Hres "complete.obs"
                  [FrameIsNaSum; Warn (isna_sum cand)] Hst) as [rest Hrest].
      { rewrite Hw. apply Hv. }
      exists rest. exact Hrest.
  - intros Hu Hw. rewrite Hw.
    assert (Hv : forall l, _validate_use cand (use s) false (s, l) = ((s, l), inr (use s))).
    { intros l. now rewrite (validate_use_honored cand (use s) (s, l) Hu). }
    split; [apply Hv|split].
    + destruct (mcf_calls_cor s X names cand log Hres (use s) []) as [rest Hrest].
      { rewrite Hw, app_nil_r. apply Hv. }
      exists rest. exact Hrest.
    + intros Hst.
      destruct (nzv_calls_var s X names cand log Hres (use s) [] Hst) as [rest Hrest].
      { rewrite Hw, app_nil_r. apply Hv. }
      exists rest. exact Hrest.
Qed.

Lemma use_policy_on_fit_witness :
  exists rest,
    snd (fst (@H2ONearZeroVarianceFilterer_fit_transform sample_env sample_frame
                (sample_nzv, []))) =
      [FrameSubset ["a"; "b"; "c"]; FrameIsNaSum; Warn 5;
       FrameColumns; FrameVar false "complete.obs"] ++ rest.
Proof.
  destruct (@use_policy_on_fit sample_env sample_nzv sample_frame
              ["a"; "b"; "c"] sample_candidates [])
    as (_ & Hforced & _).
  - split; reflexivity.
  - destruct Hforced as (_ & _ & Hvar).
    + simpl. auto.
    + discriminate.
    + reflexivity.
    + vm_compute. lia.
    + apply Hvar. reflexivity.
Defined.

(** ** [fit] and [fit_transform] of the two filterers *)

(** C9: for H2OMulticollinearityFilterer and H2ONearZeroVarianceFilterer,
    [fit] on a frame leaves the object (hence [drop_],
    [mean_abs_correlations_], [correlations_] and [var_]) and the log exactly
    as [fit_transform] on that frame does; the two differ only in the value
    returned: [fit] raises what [fit_transform] raises and otherwise returns
    the object instead of the transformed frame. *)
Theorem fit_leaves_fit_transform_state {E : Env} (X : frame) (w : selector * list event) :
  (fst (H2OMulticollinearityFilterer_fit X w) =
     fst (H2OMulticollinearityFilterer_fit_transform X w)
   /\ snd (H2OMulticollinearityFilterer_fit X w) =
        match snd (H2OMulticollinearityFilterer_fit_transform X w) with
        | inl e => inl e
        | inr _ => inr tt
        end)
  /\ (fst (H2ONearZeroVarianceFilterer_fit X w) =
        fst (H2ONearZeroVarianceFilterer_fit_transform X w)
      /\ snd (H2ONearZeroVarianceFilterer_fit X w) =
           match snd (H2ONearZeroVarianceFilterer_fit_transform X w) with
           | inl e => inl e
           | inr _ => inr tt
           end)
  /\ (let a := fst (fst (H2OMulticollinearityFilterer_fit X w)) in
      let b := fst (fst (H2OMulticollinearityFilterer_fit_transform X w)) in
      drop_ a = drop_ b
      /\ mean_abs_correlations_ a = mean_abs_correlations_ b
      /\ correlations_ a = correlations_ b)
  /\ (let a := fst (fst (H2ONearZeroVarianceFilterer_fit X w)) in
      let b := fst (fst (H2ONearZeroVarianceFilterer_fit_transform X w)) in
      drop_ a = drop_ b /\ var_ a = var_ b).
Proof.
  unfold H2OMulticollinearityFilterer_fit, H2ONearZeroVarianceFilterer_fit, bind.
  destruct (H2OMulticollinearityFilterer_fit_transform X w) as [[s1 l1] [e1|f1]];
    destruct (H2ONearZeroVarianceFilterer_fit_transform X w) as [[s2 l2] [e2|f2]];
    simpl; repeat split; reflexivity.
Qed.

(** ** [H2OFeatureDropper.fit] *)




(** ** Construction of the pipeline *)

(** C10, as the code has it: constructing an H2OPipeline with
    [feature_names] equal to [None] or to any falsy value raises a
    ValueError, and every pipeline that is constructed holds the
    [feature_names] it was given, which is truthy and has [__iter__]: a list
    or a string held is not empty, but an iterable that has no length is
    held whatever it yields. *)
Theorem init_requires_feature_names {E : Env}
    (steps : list (string * H2OPipeline.step_obj)) (fn tf : pyval) :
  (truthy fn = false ->
     H2OPipeline.__init__ steps fn tf =
       inl (ValueError "invalid value for feature_names"))
  /\ H2OPipeline.__init__ steps PyNone tf =
       inl (ValueError "invalid value for feature_names")
  /\ (forall p, H2OPipeline.__init__ steps fn tf = inr p ->
        H2OPipeline.feature_names p = fn
        /\ truthy (H2OPipeline.feature_names p) = true
        /\ H2OPipeline.hasattr_iter (H2OPipeline.feature_names p) = true
        /\ H2OPipeline.training_cols_ p = None
        /\ H2OPipeline.feature_names p <> PyList []
        /\ H2OPipeline.feature_names p <> PyStr "").
Proof.
  assert (Hinv : forall p, H2OPipeline.__init__ steps fn tf = inr p ->
            H2OPipeline.feature_names p = fn /\ truthy fn = true
            /\ H2OPipeline.hasattr_iter fn = true
            /\ H2OPipeline.training_cols_ p = None).
  { intros p. unfold H2OPipeline.__init__, H2OPipeline._val_features.
    destruct (truthy fn) eqn:Ht; simpl; [|discriminate].
    destruct (H2OPipeline.hasattr_iter fn) eqn:Hi; simpl; [|discriminate].
    destruct steps; [discriminate|].
    repeat match goal with
           | |- context [if ?b then _ else _] => destruct b; try discriminate
           end.
    intros H; injection H as <-. now repeat split. }
  split; [|split].
  - intros H. unfold H2OPipeline.__init__, H2OPipeline._val_features. now rewrite H.
  - reflexivity.
  - intros p H. destruct (Hinv p H) as (Hfn & Ht & Hi & Htc). rewrite Hfn.
    refine (conj eq_refl (conj Ht (conj Hi (conj Htc (conj _ _)))));
      intros ->; discriminate Ht.
Qed.

Lemma init_requires_feature_names_witness :
  @H2OPipeline.__init__ sample_env
    [("model", sample_estimator)] (PyList []) (PyStr "y") =
    inl (ValueError "invalid value for feature_names")
  /\ truthy (H2OPipeline.feature_names sample_pipeline) = true.
Proof.
  split.
  - destruct (@init_requires_feature_names sample_env
                [("model", sample_estimator)] (PyList []) (PyStr "y")) as (H & _).
    apply H. reflexivity.
  - destruct (@init_requires_feature_names sample_env
                (H2OPipeline.steps sample_pipeline)
                (PyList [PyStr "a"; PyStr "b"]) (PyStr "y")) as (_ & _ & H).
    apply (H sample_pipeline). reflexivity.
Defined.

(** C10 fails as stated: an iterable without a length is true even when it
    yields nothing, so the constructor accepts it and the pipeline holds an
    empty iterable. *)
Lemma init_accepts_empty_iterable :
  truthy (PyIterable []) = true
  /\ H2OPipeline.py_iter (PyIterable []) = inr []
  /\ @H2OPipeline.__init__ sample_env
       [("model", sample_estimator)] (PyIterable []) (PyStr "y") =
       inr (H2OPipeline.Pipeline [("model", sample_estimator)] (PyIterable [])
              (PyStr "y") None).
Proof. split; [reflexivity|split; reflexivity]. Qed.

(** ** Column selection *)

Lemma find_column_name (n : string) (X : frame) (c : column) :
  find_column n X = Some c -> cname c = n /\ In c X.
Proof.
  unfold find_column. intros H. apply find_some in H as [Hin Heq].
  apply String.eqb_eq in Heq. now split.
Qed.

Lemma find_column_In (n : string) (X : frame) :
  In n (columns X) -> exists c, find_column n X = Some c.
Proof.
  unfold columns, find_column. induction X as [|c X IH]; simpl; [tauto|].
  intros [Hc|Hin].
  - subst n. rewrite String.eqb_refl. eauto.
  - destruct (String.eqb n (cname c)); eauto.
Qed.

Lemma find_column_NoDup (X : frame) (c : column) :
  List.NoDup (columns X) -> In c X -> find_column (cname c) X = Some c.
Proof.
  unfold columns, find_column. induction X as [|d X IH]; simpl; [tauto|].
  intros Hnd Hin. apply NoDup_cons_iff in Hnd as [Hnotin Hnd].
  destruct Hin as [->|Hin].
  - now rewrite String.eqb_refl.
  - destruct (String.eqb (cname c) (cname d)) eqn:Heq.
    + apply String.eqb_eq in Heq. exfalso. apply Hnotin. rewrite <- Heq.
      now apply in_map.
    + now apply IH.
Qed.

(** Selecting names the frame has succeeds, with those names, from the
    frame's own columns. *)
Lemma select_present (X : frame) (names : list string) :
  incl names (columns X) ->
  exists X', select X names = inr X' /\ columns X' = names /\ incl X' X.
Proof.
  induction names as [|n names IH]; intros Hincl; simpl.
  - exists []. repeat split. intros c [].
  - destruct (find_column_In n X) as [c Hc]; [apply Hincl; now left|].
    destruct IH as (X' & Hsel & Hcols & Hsub).
    { intros m Hm. apply Hincl. now right. }
    rewrite Hc, Hsel. exists (c :: X').
    apply find_column_name in Hc as [Hname Hin].
    repeat split.
    + simpl. now rewrite Hname, Hcols.
    + intros d [<-|Hd]; [assumption|now apply Hsub].
Qed.

(** With unique column names, selecting the names of some of the frame's
    columns gives back those columns. *)
Lemma select_own_columns (X Y : frame) :
  List.NoDup (columns X) -> incl Y X -> select X (map cname Y) = inr Y.
Proof.
  intros Hnd. induction Y as [|c Y IH]; intros Hincl; simpl; [reflexivity|].
  rewrite (find_column_NoDup X c Hnd); [|apply Hincl; now left].
  rewrite IH; [reflexivity|]. intros d Hd. apply Hincl. now right.
Qed.

Lemma filter_map_names (f : string -> bool) (X : frame) :
  List.filter f (map cname X) = map cname (List.filter (fun c => f (cname c)) X).
Proof.
  induction X as [|c X IH]; simpl; [reflexivity|].
  destruct (f (cname c)); simpl; now rewrite IH.
Qed.

(** ** [transform] *)

Lemma retain_features_without (X : frame) (drop : list pyval) :
  _retain_features X drop = columns (without drop X).
Proof. unfold _retain_features, columns, without. apply filter_map_names. Qed.

Lemma transform_fitted (s : selector) (X : frame) (log : list event) (drop : list pyval) :
  drop_ s = Some drop ->
  exists X',
    transform X (s, log) =
      ((s, log ++ [FrameSubset (_retain_features X drop)]), inr X')
    /\ columns X' = _retain_features X drop
    /\ incl X' X
    /\ (List.NoDup (columns X) -> X' = without drop X).
Proof.
  intros Hd. unfold transform. run. rewrite Hd. simpl.
  destruct (select_present X (_retain_features X drop)) as (X' & Hsel & Hcols & Hsub).
  { unfold _retain_features. intros n Hn. apply filter_In in Hn. tauto. }
  exists X'. rewrite Hsel. repeat split; try assumption.
  intros Hnd. rewrite retain_features_without in Hsel.
  unfold columns in Hsel at 1.
  rewrite (select_own_columns X (without drop X) Hnd) in Hsel.
  - now injection Hsel.
  - unfold without. intros c Hc. apply filter_In in Hc. tauto.
Qed.

(** C8: a fitted selector's [transform] returns a frame made of columns of
    the input whose names are exactly those of the input that are not in
    [drop_], in the input's order -- with unique column names, the input
    without its dropped columns; its only effect is the one column
    selection it logs: the object is left as it was, and the input frame, a
    value, is what it was.  An unfitted selector's [transform] raises
    NotFittedError without touching the frame. *)
Theorem transform_restricts_to_retained (s : selector) (X : frame) (log : list event) :
  (forall drop, drop_ s = Some drop ->
     exists X',
       transform X (s, log) =
         ((s, log ++ [FrameSubset (_retain_features X drop)]), inr X')
       /\ columns X' =
            List.filter (fun n => negb (existsb (py_eq_str n) drop)) (columns X)
       /\ incl X' X
       /\ (List.NoDup (columns X) -> X' = without drop X))
  /\ (drop_ s = None ->
        transform X (s, log) = ((s, log), inl (NotFittedError "drop_"))).
Proof.
  split.
  - intros drop Hd. exact (transform_fitted s X log drop Hd).
  - intros Hd. unfold transform. run. now rewrite Hd.
Qed.

Lemma transform_restricts_to_retained_witness :
  transform sample_frame (set_drop_ [PyStr "a"; PyStr "c"] sample_dropper_none, []) =
    ((set_drop_ [PyStr "a"; PyStr "c"] sample_dropper_none, [FrameSubset ["b"; "y"]]),
     inr [Column "b" [Some 1%Q; Some 1%Q; None; None];
          Column "y" [Some 0%Q; Some 1%Q; Some 0%Q; Some 1%Q]])
  /\ transform sample_frame (sample_dropper_none, []) =
       ((sample_dropper_none, []), inl (NotFittedError "drop_")).
Proof.
  destruct (transform_restricts_to_retained
              (set_drop_ [PyStr "a"; PyStr "c"] sample_dropper_none) sample_frame [])
    as [Hfit _].
  destruct (Hfit [PyStr "a"; PyStr "c"] eq_refl) as (X' & Hrun & _ & _ & Heq).
  split.
  - rewrite Hrun, Heq; [reflexivity|].
    repeat constructor; simpl; intuition discriminate.
  - destruct (transform_restricts_to_retained sample_dropper_none sample_frame [])
      as [_ Hunfit].
    apply Hunfit. reflexivity.
Defined.

(** ** [H2OSparseFeatureDropper.fit] *)

Lemma as_num_is_numeric (v : pyval) (t : num) : as_num v = Some t -> is_numeric v = true.
Proof. destruct v; simpl; congruence. Qed.

Lemma mask_filter_map {A B} (g : A -> B) (f : A -> bool) (l : list A) :
  mask_filter (map g l) (map f l) = map g (List.filter f l).
Proof.
  induction l as [|x l IH]; simpl; [reflexivity|].
  destruct (f x); simpl; now rewrite IH.
Qed.

Lemma mask_select_map {A B} (g : A -> B) (f : A -> bool) (l : list A) :
  mask_select (map g l) (map f l) = inr (map g (List.filter f l)).
Proof.
  unfold mask_select. rewrite !length_map, Nat.eqb_refl. now rewrite mask_filter_map.
Qed.

(** A threshold that passed [0.0 <= thresh < 1.0] is compared as the double
    it is: if it is an int, it is [0]. *)
Lemma np_scalar_unit_interval (v : pyval) (t : Q) :
  as_num v = Some (Fin t) -> (0 <= t)%Q -> (t < 1)%Q -> np_scalar v = Some (double t).
Proof.
  destruct v as [|z|x| | |]; simpl; try discriminate.
  - intros H H0 H1. injection H as <-.
    assert (z = 0%Z) as -> by (unfold Qle, Qlt in *; simpl in *; lia).
    reflexivity.
  - intros H _ _. now injection H as ->.
Qed.

Lemma num_ltb_irrefl (x : num) : num_ltb x x = false.
Proof.
  destruct x as [|q|[|]]; simpl; try reflexivity.
  destruct (Qlt_bool q q) eqn:H; [|reflexivity].
  apply Qlt_bool_iff in H. now apply Qlt_irrefl in H.
Qed.

Lemma columns_injective (X : frame) (c d : column) :
  List.NoDup (columns X) -> In c X -> In d X -> cname c = cname d -> c = d.
Proof.
  intros Hnd Hc Hd Heq.
  pose proof (find_column_NoDup X c Hnd Hc) as H1.
  pose proof (find_column_NoDup X d Hnd Hd) as H2.
  rewrite Heq in H1. congruence.
Qed.

(** C5: for every numeric threshold [t] with [0 <= t < 1], on a frame whose
    candidate columns resolve, [H2OSparseFeatureDropper.fit] sets [drop_] to
    the names of exactly the candidate columns whose missing-value fraction
    -- the double the division of the NA count by the row count gives -- is
    strictly greater than the threshold, in frame order, and [sparsity_] to
    the fractions of all candidate columns in frame order; a column whose
    fraction equals the threshold is retained, and so is one whose fraction
    is NaN.  The threshold is compared as the double it is, [double t]. *)
Theorem sparse_dropper_drops_above_threshold (s : selector) (X : frame)
    (names : list string) (cand : frame) (log : list event) (t : Q) :
  resolves s X names cand ->
  as_num (threshold s) = Some (Fin t) -> (0 <= t)%Q -> (t < 1)%Q ->
  let above := fun c => num_ltb (double t) (num_div_nat (na_count c) (nrow cand)) in
  let dropped := List.filter above cand in
  let fitted := fst (fst (H2OSparseFeatureDropper_fit X (s, log))) in
  H2OSparseFeatureDropper_fit X (s, log) =
    ((set_sparsity_ (map (missing_fraction cand) cand)
        (set_drop_ (map PyStr (columns dropped)) s),
      log ++ [FrameSubset names; FrameIsNaFraction; FrameColumns]),
     inr tt)
  /\ drop_ fitted = Some (map PyStr (columns dropped))
  /\ sparsity_ fitted =
       Some (map (fun c => num_div_nat (na_count c) (nrow cand)) cand)
  /\ (forall c f d, In c cand ->
        num_div_nat (na_count c) (nrow cand) = Fin f -> double t = Fin d ->
        (In c dropped <-> (d < f)%Q))
  /\ (forall c, In c cand ->
        num_div_nat (na_count c) (nrow cand) = double t -> ~ In c dropped)
  /\ (forall c, In c cand ->
        num_div_nat (na_count c) (nrow cand) = NaN -> ~ In c dropped)
  /\ (List.NoDup (columns cand) ->
      forall c, In c cand -> (In (cname c) (columns dropped) <-> above c = true)).
Proof.
  intros Hres Ht H0 H1 above dropped fitted.
  assert (Hmem : forall c, In c cand -> (In c dropped <-> above c = true)).
  { intros c Hc. unfold dropped. rewrite filter_In. tauto. }
  assert (Hrun : H2OSparseFeatureDropper_fit X (s, log) =
            ((set_sparsity_ (map (missing_fraction cand) cand)
                (set_drop_ (map PyStr (columns dropped)) s),
              log ++ [FrameSubset names; FrameIsNaFraction; FrameColumns]),
             inr tt)).
  { unfold H2OSparseFeatureDropper_fit.
    unfold bind at 1; unfold check_frame; unfold ret at 1.
    unfold bind at 1; unfold getself; simpl fst.
    unfold bind at 1. rewrite (frame_from_x_y_resolves _ _ _ _ _ Hres).
    simpl fst; simpl snd.
    rewrite (as_num_is_numeric _ _ Ht). unfold in_unit_interval. rewrite Ht. simpl.
    assert (Hle : Qle_bool 0 t = true) by now apply Qle_bool_iff.
    assert (Hlt : Qlt_bool t 1 = true) by now apply Qlt_bool_iff.
    rewrite Hle, Hlt. run.
    unfold gt_mask. rewrite (np_scalar_unit_interval _ _ Ht H0 H1).
    unfold isna_fraction, columns.
    rewrite map_map, mask_select_map. simpl.
    repeat rewrite <- app_assoc. reflexivity. }
  split; [exact Hrun|].
  unfold fitted. rewrite Hrun. cbn [fst].
  split; [reflexivity|split; [reflexivity|split; [|split; [|split]]]].
  - intros c f d Hc Hf Hd. rewrite (Hmem c Hc). unfold above. rewrite Hf, Hd.
    simpl. apply Qlt_bool_iff.
  - intros c Hc Hf Hin. apply (Hmem c Hc) in Hin. unfold above in Hin.
    rewrite Hf, num_ltb_irrefl in Hin. discriminate.
  - intros c Hc Hf Hin. apply (Hmem c Hc) in Hin. unfold above in Hin.
    rewrite Hf in Hin. now destruct (double t).
  - intros Hnd c Hc. rewrite <- (Hmem c Hc). unfold columns. rewrite in_map_iff. split.
    + intros (d & Hname & Hd).
      assert (Hdc : In d cand) by (unfold dropped in Hd; apply filter_In in Hd; tauto).
      now rewrite <- (columns_injective cand d c Hnd Hdc Hc Hname).
    + intros Hin. now exists c.
Qed.

Lemma sparse_dropper_drops_above_threshold_witness :
  (H2OSparseFeatureDropper_fit sample_frame (sample_sparse, []) =
     ((set_sparsity_ [Fin (3 # 4); Fin (1 # 2); Fin 0]
         (set_drop_ [PyStr "a"] sample_sparse),
       [FrameSubset ["a"; "b"; "c"]; FrameIsNaFraction; FrameColumns]),
      inr tt))
  /\ drop_ (fst (fst (H2OSparseFeatureDropper_fit sample_frame_tenths
                        (sample_sparse_tenths, [])))) = Some [PyStr "b"]
  /\ sparsity_ (fst (fst (H2OSparseFeatureDropper_fit sample_frame_tenths
                            (sample_sparse_tenths, [])))) =
       Some [Fin (5404319552844595 # 18014398509481984);
             Fin (3602879701896397 # 9007199254740992)].
Proof.
  split.
  - destruct (sparse_dropper_drops_above_threshold sample_sparse sample_frame
                ["a"; "b"; "c"] sample_candidates [] (1 # 2)) as (H & _).
    + split; reflexivity.
    + reflexivity.
    + discriminate.
    + reflexivity.
    + exact H.
  - destruct (sparse_dropper_drops_above_threshold sample_sparse_tenths
                sample_frame_tenths ["a"; "b"]
                (removelast sample_frame_tenths) []
                (5404319552844595 # 18014398509481984))
      as (_ & Hdrop & Hsparsity & _).
    + split; reflexivity.
    + reflexivity.
    + discriminate.
    + reflexivity.
    + split; [exact Hdrop|exact Hsparsity].
Defined.

(** ** [H2ONearZeroVarianceFilterer.fit_transform] *)

Lemma validate_use_valid {O : Type} (X : frame) (u : string) (warn : bool)
    (w : O * list event) :
  In u _valid_use ->
  _validate_use X u warn w =
    ((fst w, snd w ++ use_events X u warn), inr (effective_use X u warn)).
Proof.
  intros Hu. apply existsb_eqb_In in Hu.
  unfold _validate_use, use_events, effective_use. rewrite Hu. simpl.
  destruct w as [o l]. simpl.
  destruct (String.eqb u "complete.obs"); run; [now rewrite app_nil_r|].
  destruct warn; run; [|now rewrite app_nil_r].
  destruct (0 <? isna_sum X)%nat; run; [|reflexivity].
  now rewrite <- app_assoc.
Qed.

Lemma use_events_no_statistic (X : frame) (u : string) (warn : bool) :
  forallb (fun e => negb (is_statistic e)) (use_events X u warn) = true.
Proof.
  unfold use_events. destruct (String.eqb u "complete.obs"); [reflexivity|].
  destruct warn; [|reflexivity]. now destruct (0 <? isna_sum X)%nat.
Qed.



(** A dictionary built from items with distinct keys holds exactly the
    items. *)
Lemma fold_insert_lookup {V} (items : list (string * V)) (m : gmap string V)
    (k : string) (v : V) :
  List.NoDup (map fst items) ->
  fold_left (fun m kv => <[fst kv := snd kv]> m) items m !! k = Some v <->
  In (k, v) items \/ (~ In k (map fst items) /\ m !! k = Some v).
Proof.
  revert m. induction items as [|[k' v'] items IH]; intros m Hnd; simpl.
  - tauto.
  - apply NoDup_cons_iff in Hnd as [Hnotin Hnd]. rewrite (IH _ Hnd). simpl.
    destruct (decide (k' = k)) as [->|Hne].
    + rewrite lookup_insert_eq. split.
      * intros [Hin|[Hn Heq]].
        -- exfalso. apply Hnotin. apply in_map_iff. now exists (k, v).
        -- injection Heq as ->. now left; left.
      * intros [[Heq|Hin]|[Hn _]].
        -- injection Heq as ->. right. now split.
        -- exfalso. apply Hnotin. apply in_map_iff. now exists (k, v).
        -- exfalso. apply Hn. now left.
    + rewrite lookup_insert_ne by assumption. split.
      * intros [Hin|[Hn Hm]]; [now left; right|].
        right. split; [|assumption]. intros [Heq|Hin]; [congruence|contradiction].
      * intros [[Heq|Hin]|[Hn Hm]].
        -- congruence.
        -- now left.
        -- right. split; [|assumption]. intros Hin. apply Hn. now right.
Qed.

Lemma py_dict_lookup {V} (items : list (string * V)) (k : string) (v : V) :
  List.NoDup (map fst items) ->
  py_dict items !! k = Some v <-> In (k, v) items.
Proof.
  intros Hnd. unfold py_dict. rewrite (fold_insert_lookup items ∅ k v Hnd).
  rewrite lookup_empty. split; [intros [H|[_ H]]; [assumption|discriminate]|now left].
Qed.



Lemma nzv_ratio_rejected {E : Env} (s : selector) (X : frame)
    (names : list string) (cand : frame) (log : list event) (t : Q) :
  resolves s X names cand -> In (use s) _valid_use ->
  strategy s = "ratio" -> as_num (threshold s) = Some (Fin t) -> (t <= 1)%Q ->
  H2ONearZeroVarianceFilterer_fit_transform X (s, log) =
    ((s, log ++ [FrameSubset names] ++ use_events cand (use s) (na_warn s)
             ++ [FrameColumns]),
     inl (ValueError "when strategy=='ratio', threshold must be greater than 1.0")).
Proof.
  intros Hres Hu Hst Ht Hle.
  unfold H2ONearZeroVarianceFilterer_fit_transform. prologue Hres.
  rewrite (validate_use_valid _ _ _ _ Hu). run. rewrite Hst. simpl.
  unfold gt_one. rewrite Ht. simpl.
  assert (Hnlt : Qlt_bool 1 t = false).
  { destruct (Qlt_bool 1 t) eqn:Hb; [|reflexivity].
    apply Qlt_bool_iff in Hb. exfalso. now apply (Qlt_not_le 1 t). }
  rewrite Hnlt. simpl. now repeat rewrite <- app_assoc.
Qed.

Lemma nzv_strategy_rejected {E : Env} (s : selector) (X : frame)
    (names : list string) (cand : frame) (log : list event) :
  resolves s X names cand -> In (use s) _valid_use ->
  ~ In (strategy s) valid_strategies ->
  H2ONearZeroVarianceFilterer_fit_transform X (s, log) =
    ((s, log ++ [FrameSubset names] ++ use_events cand (use s) (na_warn s)
             ++ [FrameColumns]),
     inl (ValueError "strategy must be one of ('variance', 'ratio')")).
Proof.
  intros Hres Hu Hst. apply existsb_eqb_not_In in Hst. simpl in Hst.
  unfold H2ONearZeroVarianceFilterer_fit_transform. prologue Hres.
  rewrite (validate_use_valid _ _ _ _ Hu). run. rewrite Hst. simpl.
  now repeat rewrite <- app_assoc.
Qed.

Lemma nzv_fit_raises {E : Env} (X : frame) (w w' : selector * list event) (e : exn) :
  H2ONearZeroVarianceFilterer_fit_transform X w = (w', inl e) ->
  H2ONearZeroVarianceFilterer_fit X w = (w', inl e).
Proof.
  intros H. unfold H2ONearZeroVarianceFilterer_fit, bind. now rewrite H.
Qed.






(** ** Configuration errors and the frame *)

Lemma fit_transform_resolution_fails {O : Type} (X : frame) (fn tf ef : pyval)
    (e : exn) (w : O * list event) :
  candidate_names X fn tf ef = inl e ->
  _frame_from_x_y X fn tf ef w = (w, inl e).
Proof. intros H. unfold _frame_from_x_y. run. now rewrite H. Qed.

(** C2 fails as stated: with an out-of-domain threshold the sparse dropper
    raises its ValueError only after the candidate frame has been selected
    from the input frame, and with an invalid strategy the near-zero-variance
    filterer raises only after that selection, a count of the frame's NAs
    and a read of its column names. *)
Lemma config_error_follows_frame_access :
  (is_numeric (threshold sample_sparse_bad)
     && in_unit_interval (threshold sample_sparse_bad) = false
   /\ H2OSparseFeatureDropper_fit sample_frame (sample_sparse_bad, []) =
        ((sample_sparse_bad, [FrameSubset ["a"; "b"; "c"]]),
         inl (ValueError "thresh must be a float between 0 (inclusive) and 1")))
  /\ (~ In (strategy sample_nzv_bad) valid_strategies
      /\ @H2ONearZeroVarianceFilterer_fit sample_env sample_frame (sample_nzv_bad, []) =
           ((sample_nzv_bad,
             [FrameSubset ["a"; "b"; "c"]; FrameIsNaSum; Warn 5; FrameColumns]),
            inl (ValueError "strategy must be one of ('variance', 'ratio')"))).
Proof.
  repeat split. simpl. intuition discriminate.
Qed.

(** C2, as the code has it: a selector with a malformed configuration
    (out-of-domain threshold, invalid strategy, ratio threshold not above 1)
    raises the configuration error with the object unchanged and before any
    statistic is computed, but after the candidate frame has been resolved
    from the input frame and, for H2ONearZeroVarianceFilterer, after [use]
    has been validated (which counts the NAs when [use] is not
    'complete.obs' and [na_warn] is true) and the column names read; when
    resolving the candidate names fails, that error is raised instead. *)
Theorem config_error_after_resolution {E : Env} (s : selector) (X : frame)
    (names : list string) (cand : frame) (log : list event) :
  (resolves s X names cand ->
   (is_numeric (threshold s) && in_unit_interval (threshold s) = false ->
      H2OSparseFeatureDropper_fit X (s, log) =
        ((s, log ++ [FrameSubset names]),
         inl (ValueError "thresh must be a float between 0 (inclusive) and 1")))
   /\ (In (use s) _valid_use ->
       let new := [FrameSubset names] ++ use_events cand (use s) (na_warn s)
                    ++ [FrameColumns] in
       (~ In (strategy s) valid_strategies ->
          H2ONearZeroVarianceFilterer_fit X (s, log) =
            ((s, log ++ new),
             inl (ValueError "strategy must be one of ('variance', 'ratio')")))
       /\ (strategy s = "ratio" ->
           forall t, as_num (threshold s) = Some (Fin t) -> (t <= 1)%Q ->
             H2ONearZeroVarianceFilterer_fit X (s, log) =
               ((s, log ++ new),
                inl (ValueError
                       "when strategy=='ratio', threshold must be greater than 1.0")))
       /\ forallb (fun e => negb (is_statistic e)) new = true
       /\ existsb is_frame_access new = true))
  /\ (forall e,
        candidate_names X (feature_names s) (target_feature s) (exclude_features s)
          = inl e ->
        H2OSparseFeatureDropper_fit X (s, log) = ((s, log), inl e)
        /\ H2ONearZeroVarianceFilterer_fit X (s, log) = ((s, log), inl e)).
Proof.
  split.
  - intros Hres. split.
    + intros Hbad. unfold H2OSparseFeatureDropper_fit.
      unfold bind at 1; unfold check_frame; unfold ret at 1.
      unfold bind at 1; unfold getself; simpl fst.
      unfold bind at 1. rewrite (frame_from_x_y_resolves _ _ _ _ _ Hres).
      simpl fst; simpl snd. now rewrite Hbad.
    + intros Hu new. repeat split.
      * intros Hst. apply nzv_fit_raises.
        now apply nzv_strategy_rejected with (cand := cand).
      * intros Hst t Ht Hle. apply nzv_fit_raises.
        now apply nzv_ratio_rejected with (cand := cand) (t := t).
      * unfold new. simpl. rewrite forallb_app, use_events_no_statistic. reflexivity.
  - intros e He. split.
    + unfold H2OSparseFeatureDropper_fit.
      unfold bind at 1; unfold check_frame; unfold ret at 1.
      unfold bind at 1; unfold getself; simpl fst.
      unfold bind at 1. now rewrite (fit_transform_resolution_fails _ _ _ _ e (s, log) He).
    + apply nzv_fit_raises. unfold H2ONearZeroVarianceFilterer_fit_transform.
      unfold bind at 1; unfold check_frame; unfold ret at 1.
      unfold bind at 1; unfold getself; simpl fst.
      unfold bind at 1. now rewrite (fit_transform_resolution_fails _ _ _ _ e (s, log) He).
Qed.

Lemma config_error_after_resolution_witness :
  H2OSparseFeatureDropper_fit sample_frame (sample_sparse_bad, []) =
    ((sample_sparse_bad, [FrameSubset ["a"; "b"; "c"]]),
     inl (ValueError "thresh must be a float between 0 (inclusive) and 1"))
  /\ @H2ONearZeroVarianceFilterer_fit sample_env sample_frame (sample_nzv_bad, []) =
       ((sample_nzv_bad,
         [FrameSubset ["a"; "b"; "c"]; FrameIsNaSum; Warn 5; FrameColumns]),
        inl (ValueError "strategy must be one of ('variance', 'ratio')")).
Proof.
  split.
  - destruct (@config_error_after_resolution sample_env sample_sparse_bad sample_frame
                ["a"; "b"; "c"] sample_candidates []) as [Hres _].
    destruct Hres as [Hsparse _]; [split; reflexivity|].
    apply Hsparse. reflexivity.
  - destruct (@config_error_after_resolution sample_env sample_nzv_bad sample_frame
                ["a"; "b"; "c"] sample_candidates []) as [Hres _].
    destruct Hres as [_ Hnzv]; [split; reflexivity|].
    destruct Hnzv as (Hstrategy & _); [simpl; auto|].
    apply Hstrategy. simpl. intuition discriminate.
Defined.

(** ** The pipeline's [fit] *)

Import H2OPipeline.

(** C1, on the code: when the selector steps leave the target [y] as the only
    column, no feature survives and [training_cols_] is set to the empty
    list, yet [fit] does not fail: its test [if not training_cols] looks at
    the frame's whole column list, which still holds the target, and the
    estimator is trained with [x = []]. *)
Theorem fit_trains_when_only_target_survives {E : Env} (p p' : pipeline)
    (X frame1 Xt : frame) (log log' : list event) (y : string)
    (names : list pyval) (xy : list string) (b : gmap string pyval) :
  target_feature p = PyStr y ->
  py_iter (feature_names p) = inr names ->
  check_names names = inr tt ->
  str_list (names ++ [PyStr y]) = Some xy ->
  select X xy = inr frame1 ->
  _pre_transform frame1 [] (set_training_cols_ None p, log ++ [FrameSubset xy]) =
    ((p', log'), inr (Xt, b)) ->
  columns Xt = [y] ->
  hasattr_train (List.last (map snd (steps p')) (Other false)) = true ->
  fit X [] (p, log) =
    ((set_training_cols_ (Some []) p',
      log' ++ [FrameColumns; Train (TrainCall [y] [] y b)]),
     inr tt).
Proof.
  intros Hy Hiter Hnames Hxy Hsel Hpre Hcols Htrain.
  unfold fit, _reset. run. rewrite Hy, Hiter. simpl. rewrite Hnames. simpl.
  rewrite Hxy. run. rewrite Hsel. simpl. rewrite Hpre. simpl.
  rewrite Hcols. simpl. rewrite String.eqb_refl. simpl. rewrite Htrain. simpl.
  now rewrite <- app_assoc.
Qed.

(** The pipeline of the samples on the single feature [a] drops [a]: only
    the target reaches the estimator, which is trained on no feature. *)
Lemma fit_trains_when_only_target_survives_witness :
  @fit sample_env sample_frame [] (sample_pipeline_one, []) =
    ((Pipeline
        [("drop", Transformer
                    (set_drop_ [PyStr "a"]
                       (H2OFeatureDropper_init (PyList [PyStr "a"]) (PyStr "y") PyNone)));
         ("model", sample_estimator)]
        (PyList [PyStr "a"]) (PyStr "y") (Some []),
      [FrameSubset ["a"; "y"]; FrameSubset ["y"]; FrameColumns;
       Train (TrainCall ["y"] [] "y" ∅)]),
     inr tt).
Proof.
  apply (@fit_trains_when_only_target_survives sample_env sample_pipeline_one
           (Pipeline
              [("drop", Transformer
                          (set_drop_ [PyStr "a"]
                             (H2OFeatureDropper_init (PyList [PyStr "a"]) (PyStr "y")
                                PyNone)));
               ("model", sample_estimator)]
              (PyList [PyStr "a"]) (PyStr "y") None)
           sample_frame
           [Column "a" [Some 1%Q; None; None; None];
            Column "y" [Some 0%Q; Some 1%Q; Some 0%Q; Some 1%Q]]
           [Column "y" [Some 0%Q; Some 1%Q; Some 0%Q; Some 1%Q]]
           [] [FrameSubset ["a"; "y"]; FrameSubset ["y"]]
           "y" [PyStr "a"] ["a"; "y"] ∅);
    reflexivity.
Defined.

(** *** Splitting of the fit parameters *)

Lemma append_String (c : ascii) (a b : string) :
  String.append (String c a) b = String c (String.append a b).
Proof. reflexivity. Qed.

Lemma append_Empty (b : string) : String.append EmptyString b = b.
Proof. reflexivity. Qed.

Lemma after_dunder_join (s rest : string) :
  after_dunder s = Some rest <-> s = String.append "__" rest.
Proof.
  rewrite !append_String, append_Empty. unfold after_dunder.
  destruct s as [|a [|b s']]; try (split; discriminate).
  destruct (Ascii.eqb a "_"%char) eqn:Ha; destruct (Ascii.eqb b "_"%char) eqn:Hb;
    cbn [andb].
  - apply Ascii.eqb_eq in Ha, Hb. subst. split; congruence.
  - apply Ascii.eqb_neq in Hb. split; [discriminate|congruence].
  - apply Ascii.eqb_neq in Ha. split; [discriminate|congruence].
  - apply Ascii.eqb_neq in Ha. split; [discriminate|congruence].
Qed.

(** The two parts of a split name, joined by ['__'], give the name back. *)
Lemma split_dunder_join (pname step param : string) :
  split_dunder pname = Some (step, param) ->
  pname = String.append step (String.append "__" param).
Proof.
  revert step param. induction pname as [|c rest IH]; intros step param.
  - discriminate.
  - cbn [split_dunder].
    destruct (after_dunder (String c rest)) as [after|] eqn:Ha.
    + intros H. injection H as <- <-. rewrite append_Empty.
      now apply after_dunder_join.
    + destruct (split_dunder rest) as [[st pa]|]; [|discriminate].
      intros H. injection H as <- <-. rewrite append_String. f_equal. now apply IH.
Qed.

(** A name splits exactly when it holds a ['__']. *)
Lemma split_dunder_None (pname : string) :
  split_dunder pname = None <->
  ~ exists a b, pname = String.append a (String.append "__" b).
Proof.
  split.
  - intros Hnone (a & b & ->). revert Hnone. induction a as [|c a IH].
    + rewrite append_Empty. cbn [split_dunder String.append].
      rewrite !append_String, append_Empty. simpl. discriminate.
    + rewrite append_String. cbn [split_dunder].
      destruct (after_dunder _); [discriminate|].
      destruct (split_dunder (String.append a (String.append "__" b))) as [[st pa]|];
        [discriminate|]. intros _. now apply IH.
  - intros Hno. destruct (split_dunder pname) as [[st pa]|] eqn:Hs; [|reflexivity].
    exfalso. apply Hno. exists st, pa. now apply split_dunder_join.
Qed.


Lemma bucket_lookup_insert (fps : gmap string (gmap string pyval))
    (st pa : string) (pval : pyval) (bk : gmap string pyval) (step param : string) :
  fps !! st = Some bk ->
  bucket_lookup (<[st := <[pa := pval]> bk]> fps) step param =
    if decide (st = step /\ pa = param) then Some pval
    else bucket_lookup fps step param.
Proof.
  intros Hbk. unfold bucket_lookup.
  destruct (decide (st = step)) as [->|Hst].
  - rewrite lookup_insert_eq, Hbk.
    destruct (decide (pa = param)) as [->|Hpa].
    + rewrite lookup_insert_eq. destruct (decide _) as [|Hn]; [reflexivity|].
      exfalso. now apply Hn.
    + rewrite lookup_insert_ne by assumption.
      destruct (decide _) as [[_ Heq]|]; [contradiction|reflexivity].
  - rewrite lookup_insert_ne by assumption.
    destruct (decide _) as [[Heq _]|]; [contradiction|reflexivity].
Qed.

(** Splitting never adds or removes a step's bucket. *)
Lemma split_fit_params_steps (fit_params : list (string * pyval))
    (acc buckets : gmap string (gmap string pyval)) (step : string) :
  split_fit_params fit_params acc = inr buckets ->
  (is_Some (buckets !! step) <-> is_Some (acc !! step)).
Proof.
  revert acc. induction fit_params as [|[pname pval] rest IH]; intros acc; simpl.
  - intros H. injection H as <-. tauto.
  - destruct (split_dunder pname) as [[st pa]|]; [|discriminate].
    destruct (acc !! st) as [bk|] eqn:Hbk; [|discriminate].
    intros H. rewrite (IH _ H).
    destruct (decide (st = step)) as [->|Hne].
    + rewrite lookup_insert_eq, Hbk. split; eauto.
    + now rewrite lookup_insert_ne.
Qed.

(** After a successful split, [fit_params_steps[step][param]] is the value
    supplied under the name that splits into [step] and [param], or what was
    there before when no such name was supplied. *)
Lemma split_fit_params_lookup (fit_params : list (string * pyval))
    (acc buckets : gmap string (gmap string pyval)) (step param : string) (v : pyval) :
  List.NoDup (map fst fit_params) ->
  split_fit_params fit_params acc = inr buckets ->
  bucket_lookup buckets step param = Some v <->
  (exists pname, In (pname, v) fit_params /\ split_dunder pname = Some (step, param))
  \/ ((forall pname v', In (pname, v') fit_params ->
         split_dunder pname <> Some (step, param))
      /\ bucket_lookup acc step param = Some v).
Proof.
  revert acc. induction fit_params as [|[pname pval] rest IH]; intros acc Hnd; simpl.
  - intros H. injection H as <-. split.
    + intros H. right. split; [intros ? ? []|assumption].
    + intros [(pn & [] & _)|[_ H]]. assumption.
  - apply NoDup_cons_iff in Hnd as [Hnotin Hnd].
    destruct (split_dunder pname) as [[st pa]|] eqn:Hsp; [|discriminate].
    destruct (acc !! st) as [bk|] eqn:Hbk; [|discriminate].
    intros H. rewrite (IH _ Hnd H), (bucket_lookup_insert acc st pa pval bk step param Hbk).
    assert (Hfresh : forall pn v', In (pn, v') rest -> pn <> pname).
    { intros pn v' Hin ->. apply Hnotin. apply in_map_iff. now exists (pname, v'). }
    destruct (decide (st = step /\ pa = param)) as [[-> ->]|Hne].
    + assert (Hnone : forall pn v', In (pn, v') rest ->
                split_dunder pn <> Some (step, param)).
      { intros pn v' Hin Hs. apply (Hfresh pn v' Hin).
        apply split_dunder_join in Hs, Hsp. congruence. }
      split.
      * intros [(pn & Hin & Hs)|[_ Hv]].
        -- exfalso. now apply (Hnone pn v).
        -- injection Hv as ->. left. exists pname. split; [now left|assumption].
      * intros [(pn & [Heq|Hin] & Hs)|[Hall _]].
        -- injection Heq as -> ->. right. split; [assumption|reflexivity].
        -- exfalso. now apply (Hnone pn v).
        -- exfalso. apply (Hall pname pval); [now left|assumption].
    + split.
      * intros [(pn & Hin & Hs)|[Hall Hv]].
        -- left. exists pn. split; [now right|assumption].
        -- right. split; [|assumption].
           intros pn v' [Heq|Hin]; [|now apply (Hall pn v')].
           injection Heq as -> ->. rewrite Hsp. intros Heq. injection Heq as -> ->.
           now apply Hne.
      * intros [(pn & [Heq|Hin] & Hs)|[Hall Hv]].
        -- injection Heq as -> ->. exfalso. rewrite Hsp in Hs.
           injection Hs as -> ->. now apply Hne.
        -- left. now exists pn.
        -- right. split; [|assumption]. intros pn v' Hin.
           apply (Hall pn v'). now right.
Qed.

(** A name without ['__'], or with a prefix that is no step, makes the split
    fail. *)
Lemma split_fit_params_error (fit_params : list (string * pyval))
    (acc : gmap string (gmap string pyval)) (pname : string) (v : pyval) :
  In (pname, v) fit_params ->
  (split_dunder pname = None
   \/ exists step param, split_dunder pname = Some (step, param) /\ acc !! step = None) ->
  exists e, split_fit_params fit_params acc = inl e.
Proof.
  revert acc. induction fit_params as [|[pn pv] rest IH]; intros acc Hin Hbad; simpl.
  - destruct Hin.
  - destruct (split_dunder pn) as [[st pa]|] eqn:Hsp; [|eauto].
    destruct (acc !! st) as [bk|] eqn:Hbk; [|eauto].
    destruct Hin as [Heq|Hin].
    + injection Heq as -> ->. exfalso.
      destruct Hbad as [Hn|(step & param & Hs & Hnone)]; [congruence|].
      rewrite Hsp in Hs. injection Hs as -> ->. congruence.
    + apply IH; [assumption|].
      destruct Hbad as [Hn|(step & param & Hs & Hnone)]; [now left|].
      right. exists step, param. split; [assumption|].
      rewrite lookup_insert_ne; [assumption|]. intros ->. congruence.
Qed.

(** The buckets [_pre_transform] starts from: an empty one per step name. *)
Lemma fold_empty_buckets (steps : list (string * step_obj))
    (m : gmap string (gmap string pyval)) (k : string) (b : gmap string pyval) :
  fold_left (fun m kv => <[fst kv := snd kv]> m)
    (map (fun st => (fst st, (∅ : gmap string pyval))) steps) m !! k = Some b <->
  (In k (map fst steps) /\ b = ∅) \/ (~ In k (map fst steps) /\ m !! k = Some b).
Proof.
  revert m. induction steps as [|[name o] steps IH]; intros m; simpl.
  - tauto.
  - rewrite IH. destruct (decide (name = k)) as [->|Hne].
    + rewrite lookup_insert_eq. split.
      * intros [[Hin ->]|[Hn Heq]]; [left; split; [now right|reflexivity]|].
        injection Heq as <-. left. split; [now left|reflexivity].
      * intros [[_ ->]|[Hn _]]; [|exfalso; apply Hn; now left].
        destruct (in_dec string_dec k (map fst steps)) as [Hin|Hn].
        -- left. now split.
        -- right. now split.
    + rewrite lookup_insert_ne by assumption. split.
      * intros [[Hin ->]|[Hn Hm]]; [left; split; [now right|reflexivity]|].
        right. split; [|assumption]. intros [Heq|Hin]; [congruence|contradiction].
      * intros [[[Heq|Hin] ->]|[Hn Hm]]; [congruence|left; now split|].
        right. split; [|assumption]. intros Hin. apply Hn. now right.
Qed.

Lemma empty_buckets_lookup (steps : list (string * step_obj)) (k : string)
    (b : gmap string pyval) :
  empty_buckets steps !! k = Some b <-> In k (map fst steps) /\ b = ∅.
Proof.
  unfold empty_buckets, py_dict. rewrite fold_empty_buckets, lookup_empty.
  split; [intros [H|[_ H]]; [assumption|discriminate]|now left].
Qed.

Lemma pre_transform_bucket {E : Env} (X : frame) (fit_params : list (string * pyval))
    (p : pipeline) (log : list event) (w' : pipeline * list event) (Xt : frame)
    (b : gmap string pyval) :
  _pre_transform X fit_params (p, log) = (w', inr (Xt, b)) ->
  exists buckets final,
    split_fit_params fit_params (empty_buckets (steps p)) = inr buckets
    /\ List.last (map (fun st => Some (fst st)) (steps p)) None = Some final
    /\ buckets !! final = Some b.
Proof.
  unfold _pre_transform. run.
  destruct (split_fit_params fit_params (empty_buckets (steps p))) as [e|buckets];
    [discriminate|].
  destruct (run_transforms buckets 0 _ X (p, log)) as [[p' l'] [e|frameT]];
    [discriminate|].
  destruct (List.last _ None) as [final|]; [|discriminate].
  destruct (buckets !! final) as [bucket|] eqn:Hb; [|discriminate].
  intros H. injection H as <- <- <-. exists buckets, final. now repeat split.
Qed.

Lemma pre_transform_split_error {E : Env} (X : frame)
    (fit_params : list (string * pyval)) (p : pipeline) (log : list event) (e : exn) :
  split_fit_params fit_params (empty_buckets (steps p)) = inl e ->
  _pre_transform X fit_params (p, log) = ((p, log), inl e).
Proof. intros H. unfold _pre_transform. run. now rewrite H. Qed.

(** [fit] hands the final estimator an empty parameter bucket. *)
Lemma fit_trains_without_params {E : Env} (X : frame) (p : pipeline)
    (log : list event) (w' : pipeline * list event) :
  fit X [] (p, log) = (w', inr tt) ->
  exists pre call, snd w' = pre ++ [Train call] /\ tc_params call = ∅.
Proof.
  unfold fit, _reset. run.
  destruct (target_feature p) as [| | |y| |]; try discriminate.
  destruct (py_iter (feature_names p)) as [e|names]; [discriminate|]. simpl.
  destruct (check_names names) as [e|[]]; [discriminate|]. simpl.
  destruct (str_list (names ++ [PyStr y])) as [xy|]; [|discriminate]. run.
  destruct (select X xy) as [e|frame1]; [discriminate|]. simpl.
  destruct (_pre_transform frame1 [] _) as [[p' l'] [e|[Xt b]]] eqn:Hpre;
    [discriminate|]. simpl.
  destruct (columns Xt) as [|c cs]; [discriminate|]. simpl.
  destruct (hasattr_train _); [|discriminate].
  intros H. injection H as <-. simpl.
  eexists. eexists. split; [reflexivity|]. simpl.
  apply pre_transform_bucket in Hpre as (buckets & final & Hsplit & _ & Hb).
  simpl in Hsplit. injection Hsplit as <-.
  apply empty_buckets_lookup in Hb. tauto.
Qed.

(** No selector method takes a keyword argument: a non-empty bucket makes the
    step's call fail, with the pipeline as it was. *)
Lemma step_rejects_params {E : Env} (p : pipeline) (log : list event) (i : nat)
    (name : string) (s : selector) (X : frame) (b : gmap string pyval) :
  steps p !! i = Some (name, Transformer s) -> b <> ∅ ->
  with_step i (fit_transform X b) (p, log) =
    ((p, log), inl (TypeError "got an unexpected keyword argument")).
Proof.
  intros Hi Hb. unfold with_step. simpl. rewrite Hi. unfold fit_transform.
  assert (Hsz : (size b =? 0)%nat = false).
  { apply Nat.eqb_neq. intros Hz. apply Hb. now apply map_size_empty_iff. }
  rewrite Hsz. simpl. unfold raise. rewrite list_insert_id by assumption.
  now destruct p.
Qed.

(** C3 fails as stated: the pipeline of the samples fits and trains on [b]
    when [fit] is given the frame alone, but a fit-time parameter named for
    the final step by the ["stepname__paramname"] convention is not routed to
    the estimator's training call when supplied to [fit]: [fit] takes no such
    parameter and the call fails before anything is done. *)
Lemma fit_takes_no_fit_params :
  split_dunder "model__ntrees" = Some ("model", "ntrees")
  /\ @fit sample_env sample_frame [("model__ntrees", PyInt 5)] (sample_pipeline, []) =
       ((sample_pipeline, []),
        inl (TypeError "fit() got an unexpected keyword argument"))
  /\ snd (@fit sample_env sample_frame [] (sample_pipeline, [])) = inr tt
  /\ snd (fst (@fit sample_env sample_frame [] (sample_pipeline, []))) =
       [FrameSubset ["a"; "b"; "y"]; FrameSubset ["b"; "y"]; FrameColumns;
        Train (TrainCall ["b"; "y"] ["b"] "y" ∅)].
Proof. repeat split; vm_compute; reflexivity. Qed.

(** C3, as the code has it: [H2OPipeline.fit] accepts no fit-time parameter
    (supplying one is an error) and always calls [_pre_transform] with none,
    so the final estimator's training call receives an empty bucket.  It is
    [_pre_transform] that splits the parameters it is given: with distinct
    names, there is one bucket per step name, and [bucket[step][param]] is
    [v] exactly when [v] was given under a name that splits at its first
    ['__'] into [step] and [param]; a name without ['__'], or whose prefix is
    no step name, makes it fail with the pipeline untouched; each non-final
    step is called with its own bucket -- which a selector refuses unless it
    is empty -- and the final step's bucket is returned. *)
Theorem fit_params_routing {E : Env} (p : pipeline) (X : frame) (log : list event)
    (fit_params : list (string * pyval)) :
  (fit_params <> [] ->
     fit X fit_params (p, log) =
       ((p, log), inl (TypeError "fit() got an unexpected keyword argument")))
  /\ (forall w', fit X [] (p, log) = (w', inr tt) ->
        exists pre call, snd w' = pre ++ [Train call] /\ tc_params call = ∅)
  /\ (forall buckets,
        List.NoDup (map fst fit_params) ->
        split_fit_params fit_params (empty_buckets (steps p)) = inr buckets ->
        (forall step, is_Some (buckets !! step) <-> In step (map fst (steps p)))
        /\ (forall step param v,
              bucket_lookup buckets step param = Some v <->
              exists pname,
                In (pname, v) fit_params /\ split_dunder pname = Some (step, param)))
  /\ (forall pname v,
        In (pname, v) fit_params ->
        (~ (exists a b, pname = String.append a (String.append "__" b))
         \/ exists step param,
              split_dunder pname = Some (step, param)
              /\ ~ In step (map fst (steps p))) ->
        exists e, _pre_transform X fit_params (p, log) = ((p, log), inl e))
  /\ (forall buckets i name rest frameT,
        run_transforms buckets i (name :: rest) frameT =
          bind getself (fun self =>
          bind (with_step i (modify (set_target_feature (target_feature self)))) (fun _ =>
          bind (with_step i (fit_transform frameT (default ∅ (buckets !! name))))
            (fun frameT' => run_transforms buckets (S i) rest frameT'))))
  /\ (forall i name s b,
        steps p !! i = Some (name, Transformer s) -> b <> ∅ ->
        with_step i (fit_transform X b) (p, log) =
          ((p, log), inl (TypeError "got an unexpected keyword argument")))
  /\ (forall w' Xt b,
        _pre_transform X fit_params (p, log) = (w', inr (Xt, b)) ->
        exists buckets final,
          split_fit_params fit_params (empty_buckets (steps p)) = inr buckets
          /\ List.last (map (fun st => Some (fst st)) (steps p)) None = Some final
          /\ buckets !! final = Some b).
Proof.
  split; [|split; [|split; [|split; [|split; [|split]]]]].
  - intros Hne. destruct fit_params; [contradiction|reflexivity].
  - intros w'. apply fit_trains_without_params.
  - intros buckets Hnd Hsplit. split.
    + intros step. rewrite (split_fit_params_steps _ _ _ step Hsplit). split.
      * intros [b Hb]. now apply empty_buckets_lookup in Hb.
      * intros Hin. exists ∅. now apply empty_buckets_lookup.
    + intros step param v.
      rewrite (split_fit_params_lookup _ _ _ step param v Hnd Hsplit). split.
      * intros [H|[_ H]]; [assumption|]. exfalso. unfold bucket_lookup in H.
        destruct (empty_buckets (steps p) !! step) as [b|] eqn:Hb; [|discriminate].
        apply empty_buckets_lookup in Hb as [_ ->]. now rewrite lookup_empty in H.
      * intros H. now left.
  - intros pname v Hin Hbad.
    destruct (split_fit_params_error fit_params (empty_buckets (steps p)) pname v Hin)
      as [e He].
    + destruct Hbad as [Hno|(step & param & Hs & Hn)].
      * left. now apply split_dunder_None.
      * right. exists step, param. split; [assumption|].
        destruct (empty_buckets (steps p) !! step) as [b|] eqn:Hb; [|reflexivity].
        apply empty_buckets_lookup in Hb. tauto.
    + exists e. now apply pre_transform_split_error.
  - reflexivity.
  - intros i name s b. apply step_rejects_params.
  - intros w' Xt b. apply pre_transform_bucket.
Qed.

Lemma fit_params_routing_witness :
  @fit sample_env sample_frame [("model__ntrees", PyInt 5)] (sample_pipeline, []) =
    ((sample_pipeline, []),
     inl (TypeError "fit() got an unexpected keyword argument"))
  /\ (exists e,
        @_pre_transform sample_env sample_frame [("ntrees", PyInt 5)]
          (sample_pipeline, []) = ((sample_pipeline, []), inl e))
  /\ (forall buckets,
        split_fit_params [("model__ntrees", PyInt 5)]
          (empty_buckets (steps sample_pipeline)) = inr buckets ->
        bucket_lookup buckets "model" "ntrees" = Some (PyInt 5)).
Proof.
  destruct (@fit_params_routing sample_env sample_pipeline sample_frame []
              [("model__ntrees", PyInt 5)]) as (Hfit & _ & Hsplit & _).
  destruct (@fit_params_routing sample_env sample_pipeline sample_frame []
              [("ntrees", PyInt 5)]) as (_ & _ & _ & Herr & _).
  split; [|split].
  - apply Hfit. discriminate.
  - apply (Herr "ntrees" (PyInt 5)); [now left|].
    left. apply split_dunder_None. reflexivity.
  - intros buckets Hb.
    destruct (Hsplit buckets) as [_ Hlookup].
    + repeat constructor. simpl. tauto.
    + exact Hb.
    + apply Hlookup. exists "model__ntrees". split; [now left|reflexivity].
Defined.

(** * More of the pipeline and of the selectors *)

(** ** Construction *)

(** A dictionary built from a list has as many entries as the list exactly
    when the keys are distinct (and not yet in the dictionary). *)
Lemma fold_insert_size {V} (items : list (string * V)) (m : gmap string V) :
  (size (fold_left (fun m kv => <[fst kv := snd kv]> m) items m)
     <= size m + length items)%nat
  /\ (size (fold_left (fun m kv => <[fst kv := snd kv]> m) items m)
        = (size m + length items)%nat <->
      List.NoDup (map fst items)
      /\ forall k, In k (map fst items) -> m !! k = None).
Proof.
  revert m. induction items as [|[k v] items IH]; intros m; simpl.
  - split; [lia|]. split; [intros _; split; [constructor|tauto]|lia].
  - destruct (IH (<[k:=v]> m)) as [Hle Heq]. rewrite map_size_insert in Hle, Heq.
    destruct (m !! k) as [old|] eqn:Hk; simpl in Hle, Heq.
    + split; [lia|]. split; [lia|]. intros [_ Hnone].
      specialize (Hnone k (or_introl eq_refl)). congruence.
    + split; [lia|]. split.
      * intros Hsz. destruct Heq as [Heq _].
        destruct Heq as [Hnd Hnone]; [lia|].
        assert (Hnotin : ~ In k (map fst items)).
        { intros Hin. specialize (Hnone k Hin). now rewrite lookup_insert_eq in Hnone. }
        split; [now constructor|].
        intros k' [<-|Hin]; [assumption|].
        specialize (Hnone k' Hin). rewrite lookup_insert_ne in Hnone; [assumption|].
        intros ->. contradiction.
      * intros [Hnd Hnone]. apply NoDup_cons_iff in Hnd as [Hnotin Hnd].
        destruct Heq as [_ Heq]. rewrite Heq; [lia|]. split; [assumption|].
        intros k' Hin. rewrite lookup_insert_ne; [apply Hnone; now right|].
        intros ->. contradiction.
Qed.

Lemma py_dict_size {V} (items : list (string * V)) :
  size (py_dict items) = length items <-> List.NoDup (map fst items).
Proof.
  unfold py_dict. destruct (fold_insert_size items (∅ : gmap string V)) as [_ Heq].
  rewrite map_size_empty in Heq. simpl in Heq. rewrite Heq. split; [tauto|].
  intros Hnd. split; [assumption|]. intros k _. apply lookup_empty.
Qed.

Lemma init_inversion {E : Env} (steps : list (string * step_obj)) (fn tf : pyval)
    (p : pipeline) :
  __init__ steps fn tf = inr p <->
  truthy fn = true /\ hasattr_iter fn = true /\ steps <> []
  /\ List.NoDup (map fst steps)
  /\ forallb isinstance_BaseH2OTransformer (removelast (map snd steps)) = true
  /\ hasattr_train (List.last (map snd steps) (Other false)) = true
  /\ p = Pipeline steps fn tf None.
Proof.
  unfold __init__, _val_features.
  destruct (truthy fn); cbn [negb];
    [|split; [discriminate|intros (H & _); discriminate]].
  destruct (hasattr_iter fn); cbn [negb];
    [|split; [discriminate|intros (_ & H & _); discriminate]].
  destruct steps as [|st steps];
    [split; [discriminate|intros (_ & _ & H & _); now contradiction H]|].
  set (all := st :: steps).
  destruct (size (py_dict all) =? length all)%nat eqn:Hsz; cbn [negb].
  - apply Nat.eqb_eq, py_dict_size in Hsz.
    destruct (forallb isinstance_BaseH2OTransformer (removelast (map snd all)));
      cbn [negb];
      [|split; [discriminate|intros (_ & _ & _ & _ & H & _); discriminate]].
    destruct (hasattr_train (List.last (map snd all) (Other false))); cbn [negb];
      [|split; [discriminate|intros (_ & _ & _ & _ & _ & H & _); discriminate]].
    split.
    + intros H. injection H as <-. repeat split; try assumption. discriminate.
    + intros (_ & _ & _ & _ & _ & _ & ->). reflexivity.
  - apply Nat.eqb_neq in Hsz. split; [discriminate|].
    intros (_ & _ & _ & Hnd & _). exfalso. apply Hsz. now apply py_dict_size.
Qed.

(** X1: the constructor succeeds exactly when [feature_names] is truthy and
    has [__iter__], there is at least one step, the step names are pairwise
    distinct, every step but the last is a transformer and the last step has
    a [train] method; the pipeline it builds holds the arguments as given and
    has no [training_cols_]. *)
Theorem init_succeeds_iff {E : Env} (steps : list (string * step_obj))
    (fn tf : pyval) (p : pipeline) :
  __init__ steps fn tf = inr p <->
  truthy fn = true /\ hasattr_iter fn = true /\ steps <> []
  /\ List.NoDup (map fst steps)
  /\ forallb isinstance_BaseH2OTransformer (removelast (map snd steps)) = true
  /\ hasattr_train (List.last (map snd steps) (Other false)) = true
  /\ p = Pipeline steps fn tf None.
Proof. apply init_inversion. Qed.

(** X2: given a usable [feature_names], the constructor rejects an empty
    step list and duplicate step names with a ValueError, and -- names being
    distinct -- an intermediate step that is no transformer, or else a last
    step without [train], with a TypeError; a truthy [feature_names] without
    [__iter__] is a TypeError before the steps are looked at. *)
Theorem init_rejects_malformed_steps {E : Env} (steps : list (string * step_obj))
    (fn tf : pyval) :
  (truthy fn = true -> hasattr_iter fn = false ->
     __init__ steps fn tf = inl (TypeError "expected iterable for feature_names"))
  /\ (truthy fn = true -> hasattr_iter fn = true ->
      (steps = [] ->
         __init__ steps fn tf = inl (ValueError "need more than 0 values to unpack"))
      /\ (~ List.NoDup (map fst steps) ->
            __init__ steps fn tf = inl (ValueError "Provided step names are not unique"))
      /\ (steps <> [] -> List.NoDup (map fst steps) ->
          forallb isinstance_BaseH2OTransformer (removelast (map snd steps)) = false ->
            __init__ steps fn tf =
              inl (TypeError "All intermediate steps of the chain should be instances of BaseH2OTransformer"))
      /\ (steps <> [] -> List.NoDup (map fst steps) ->
          forallb isinstance_BaseH2OTransformer (removelast (map snd steps)) = true ->
          hasattr_train (List.last (map snd steps) (Other false)) = false ->
            __init__ steps fn tf =
              inl (TypeError "Last step of chain should implement train"))).
Proof.
  unfold __init__, _val_features. split.
  - intros Ht Hi. now rewrite Ht, Hi.
  - intros Ht Hi. rewrite Ht, Hi. cbn [negb]. repeat split.
    + intros ->. reflexivity.
    + intros Hdup. destruct steps as [|st steps]; [exfalso; apply Hdup; constructor|].
      set (all := st :: steps) in *.
      destruct (size (py_dict all) =? length all)%nat eqn:Hsz; [|reflexivity].
      exfalso. apply Hdup. now apply py_dict_size, Nat.eqb_eq.
    + intros Hne Hnd Hbad. destruct steps as [|st steps]; [contradiction|].
      set (all := st :: steps) in *.
      apply py_dict_size, Nat.eqb_eq in Hnd. rewrite Hnd. cbn [negb].
      now rewrite Hbad.
    + intros Hne Hnd Hok Hbad. destruct steps as [|st steps]; [contradiction|].
      set (all := st :: steps) in *.
      apply py_dict_size, Nat.eqb_eq in Hnd. rewrite Hnd. cbn [negb].
      now rewrite Hok, Hbad.
Qed.

Lemma init_rejects_malformed_steps_witness :
  @__init__ sample_env
     [("drop", sample_estimator); ("drop", sample_estimator)]
     (PyList [PyStr "a"]) (PyStr "y") =
    inl (ValueError "Provided step names are not unique")
  /\ @__init__ sample_env
       [("scale", sample_estimator); ("model", sample_estimator)]
       (PyList [PyStr "a"]) (PyStr "y") =
      inl (TypeError "All intermediate steps of the chain should be instances of BaseH2OTransformer")
  /\ @__init__ sample_env
       [("model", Other false)] (PyList [PyStr "a"]) (PyStr "y") =
      inl (TypeError "Last step of chain should implement train")
  /\ @__init__ sample_env [("model", sample_estimator)] (PyInt 3) (PyStr "y") =
      inl (TypeError "expected iterable for feature_names").
Proof.
  split; [|split; [|split]].
  - destruct (@init_rejects_malformed_steps sample_env
                [("drop", sample_estimator); ("drop", sample_estimator)]
                (PyList [PyStr "a"]) (PyStr "y")) as [_ H].
    destruct (H eq_refl eq_refl) as (_ & Hdup & _). apply Hdup.
    intros Hnd. inversion Hnd as [|? ? Hnotin _]. apply Hnotin. now left.
  - destruct (@init_rejects_malformed_steps sample_env
                [("scale", sample_estimator); ("model", sample_estimator)]
                (PyList [PyStr "a"]) (PyStr "y")) as [_ H].
    destruct (H eq_refl eq_refl) as (_ & _ & Hmid & _). apply Hmid.
    + discriminate.
    + simpl. constructor; [simpl; intros [Heq|[]]; discriminate Heq|].
      constructor; [simpl; tauto|constructor].
    + reflexivity.
  - destruct (@init_rejects_malformed_steps sample_env
                [("model", Other false)] (PyList [PyStr "a"]) (PyStr "y")) as [_ H].
    destruct (H eq_refl eq_refl) as (_ & _ & _ & Hlast). apply Hlast.
    + discriminate.
    + simpl. constructor; [simpl; tauto|constructor].
    + reflexivity.
    + reflexivity.
  - destruct (@init_rejects_malformed_steps sample_env
                [("model", sample_estimator)] (PyInt 3) (PyStr "y")) as [H _].
    apply H; reflexivity.
Defined.

(** X3: in a pipeline the constructor built, [named_steps] has one entry per
    step and maps a name to an object exactly when that pair is a step: no
    step is shadowed by another. *)
Theorem named_steps_of_constructed {E : Env} (steps0 : list (string * step_obj))
    (fn tf : pyval) (p : pipeline) :
  __init__ steps0 fn tf = inr p ->
  size (named_steps p) = length (steps p)
  /\ forall name o, named_steps p !! name = Some o <-> In (name, o) (steps p).
Proof.
  intros H. apply init_inversion in H as (_ & _ & _ & Hnd & _ & _ & ->).
  unfold named_steps. simpl. split.
  - now apply py_dict_size.
  - intros name o. now apply py_dict_lookup.
Qed.

Lemma named_steps_of_constructed_witness :
  size (named_steps sample_pipeline) = 2%nat
  /\ named_steps sample_pipeline !! "model" = Some sample_estimator.
Proof.
  destruct (@named_steps_of_constructed sample_env (steps sample_pipeline)
              (PyList [PyStr "a"; PyStr "b"]) (PyStr "y") sample_pipeline eq_refl)
    as [Hsize Hlookup].
  split; [exact Hsize|]. apply Hlookup. simpl. tauto.
Defined.

(** ** What fitting does to a selector *)

Section SelectorEffects.

Lemma keeps_ret {A} (a : A) : keeps_config (ret a).
Proof.
  intros s log. split; [reflexivity|]. exists []. simpl.
  split; [now rewrite app_nil_r|constructor].
Qed.

Lemma keeps_raise {A} (e : exn) : keeps_config (@raise selector A e).
Proof.
  intros s log. split; [reflexivity|]. exists []. simpl.
  split; [now rewrite app_nil_r|constructor].
Qed.

Lemma keeps_lift {A} (r : result A) : keeps_config (lift r).
Proof.
  intros s log. split; [reflexivity|]. exists []. simpl.
  split; [now rewrite app_nil_r|constructor].
Qed.

Lemma keeps_getself : keeps_config getself.
Proof.
  intros s log. split; [reflexivity|]. exists []. simpl.
  split; [now rewrite app_nil_r|constructor].
Qed.

Lemma keeps_emit (e : event) : is_train e = false -> keeps_config (emit e).
Proof.
  intros He s log. split; [reflexivity|]. exists [e]. split; [reflexivity|].
  now repeat constructor.
Qed.

Lemma keeps_modify (f : selector -> selector) :
  (forall s, config (f s) = config s) -> keeps_config (modify f).
Proof.
  intros Hf s log. split; [apply Hf|]. exists []. simpl.
  split; [now rewrite app_nil_r|constructor].
Qed.

Lemma keeps_bind {A B} (m : M selector A) (k : A -> M selector B) :
  keeps_config m -> (forall a, keeps_config (k a)) -> keeps_config (bind m k).
Proof.
  intros Hm Hk s log. unfold bind.
  destruct (Hm s log) as [Hc [rest [Hl Hnt]]].
  destruct (m (s, log)) as [[s1 l1] [e|a]]; simpl in *.
  - split; [assumption|now exists rest].
  - destruct (Hk a s1 l1) as [Hc' [rest' [Hl' Hnt']]]. split; [congruence|].
    exists (rest ++ rest'). split.
    + rewrite Hl', Hl. now rewrite app_assoc.
    + apply Forall_app. now split.
Qed.

Lemma ends_fitted_raise (X : frame) (e : exn) : ends_fitted X (raise e).
Proof. intros s log Xt H. discriminate H. Qed.

Lemma ends_fitted_bind {A} (X : frame) (m : M selector A) (k : A -> M selector frame) :
  (forall a, ends_fitted X (k a)) -> ends_fitted X (bind m k).
Proof.
  intros Hk s log Xt. unfold bind.
  destruct (m (s, log)) as [[s1 l1] [e|a]]; [discriminate|]. apply Hk.
Qed.

Lemma ends_fitted_transform (X : frame) : ends_fitted X (transform X).
Proof.
  intros s log Xt. destruct (drop_ s) as [drop|] eqn:Hd.
  - destruct (transform_fitted s X log drop Hd) as (X' & Hrun & Hcols & Hsub & _).
    rewrite Hrun. simpl. intros H. injection H as <-. exists drop. now repeat split.
  - unfold transform. run. rewrite Hd. discriminate.
Qed.

End SelectorEffects.

(** Apply the rules above along the structure of a method. *)
Ltac keeps :=
  repeat first
    [ apply keeps_ret | apply keeps_raise | apply keeps_lift | apply keeps_getself
    | apply keeps_emit; reflexivity | apply keeps_modify; intros []; reflexivity
    | apply keeps_bind; [|intros ?]
    | match goal with
      | |- keeps_config (if ?b then _ else _) => destruct b
      | |- keeps_config (match ?x with _ => _ end) => destruct x
      end ].

Ltac ends_fitted :=
  repeat first
    [ apply ends_fitted_raise | apply ends_fitted_transform
    | apply ends_fitted_bind; intros ?
    | match goal with
      | |- ends_fitted _ (if ?b then _ else _) => destruct b
      | |- ends_fitted _ (match ?x with _ => _ end) => destruct x
      end ].

Lemma bind_check_frame {O A} (X : frame) (k : frame -> M O A) :
  bind (check_frame X false) k = k X.
Proof. reflexivity. Qed.

Lemma keeps_check_frame (X : frame) (copy : bool) :
  keeps_config (@check_frame selector X copy).
Proof. unfold check_frame. keeps. Qed.

Lemma keeps_frame_from_x_y (X : frame) (fn tf ef : pyval) :
  keeps_config (@_frame_from_x_y selector X fn tf ef).
Proof. unfold _frame_from_x_y. keeps. Qed.

Lemma keeps_validate_use (X : frame) (u : string) (warn : bool) :
  keeps_config (@_validate_use selector X u warn).
Proof. unfold _validate_use. keeps. Qed.

Lemma keeps_transform (X : frame) : keeps_config (transform X).
Proof. unfold transform. keeps. Qed.

Lemma keeps_feature_dropper_fit (X : frame) : keeps_config (H2OFeatureDropper_fit X).
Proof. unfold H2OFeatureDropper_fit. keeps. Qed.

Lemma keeps_sparse_fit (X : frame) : keeps_config (H2OSparseFeatureDropper_fit X).
Proof.
  unfold H2OSparseFeatureDropper_fit.
  apply keeps_bind; [apply keeps_check_frame|intros X0].
  apply keeps_bind; [apply keeps_getself|intros self].
  apply keeps_bind; [apply keeps_frame_from_x_y|intros cand].
  keeps.
Qed.

Lemma keeps_mcf {E : Env} (X : frame) :
  keeps_config (H2OMulticollinearityFilterer_fit_transform X).
Proof.
  unfold H2OMulticollinearityFilterer_fit_transform.
  apply keeps_bind; [apply keeps_check_frame|intros X0].
  apply keeps_bind; [apply keeps_getself|intros self].
  apply keeps_bind; [apply keeps_frame_from_x_y|intros cand].
  apply keeps_bind; [apply keeps_validate_use|intros u].
  apply keeps_bind; [now apply keeps_emit|intros _].
  apply keeps_bind; [apply keeps_lift|intros c].
  apply keeps_bind; [now apply keeps_emit|intros _].
  apply keeps_bind; [now apply keeps_emit|intros _].
  apply keeps_bind; [apply keeps_lift|intros [[drop macs] corrs]].
  keeps.
Qed.

Lemma keeps_ratio_rows {E : Env} (cand : frame) (names : list string) (ratio : pyval) :
  keeps_config (ratio_rows cand names ratio).
Proof.
  induction names as [|col rest IH]; simpl; [apply keeps_ret|].
  apply keeps_bind; [now apply keeps_emit|intros _].
  destruct (find_column col cand); [|apply keeps_raise].
  apply keeps_bind; [exact IH|intros rows]. apply keeps_ret.
Qed.

Lemma keeps_nzv {E : Env} (X : frame) :
  keeps_config (H2ONearZeroVarianceFilterer_fit_transform X).
Proof.
  unfold H2ONearZeroVarianceFilterer_fit_transform.
  apply keeps_bind; [apply keeps_check_frame|intros X0].
  apply keeps_bind; [apply keeps_getself|intros self].
  apply keeps_bind; [apply keeps_frame_from_x_y|intros cand].
  apply keeps_bind; [apply keeps_validate_use|intros u].
  apply keeps_bind; [now apply keeps_emit|intros _].
  destruct (negb _); [apply keeps_raise|].
  destruct (String.eqb _ _).
  - keeps.
  - apply keeps_bind; [apply keeps_lift|intros ok].
    destruct (negb ok); [apply keeps_raise|].
    apply keeps_bind; [now apply keeps_emit|intros _].
    apply keeps_bind; [apply keeps_ratio_rows|intros rows].
    destruct rows; [apply keeps_raise|].
    keeps.
Qed.

Lemma keeps_fit_transform {E : Env} (X : frame) (kwargs : gmap string pyval) :
  keeps_config (H2OPipeline.fit_transform X kwargs).
Proof.
  unfold H2OPipeline.fit_transform.
  destruct (negb _); [apply keeps_raise|].
  apply keeps_bind; [apply keeps_getself|intros self].
  destruct (cls self).
  - apply keeps_bind; [apply keeps_feature_dropper_fit|intros _]. apply keeps_transform.
  - apply keeps_bind; [apply keeps_sparse_fit|intros _]. apply keeps_transform.
  - apply keeps_mcf.
  - apply keeps_nzv.
Qed.

Lemma ends_fitted_fit_transform {E : Env} (X : frame) (kwargs : gmap string pyval) :
  ends_fitted X (H2OPipeline.fit_transform X kwargs).
Proof.
  unfold H2OPipeline.fit_transform, H2OMulticollinearityFilterer_fit_transform,
    H2ONearZeroVarianceFilterer_fit_transform.
  rewrite !bind_check_frame. ends_fitted.
Qed.

Lemma transform_keeps_object (X : frame) (s : selector) (log : list event) :
  fst (fst (transform X (s, log))) = s.
Proof.
  unfold transform. run. destruct (drop_ s) as [drop|]; [|reflexivity]. simpl.
  now destruct (select X (_retain_features X drop)).
Qed.

(** X4: no method of a selector changes what its constructor stored (class,
    feature_names, target_feature, exclude_features, threshold, na_warn,
    na_rm, use, strategy), whether it returns or raises, and each only
    appends to the log of engine calls, never a training call; [transform]
    leaves the whole object as it was. *)
Theorem fitting_keeps_configuration {E : Env} (X : frame) (kwargs : gmap string pyval) :
  keeps_config (H2OPipeline.fit_transform X kwargs)
  /\ keeps_config (H2OFeatureDropper_fit X)
  /\ keeps_config (H2OSparseFeatureDropper_fit X)
  /\ keeps_config (H2OMulticollinearityFilterer_fit_transform X)
  /\ keeps_config (H2OMulticollinearityFilterer_fit X)
  /\ keeps_config (H2ONearZeroVarianceFilterer_fit_transform X)
  /\ keeps_config (H2ONearZeroVarianceFilterer_fit X)
  /\ (forall s log, fst (fst (transform X (s, log))) = s).
Proof.
  repeat split.
  - apply keeps_fit_transform.
  - apply keeps_fit_transform.
  - apply keeps_feature_dropper_fit.
  - apply keeps_feature_dropper_fit.
  - apply keeps_sparse_fit.
  - apply keeps_sparse_fit.
  - apply keeps_mcf.
  - apply keeps_mcf.
  - apply (keeps_bind _ _ (keeps_mcf X) (fun _ => keeps_ret tt)).
  - apply (keeps_bind _ _ (keeps_mcf X) (fun _ => keeps_ret tt)).
  - apply keeps_nzv.
  - apply keeps_nzv.
  - apply (keeps_bind _ _ (keeps_nzv X) (fun _ => keeps_ret tt)).
  - apply (keeps_bind _ _ (keeps_nzv X) (fun _ => keeps_ret tt)).
  - apply transform_keeps_object.
Qed.

(** X5: when a selector's [fit_transform] (or [fit] then [transform])
    returns a frame, the selector has a [drop_], the frame returned is made
    of columns of the input, those [drop_] does not name, and from then on
    [transform] succeeds on every frame, whichever columns it has: it never
    raises NotFittedError and ignores names in [drop_] the frame lacks. *)
Theorem fit_transform_leaves_fitted {E : Env} (X : frame) (kwargs : gmap string pyval)
    (s : selector) (log : list event) (Xt : frame) :
  snd (H2OPipeline.fit_transform X kwargs (s, log)) = inr Xt ->
  exists drop,
    drop_ (fst (fst (H2OPipeline.fit_transform X kwargs (s, log)))) = Some drop
    /\ columns Xt = _retain_features X drop
    /\ incl Xt X
    /\ forall Y log',
         exists Yt,
           transform Y (fst (fst (H2OPipeline.fit_transform X kwargs (s, log))), log') =
             ((fst (fst (H2OPipeline.fit_transform X kwargs (s, log))),
               log' ++ [FrameSubset (_retain_features Y drop)]),
              inr Yt)
           /\ columns Yt = _retain_features Y drop.
Proof.
  intros H. destruct (ends_fitted_fit_transform X kwargs s log Xt H)
    as (drop & Hd & Hcols & Hsub).
  exists drop. repeat split; try assumption.
  intros Y log'.
  destruct (transform_fitted _ Y log' drop Hd) as (Yt & Hrun & HYcols & _).
  exists Yt. now split.
Qed.

Lemma fit_transform_leaves_fitted_witness :
  exists drop,
    drop_ (fst (fst (@H2OPipeline.fit_transform sample_env sample_frame ∅
                       (sample_sparse, [])))) = Some drop
    /\ columns [Column "b" [Some 1%Q; Some 1%Q; None; None];
                Column "c" [Some 1%Q; Some 2%Q; Some 3%Q; Some 5%Q];
                Column "y" [Some 0%Q; Some 1%Q; Some 0%Q; Some 1%Q]] =
         _retain_features sample_frame drop.
Proof.
  destruct (@fit_transform_leaves_fitted sample_env sample_frame ∅ sample_sparse []
              [Column "b" [Some 1%Q; Some 1%Q; None; None];
               Column "c" [Some 1%Q; Some 2%Q; Some 3%Q; Some 5%Q];
               Column "y" [Some 0%Q; Some 1%Q; Some 0%Q; Some 1%Q]])
    as (drop & Hd & Hcols & _).
  - reflexivity.
  - exists drop. now split.
Defined.

(** ** More on [_validate_use] *)

(** X6: for a valid [use], [_validate_use] never raises and answers a valid
    policy, either [use] itself or 'complete.obs'; it changes the policy
    exactly when it warns, and it counts the frame's NAs exactly when [use]
    is not 'complete.obs' and [na_warn] is true.  It leaves the object alone
    and does nothing else. *)
Theorem validate_use_warns_iff_overrides {O : Type} (X : frame) (u : string)
    (warn : bool) (w : O * list event) :
  In u _valid_use ->
  exists u' evs,
    _validate_use X u warn w = ((fst w, snd w ++ evs), inr u')
    /\ In u' _valid_use
    /\ (u' = u \/ u' = "complete.obs")
    /\ (u' <> u <-> In (Warn (isna_sum X)) evs)
    /\ (In FrameIsNaSum evs <-> u <> "complete.obs" /\ warn = true)
    /\ (forall e, In e evs -> e = FrameIsNaSum \/ e = Warn (isna_sum X)).
Proof.
  intros Hu. exists (effective_use X u warn), (use_events X u warn).
  split; [now apply validate_use_valid|].
  unfold effective_use, use_events.
  destruct (String.eqb u "complete.obs") eqn:Hc.
  - apply String.eqb_eq in Hc. subst u.
    refine (conj Hu (conj (or_introl eq_refl) (conj _ (conj _ _)))).
    + split; [intros H; now contradiction H|intros []].
    + split; [intros []|intros [H _]; now contradiction H].
    + intros e [].
  - apply String.eqb_neq in Hc. destruct warn; cbn [andb].
    + destruct (0 <? isna_sum X)%nat.
      * refine (conj _ (conj (or_intror eq_refl) (conj _ (conj _ _)))).
        -- simpl. auto.
        -- split; [intros _; right; now left|intros _ H; now apply Hc].
        -- split; [intros _; now split|intros _; now left].
        -- intros e [<-|[<-|[]]]; [now left|now right].
      * refine (conj Hu (conj (or_introl eq_refl) (conj _ (conj _ _)))).
        -- split; [intros H; now contradiction H|intros [H|[]]; discriminate H].
        -- split; [intros _; now split|intros _; now left].
        -- intros e [<-|[]]. now left.
    + refine (conj Hu (conj (or_introl eq_refl) (conj _ (conj _ _)))).
      * split; [intros H; now contradiction H|intros []].
      * split; [intros []|intros [_ H]; discriminate H].
      * intros e [].
Qed.

Lemma validate_use_warns_iff_overrides_witness :
  exists u' evs,
    @_validate_use selector sample_candidates "everything" true (sample_nzv, []) =
      ((sample_nzv, [] ++ evs), inr u')
    /\ (u' <> "everything" <-> In (Warn (isna_sum sample_candidates)) evs).
Proof.
  destruct (@validate_use_warns_iff_overrides selector sample_candidates "everything"
              true (sample_nzv, []))
    as (u' & evs & Hrun & _ & _ & Hwarn & _).
  - simpl. auto.
  - exists u', evs. now split.
Defined.

(** ** More on [transform] *)

Lemma NoDup_columns_filter (f : column -> bool) (X : frame) :
  List.NoDup (columns X) -> List.NoDup (columns (List.filter f X)).
Proof.
  unfold columns. induction X as [|c X IH]; simpl; intros Hnd; [constructor|].
  apply NoDup_cons_iff in Hnd as [Hnotin Hnd].
  destruct (f c); simpl; [|now apply IH].
  constructor; [|now apply IH].
  intros Hin. apply Hnotin. apply in_map_iff in Hin as (d & Hd & Hin).
  apply filter_In in Hin as [Hin _]. apply in_map_iff. now exists d.
Qed.

Lemma without_app (d1 d2 : list pyval) (X : frame) :
  without d2 (without d1 X) = without (d1 ++ d2) X.
Proof.
  unfold without. induction X as [|c X IH]; simpl; [reflexivity|].
  rewrite existsb_app.
  destruct (existsb (py_eq_str (cname c)) d1); simpl; [exact IH|].
  destruct (existsb (py_eq_str (cname c)) d2); simpl; [exact IH|now rewrite IH].
Qed.

Lemma without_comm (d1 d2 : list pyval) (X : frame) :
  without d2 (without d1 X) = without d1 (without d2 X).
Proof.
  unfold without. induction X as [|c X IH]; simpl; [reflexivity|].
  destruct (existsb (py_eq_str (cname c)) d1) eqn:H1;
    destruct (existsb (py_eq_str (cname c)) d2) eqn:H2; simpl;
    rewrite ?H1, ?H2; simpl; now rewrite IH.
Qed.

Lemma transform_without (s : selector) (X : frame) (log : list event)
    (drop : list pyval) :
  drop_ s = Some drop -> List.NoDup (columns X) ->
  transform X (s, log) =
    ((s, log ++ [FrameSubset (columns (without drop X))]), inr (without drop X)).
Proof.
  intros Hd Hnd.
  destruct (transform_fitted s X log drop Hd) as (X' & Hrun & _ & _ & Heq).
  rewrite Hrun, (Heq Hnd). now rewrite retain_features_without.
Qed.

(** X7: on a frame with distinct column names, transforming with one fitted
    selector and then with another gives the frame without the columns
    either drops, whichever of the two goes first; and transforming again
    with the same selector changes nothing: [transform] is idempotent. *)
Theorem transform_composes (s1 s2 : selector) (X : frame) (d1 d2 : list pyval)
    (log : list event) :
  List.NoDup (columns X) -> drop_ s1 = Some d1 -> drop_ s2 = Some d2 ->
  let X1 := without d1 X in
  let X2 := without d2 X in
  snd (transform X (s1, log)) = inr X1
  /\ snd (transform X1 (s2, log)) = inr (without (d1 ++ d2) X)
  /\ snd (transform X2 (s1, log)) = inr (without (d1 ++ d2) X)
  /\ snd (transform X1 (s1, log)) = inr X1
  /\ List.NoDup (columns X1).
Proof.
  intros Hnd H1 H2 X1 X2.
  assert (Hnd1 : List.NoDup (columns X1)) by now apply NoDup_columns_filter.
  assert (Hnd2 : List.NoDup (columns X2)) by now apply NoDup_columns_filter.
  refine (conj _ (conj _ (conj _ (conj _ Hnd1)))).
  - now rewrite (transform_without s1 X log d1 H1 Hnd).
  - rewrite (transform_without s2 X1 log d2 H2 Hnd1). simpl. f_equal.
    apply without_app.
  - rewrite (transform_without s1 X2 log d1 H1 Hnd2). simpl. f_equal.
    unfold X2. rewrite <- (without_comm d1 d2 X). apply without_app.
  - rewrite (transform_without s1 X1 log d1 H1 Hnd1). simpl. f_equal. unfold X1.
    rewrite without_app. unfold without. apply filter_ext. intros c.
    rewrite existsb_app. now destruct (existsb (py_eq_str (cname c)) d1).
Qed.

Lemma transform_composes_witness :
  snd (transform (without [PyStr "a"] sample_frame)
         (set_drop_ [PyStr "c"] sample_dropper_none, [])) =
    inr [Column "b" [Some 1%Q; Some 1%Q; None; None];
         Column "y" [Some 0%Q; Some 1%Q; Some 0%Q; Some 1%Q]].
Proof.
  destruct (transform_composes (set_drop_ [PyStr "a"] sample_dropper_none)
              (set_drop_ [PyStr "c"] sample_dropper_none) sample_frame
              [PyStr "a"] [PyStr "c"] []) as (_ & H & _).
  - simpl. repeat (constructor; [simpl; intuition discriminate|]). constructor.
  - reflexivity.
  - reflexivity.
  - exact H.
Defined.

(** ** More on the parameter names *)

Lemma after_dunder_same_head (c : ascii) (s t : string) :
  (forall d r, s = String d r -> exists r', t = String d r') ->
  (s = EmptyString -> exists r', t = String "_"%char r') ->
  after_dunder (String c t) = None ->
  after_dunder (String c (String.append s "_")) = None.
Proof.
  intros Hcons Hnil. destruct s as [|d r].
  - destruct (Hnil eq_refl) as [r' ->]. rewrite append_Empty. unfold after_dunder.
    destruct (Ascii.eqb c "_"%char); simpl; [discriminate|reflexivity].
  - destruct (Hcons d r eq_refl) as [r' ->]. rewrite append_String.
    unfold after_dunder.
    destruct (Ascii.eqb c "_"%char && Ascii.eqb d "_"%char); [discriminate|reflexivity].
Qed.

(** The part before the first ['__'] holds no ['__'], also not once an
    underscore is put after it. *)
Lemma split_dunder_step (pname step param : string) :
  split_dunder pname = Some (step, param) ->
  split_dunder (String.append step "_") = None.
Proof.
  revert step param. induction pname as [|c rest IH]; intros step param.
  - discriminate.
  - cbn [split_dunder].
    destruct (after_dunder (String c rest)) as [after|] eqn:Ha.
    + intros H. injection H as <- <-. reflexivity.
    + destruct (split_dunder rest) as [[st pa]|] eqn:Hs; [|discriminate].
      intros H. injection H as <- <-.
      pose proof (IH st pa eq_refl) as Hst.
      apply split_dunder_join in Hs.
      rewrite append_String. cbn [split_dunder]. rewrite Hst.
      rewrite (after_dunder_same_head c st rest); [reflexivity| | |exact Ha].
      * intros d r ->. rewrite Hs, append_String. eauto.
      * intros ->. rewrite Hs, append_Empty, append_String. eauto.
Qed.

Lemma split_dunder_of_join (step param : string) :
  split_dunder (String.append step "_") = None ->
  split_dunder (String.append step (String.append "__" param)) = Some (step, param).
Proof.
  induction step as [|c st IH].
  - intros _. rewrite append_Empty, !append_String, append_Empty. reflexivity.
  - rewrite (append_String c st "_"), (append_String c st (String.append "__" param)).
    cbn [split_dunder].
    destruct (after_dunder (String c (String.append st "_"))) eqn:Ha; [discriminate|].
    destruct (split_dunder (String.append st "_")) as [[a b]|] eqn:Hs; [discriminate|].
    intros _. rewrite (IH eq_refl).
    assert (Hb : after_dunder (String c (String.append st (String.append "__" param)))
                 = None).
    { destruct st as [|d r].
      - rewrite append_Empty in Ha. rewrite append_Empty.
        rewrite (append_String "_"%char "_" param).
        unfold after_dunder in *. destruct (Ascii.eqb c "_"%char); simpl in *;
          [discriminate|reflexivity].
      - rewrite (append_String d r) in Ha. rewrite (append_String d r).
        unfold after_dunder in *.
        destruct (Ascii.eqb c "_"%char && Ascii.eqb d "_"%char);
          [discriminate|reflexivity]. }
    now rewrite Hb.
Qed.

(** X8: a parameter name splits into [step] and [param] exactly when it is
    [step], ['__'] and [param] joined and [step] followed by an underscore
    holds no ['__']: the split is at the first ['__'], so a step whose name
    holds ['__'] or ends with an underscore is never the one a name is routed
    to. *)
Theorem split_dunder_iff (pname step param : string) :
  split_dunder pname = Some (step, param) <->
  pname = String.append step (String.append "__" param)
  /\ split_dunder (String.append step "_") = None.
Proof.
  split.
  - intros H. split; [now apply split_dunder_join|now apply split_dunder_step in H].
  - intros [-> H]. now apply split_dunder_of_join.
Qed.

(** ** The loop over the transformers *)

Lemma with_step_transformer {A} (i : nat) (name : string) (s : selector)
    (m : M selector A) (p : pipeline) (log : list event) :
  steps p !! i = Some (name, Transformer s) ->
  with_step i m (p, log) =
    ((set_steps (<[i := (name, Transformer (fst (fst (m (s, log)))))]> (steps p)) p,
      snd (fst (m (s, log)))),
     snd (m (s, log))).
Proof.
  intros Hi. unfold with_step. simpl. rewrite Hi.
  now destruct (m (s, log)) as [[s' log'] r].
Qed.

Lemma with_step_other {A} (i : nat) (m : M selector A) (p : pipeline)
    (log : list event) :
  (forall name s, steps p !! i <> Some (name, Transformer s)) ->
  with_step i m (p, log) = ((p, log), inl (AttributeError "fit_transform")).
Proof.
  intros Hi. unfold with_step. simpl.
  destruct (steps p !! i) as [[name [s|b]]|] eqn:H; try reflexivity.
  exfalso. now apply (Hi name s).
Qed.

Lemma retain_features_columns (X Y : frame) (drop : list pyval) :
  columns X = columns Y -> _retain_features X drop = _retain_features Y drop.
Proof. intros H. unfold _retain_features. now rewrite H. Qed.

Lemma retain_features_twice (X X1 : frame) (d1 d2 : list pyval) :
  columns X1 = _retain_features X d1 ->
  _retain_features X1 d2 = _retain_features X (d1 ++ d2).
Proof.
  intros H. unfold _retain_features in *. rewrite H. clear H.
  induction (columns X) as [|n ns IH]; simpl; [reflexivity|].
  rewrite existsb_app.
  destruct (existsb (py_eq_str n) d1); simpl; [exact IH|].
  destruct (existsb (py_eq_str n) d2); simpl; [exact IH|now rewrite IH].
Qed.

Lemma retain_features_nil (X : frame) : _retain_features X [] = columns X.
Proof.
  unfold _retain_features. induction (columns X) as [|n ns IH];
    [reflexivity|]. cbn [List.filter existsb negb]. f_equal. exact IH.
Qed.

Lemma run_transforms_refits {E : Env} (buckets : gmap string (gmap string pyval))
    (names : list string) :
  forall (i : nat) (p : pipeline) (log : list event) (frameT : frame)
         (p' : pipeline) (log' : list event) (Xt : frame),
    run_transforms buckets i names frameT (p, log) = ((p', log'), inr Xt) ->
    refitted p p' i (length names)
    /\ (exists rest, log' = log ++ rest /\ Forall (fun e => is_train e = false) rest)
    /\ incl Xt frameT
    /\ columns Xt = _retain_features frameT (drops_from p' i (length names)).
Proof.
  induction names as [|name0 names IH]; intros i p log frameT p' log' Xt.
  - simpl. unfold ret. intros H. injection H as <- <- <-.
    split; [|split; [exists []; split; [now rewrite app_nil_r|constructor]
                    |split; [apply incl_refl|]]].
    + unfold refitted. repeat split; try reflexivity. intros j Hj. lia.
    + unfold drops_from. simpl. now rewrite retain_features_nil.
  - cbn [run_transforms]. unfold bind at 1. unfold getself. cbn [fst].
    unfold bind at 1.
    destruct (steps p !! i) as [[name o]|] eqn:Hi.
    2:{ rewrite with_step_other; [discriminate|]. intros n s0. now rewrite Hi. }
    destruct o as [s|b].
    2:{ rewrite with_step_other; [discriminate|]. intros n s0. rewrite Hi. congruence. }
    rewrite (with_step_transformer i name s _ p log Hi).
    unfold modify at 1. cbn [fst snd].
    set (s1 := set_target_feature (target_feature p) s).
    set (p1 := set_steps (<[i := (name, Transformer s1)]> (steps p)) p).
    assert (Hlt : (i < length (steps p))%nat) by now apply lookup_lt_Some in Hi.
    assert (Hi1 : steps p1 !! i = Some (name, Transformer s1)).
    { unfold p1. simpl. now apply list_lookup_insert_eq. }
    unfold bind at 1.
    rewrite (with_step_transformer i name s1 _ p1 log Hi1).
    set (bucket := default ∅ (buckets !! name0)).
    destruct (keeps_fit_transform frameT bucket s1 log) as [Hcfg [rest1 [Hlog1 Hnt1]]].
    pose proof (ends_fitted_fit_transform frameT bucket s1 log) as Hfit.
    destruct (fit_transform frameT bucket (s1, log)) as [[s' log1] [e|frameT']];
      cbn [fst snd] in *; [discriminate|].
    destruct (Hfit frameT' eq_refl) as (drop & Hdrop & Hcols & Hsub).
    set (p2 := set_steps (<[i := (name, Transformer s')]> (steps p1)) p1).
    intros Hrun. apply IH in Hrun as (Href & [rest2 [Hlog2 Hnt2]] & Hsub2 & Hcols2).
    destruct Href as (Hfn & Htf & Htc & Hlen & Hout & Hin).
    assert (Hi' : steps p' !! i = Some (name, Transformer s')).
    { rewrite Hout by lia. unfold p2. simpl.
      apply list_lookup_insert_eq. unfold p1. simpl. now rewrite length_insert. }
    split; [|split; [|split]].
    + unfold refitted. refine (conj Hfn (conj Htf (conj Htc (conj _ (conj _ _))))).
      * rewrite Hlen. unfold p2, p1. simpl. now rewrite !length_insert.
      * intros j Hj. simpl in Hj. rewrite Hout by lia. unfold p2, p1. simpl.
        rewrite !list_lookup_insert_ne by lia. reflexivity.
      * intros j Hj. simpl in Hj. destruct (decide (j = i)) as [->|Hne].
        -- exists name, s, s', drop. now repeat split.
        -- destruct (Hin j) as (n & t & t' & d & Hj2 & Hj' & Hc & Hd); [simpl; lia|].
           exists n, t, t', d. split; [|split; [exact Hj'|split; [exact Hc|exact Hd]]].
           rewrite <- Hj2. unfold p2, p1. simpl.
           rewrite !list_lookup_insert_ne by lia. reflexivity.
    + exists (rest1 ++ rest2). split.
      * rewrite Hlog2, Hlog1. now rewrite app_assoc.
      * apply Forall_app. now split.
    + intros c Hc. apply Hsub. now apply Hsub2.
    + rewrite Hcols2.
      change (drops_from p' i (length (name0 :: names)))
        with (default [] (step_drop p' i) ++ drops_from p' (S i) (length names)).
      unfold step_drop at 1. rewrite Hi', Hdrop. cbn [default].
      now apply retain_features_twice.
Qed.

Lemma removelast_length_pred {A} (l : list A) :
  length (removelast l) = (length l - 1)%nat.
Proof.
  induction l as [|x [|y l] IH]; [reflexivity|reflexivity|].
  change (removelast (x :: y :: l)) with (x :: removelast (y :: l)).
  simpl length in *. rewrite IH. lia.
Qed.

Lemma pre_transform_refits {E : Env} (X : frame) (fit_params : list (string * pyval))
    (p : pipeline) (log : list event) (p' : pipeline) (log' : list event)
    (Xt : frame) (b : gmap string pyval) :
  _pre_transform X fit_params (p, log) = ((p', log'), inr (Xt, b)) ->
  refitted p p' 0 (length (steps p) - 1)
  /\ (exists rest, log' = log ++ rest /\ Forall (fun e => is_train e = false) rest)
  /\ incl Xt X
  /\ columns Xt = _retain_features X (drops_from p' 0 (length (steps p) - 1)).
Proof.
  unfold _pre_transform. run.
  destruct (split_fit_params fit_params (empty_buckets (steps p))) as [e|buckets];
    [discriminate|].
  destruct (run_transforms buckets 0 _ X (p, log)) as [[p1 l1] [e|frameT]] eqn:Hrun;
    [discriminate|].
  destruct (List.last _ None) as [final|]; [|discriminate].
  destruct (buckets !! final) as [bucket|]; [|discriminate].
  intros H. injection H as <- <- <- <-.
  apply run_transforms_refits in Hrun.
  now rewrite removelast_length_pred, length_map in Hrun.
Qed.

Lemma config_target (s1 s2 : selector) (v : pyval) :
  config s1 = config (set_target_feature v s2) -> target_of s1 = v.
Proof. unfold config, target_of. intros H. now injection H. Qed.

(** X9: when [_pre_transform] returns, the pipeline's own attributes and the
    number of steps are what they were, and a final step that is no
    transformer is untouched; every step before the last is a transformer,
    under the name it had, with the configuration it had but for the
    pipeline's [target_feature], which it now holds, and it is fitted; the
    log has only grown, by no training call, and every column of the frame
    returned is a column of the input that the [drop_] of no step names. *)
Theorem pre_transform_injects_target {E : Env} (X : frame)
    (fit_params : list (string * pyval)) (p : pipeline) (log : list event)
    (p' : pipeline) (log' : list event) (Xt : frame) (b : gmap string pyval) :
  _pre_transform X fit_params (p, log) = ((p', log'), inr (Xt, b)) ->
  let n := length (steps p) in
  (feature_names p' = feature_names p /\ target_feature p' = target_feature p
   /\ training_cols_ p' = training_cols_ p /\ length (steps p') = n)
  /\ (forall name has_train,
        steps p !! (n - 1)%nat = Some (name, Other has_train) ->
        steps p' !! (n - 1)%nat = Some (name, Other has_train))
  /\ (forall j, (j < n - 1)%nat ->
        exists name s s' drop,
          steps p !! j = Some (name, Transformer s)
          /\ steps p' !! j = Some (name, Transformer s')
          /\ config s' = config (set_target_feature (target_feature p) s)
          /\ target_of s' = target_feature p
          /\ drop_ s' = Some drop)
  /\ (exists rest, log' = log ++ rest /\ Forall (fun e => is_train e = false) rest)
  /\ incl Xt X
  /\ (forall c, In c (columns Xt) ->
        In c (columns X)
        /\ existsb (py_eq_str c) (drops_from p' 0 (n - 1)) = false).
Proof.
  intros H n. apply pre_transform_refits in H as (Href & Hlog & Hsub & Hcols).
  destruct Href as (Hfn & Htf & Htc & Hlen & Hout & Hin).
  refine (conj (conj Hfn (conj Htf (conj Htc Hlen))) (conj _ (conj _ (conj Hlog
            (conj Hsub _))))).
  - intros name has_train Hlast. rewrite <- Hlast. apply Hout. right. unfold n. lia.
  - intros j Hj.
    destruct (Hin j) as (name & s & s' & drop & Hs & Hs' & Hcfg & Hdrop);
      [unfold n in Hj; lia|].
    exists name, s, s', drop.
    refine (conj Hs (conj Hs' (conj Hcfg (conj _ Hdrop)))).
    exact (config_target _ _ _ Hcfg).
  - intros c Hc. rewrite Hcols in Hc. unfold _retain_features in Hc.
    apply filter_In in Hc as [Hc Hd]. split; [exact Hc|].
    now apply negb_true_iff in Hd.
Qed.

Lemma pre_transform_injects_target_witness :
  (exists s',
     steps (fst (fst (@_pre_transform sample_env sample_frame []
                        (sample_pipeline, [])))) !! 0%nat =
       Some ("drop", Transformer s')
     /\ config s' =
          config (set_target_feature (PyStr "y")
                    (H2OFeatureDropper_init (PyList [PyStr "a"]) PyNone PyNone))
     /\ target_of s' = PyStr "y")
  /\ existsb (py_eq_str "b")
       (drops_from (fst (fst (@_pre_transform sample_env sample_frame []
                                (sample_pipeline, [])))) 0 1) = false.
Proof.
  destruct (@pre_transform_injects_target sample_env sample_frame []
              sample_pipeline []
              (fst (fst (@_pre_transform sample_env sample_frame []
                           (sample_pipeline, []))))
              [FrameSubset ["b"; "c"; "y"]]
              [Column "b" [Some 1%Q; Some 1%Q; None; None];
               Column "c" [Some 1%Q; Some 2%Q; Some 3%Q; Some 5%Q];
               Column "y" [Some 0%Q; Some 1%Q; Some 0%Q; Some 1%Q]]
              ∅ eq_refl) as (_ & _ & Hsteps & _ & _ & Hcols).
  split.
  - destruct (Hsteps 0%nat) as (name & s & s' & drop & Hs & Hs' & Hcfg & Htf & _).
    + simpl. lia.
    + injection Hs as <- <-. exists s'. now repeat split.
  - apply (Hcols "b"). simpl. tauto.
Defined.

(** ** The whole of [fit] *)

Lemma select_columns (X : frame) (names : list string) (X' : frame) :
  select X names = inr X' -> columns X' = names /\ incl X' X.
Proof.
  revert X'. induction names as [|n names IH]; intros X'; simpl.
  - intros H. injection H as <-. split; [reflexivity|intros c []].
  - destruct (find_column n X) as [c|] eqn:Hc; [|discriminate].
    destruct (select X names) as [e|cs]; [discriminate|].
    intros H. injection H as <-. destruct (IH cs eq_refl) as [Hcols Hsub].
    apply find_column_name in Hc as [Hname Hin]. split.
    + simpl. now rewrite Hname, Hcols.
    + intros d [<-|Hd]; [assumption|now apply Hsub].
Qed.

Lemma str_list_In (l : list pyval) (l' : list string) (n : string) :
  str_list l = Some l' -> (In n l' <-> In (PyStr n) l).
Proof.
  revert l'. induction l as [|v l IH]; intros l'; simpl.
  - intros H. injection H as <-. tauto.
  - destruct v; try discriminate.
    destruct (str_list l) as [r|]; [|discriminate]. simpl.
    intros H. injection H as <-. simpl. rewrite (IH r eq_refl).
    split; (intros [H|H]; [left; congruence|now right]).
Qed.

Lemma incl_columns (X Y : frame) : incl X Y -> incl (columns X) (columns Y).
Proof.
  intros H n Hn. apply in_map_iff in Hn as (c & <- & Hc).
  apply in_map. now apply H.
Qed.

(** What a [fit] that returns has gone through. *)
Lemma fit_inversion {E : Env} (X : frame) (p : pipeline) (log : list event)
    (w' : pipeline * list event) :
  fit X [] (p, log) = (w', inr tt) ->
  exists y names xy frame1 p1 log1 Xt b,
    target_feature p = PyStr y
    /\ py_iter (feature_names p) = inr names
    /\ check_names names = inr tt
    /\ str_list (names ++ [PyStr y]) = Some xy
    /\ select X xy = inr frame1
    /\ _pre_transform frame1 [] (set_training_cols_ None p, log ++ [FrameSubset xy]) =
         ((p1, log1), inr (Xt, b))
    /\ columns Xt <> []
    /\ hasattr_train (List.last (map snd (steps p1)) (Other false)) = true
    /\ w' = (set_training_cols_
               (Some (List.filter (fun n => negb (String.eqb n y)) (columns Xt))) p1,
             log1 ++ [FrameColumns;
                      Train (TrainCall (columns Xt)
                               (List.filter (fun n => negb (String.eqb n y)) (columns Xt))
                               y b)]).
Proof.
  unfold fit, _reset. run.
  destruct (target_feature p) as [| | |y| |] eqn:Hy; try discriminate.
  destruct (py_iter (feature_names p)) as [e|names] eqn:Hiter; [discriminate|]. simpl.
  destruct (check_names names) as [e|[]] eqn:Hnames; [discriminate|]. simpl.
  destruct (str_list (names ++ [PyStr y])) as [xy|] eqn:Hxy; [|discriminate]. run.
  destruct (select X xy) as [e|frame1] eqn:Hsel; [discriminate|]. simpl.
  destruct (_pre_transform frame1 [] _) as [[p1 log1] [e|[Xt b]]] eqn:Hpre;
    [discriminate|]. simpl.
  destruct (columns Xt) as [|c cs] eqn:Hcols; [discriminate|]. simpl.
  destruct (hasattr_train _) eqn:Htrain; [|discriminate].
  intros H. injection H as <-.
  exists y, names, xy, frame1, p1, log1, Xt, b.
  rewrite Hcols. repeat split; try assumption; try reflexivity; try discriminate.
  simpl. now rewrite <- app_assoc.
Qed.

Lemma pre_transform_no_params {E : Env} (X : frame) (p : pipeline) (log : list event)
    (w' : pipeline * list event) (Xt : frame) (b : gmap string pyval) :
  _pre_transform X [] (p, log) = (w', inr (Xt, b)) -> b = ∅.
Proof.
  intros H. apply pre_transform_bucket in H as (buckets & final & Hsplit & _ & Hb).
  simpl in Hsplit. injection Hsplit as <-.
  apply empty_buckets_lookup in Hb. tauto.
Qed.

Lemma fit_result {E : Env} (X : frame) (p p' : pipeline)
    (log log' : list event) :
  fit X [] (p, log) = ((p', log'), inr tt) ->
  exists y names x cols new,
    target_feature p = PyStr y
    /\ py_iter (feature_names p) = inr names
    /\ training_cols_ p' = Some x
    /\ log' = log ++ new ++ [Train (TrainCall cols x y ∅)]
    /\ Forall (fun e => is_train e = false) new
    /\ x = List.filter (fun n => negb (String.eqb n y)) cols
    /\ ~ In y x
    /\ (forall n, In n x ->
          In (PyStr n) names
          /\ existsb (py_eq_str n) (drops_from p' 0 (length (steps p) - 1)) = false)
    /\ feature_names p' = feature_names p
    /\ target_feature p' = target_feature p
    /\ length (steps p') = length (steps p)
    /\ (forall j, (j < length (steps p) - 1)%nat ->
          exists name s s' drop,
            steps p !! j = Some (name, Transformer s)
            /\ steps p' !! j = Some (name, Transformer s')
            /\ config s' = config (set_target_feature (PyStr y) s)
            /\ drop_ s' = Some drop).
Proof.
  intros H. apply fit_inversion in H
    as (y & names & xy & frame1 & p1 & log1 & Xt & b
        & Hy & Hiter & Hnames & Hxy & Hsel & Hpre & Hne & Htrain & Hw).
  injection Hw as -> ->.
  pose proof (pre_transform_no_params _ _ _ _ _ _ Hpre) as ->.
  apply pre_transform_refits in Hpre as (Href & [rest [Hlog Hnt]] & Hsub & Hcols).
  destruct Href as (Hfn & Htf & Htc & Hlen & Hout & Hin).
  simpl in Hfn, Htf, Hlen, Hin, Hcols.
  apply select_columns in Hsel as [Hc1 _].
  set (x := List.filter (fun n => negb (String.eqb n y)) (columns Xt)).
  exists y, names, x, (columns Xt), ([FrameSubset xy] ++ rest ++ [FrameColumns]).
  refine (conj Hy (conj Hiter (conj eq_refl (conj _ (conj _ (conj eq_refl
            (conj _ (conj _ (conj Hfn (conj Htf (conj Hlen _))))))))))).
  - rewrite Hlog. simpl. repeat rewrite <- app_assoc. reflexivity.
  - apply Forall_app. split; [now repeat constructor|].
    apply Forall_app. split; [assumption|now repeat constructor].
  - unfold x. intros Hin'. apply filter_In in Hin' as [_ Hb].
    now rewrite String.eqb_refl in Hb.
  - intros n Hn. unfold x in Hn. apply filter_In in Hn as [Hn Hny]. split.
    + assert (Hn1 : In n xy).
      { rewrite <- Hc1. now apply (incl_columns Xt frame1 Hsub). }
      apply (str_list_In _ _ n Hxy) in Hn1. apply in_app_or in Hn1 as [Hn1|[Heq|[]]];
        [assumption|].
      injection Heq as <-. now rewrite String.eqb_refl in Hny.
    + rewrite Hcols in Hn. unfold _retain_features in Hn.
      apply filter_In in Hn as [_ Hb]. now apply negb_true_iff in Hb.
  - intros j Hj. destruct (Hin j) as (name & s & s' & drop & Hs & Hs' & Hc & Hd);
      [lia|].
    exists name, s, s', drop. rewrite Hy in Hc. now repeat split.
Qed.




(** ** Failures of [fit] *)

Lemma forallb_chars (l : list ascii) :
  forallb isinstance_str (map (fun c => PyStr (String c EmptyString)) l) = true.
Proof. induction l as [|c l IH]; simpl; [reflexivity|exact IH]. Qed.

(** A list of strings passes the check of the names. *)
Lemma check_names_strings (l : list pyval) (ns : list string) :
  str_list l = Some ns -> check_names l = inr tt.
Proof.
  revert ns. induction l as [|v l IH]; intros ns; [reflexivity|].
  cbn [str_list]. destruct v; try discriminate.
  destruct (str_list l) as [r|]; [|discriminate]. intros _.
  cbn [check_names]. destruct (truthy (PyStr s)); [|now apply (IH r)].
  cbn [py_iter]. rewrite forallb_chars. simpl. now apply (IH r).
Qed.

Lemma str_list_app (l : list pyval) (ns : list string) (y : string) :
  str_list l = Some ns -> str_list (l ++ [PyStr y]) = Some (ns ++ [y]).
Proof.
  revert ns. induction l as [|v l IH]; intros ns; simpl.
  - intros H. now injection H as <-.
  - destruct v; try discriminate.
    destruct (str_list l) as [r|]; [|discriminate]. intros H. injection H as <-.
    now rewrite (IH r eq_refl).
Qed.

(** Selecting a name the frame does not have fails, on a name it lacks. *)
Lemma select_missing (X : frame) (names : list string) :
  (exists n, In n names /\ ~ In n (columns X)) ->
  exists m, select X names = inl (KeyError m) /\ In m names /\ ~ In m (columns X).
Proof.
  induction names as [|n names IH]; intros (m & Hm & Hno); [destruct Hm|].
  simpl. destruct (find_column n X) as [c|] eqn:Hc.
  - destruct IH as (k & Hk & Hin & Hnot).
    + destruct Hm as [<-|Hm]; [|now exists m].
      exfalso. apply Hno. apply find_column_name in Hc as [<- Hin].
      now apply in_map.
    + rewrite Hk. exists k. repeat split; [now right|assumption].
  - exists n. repeat split; [now left|].
    intros Hin. apply find_column_In in Hin as [c Hc']. congruence.
Qed.

(** X11: [fit] forgets a [training_cols_] left by an earlier call before it
    does anything else, so its outcome never depends on one.  With a
    [target_feature] that is not a string it raises a TypeError without
    touching the frame or the steps; with a list of strings for
    [feature_names] of which one, or the target, is not a column of the
    frame, it raises a KeyError on such a name after the one column
    selection, again with every step as it was and no [training_cols_]. *)
Theorem fit_fails_before_steps {E : Env} (X : frame) (p : pipeline) (log : list event) :
  (forall v, fit X [] (set_training_cols_ v p, log) = fit X [] (p, log))
  /\ ((forall y, target_feature p <> PyStr y) ->
        fit X [] (p, log) =
          ((set_training_cols_ None p, log),
           inl (TypeError "target_feature should be a single string")))
  /\ (forall y l ns,
        target_feature p = PyStr y -> feature_names p = PyList l ->
        str_list l = Some ns ->
        (exists n, In n (ns ++ [y]) /\ ~ In n (columns X)) ->
        exists m,
          fit X [] (p, log) =
            ((set_training_cols_ None p, log ++ [FrameSubset (ns ++ [y])]),
             inl (KeyError m))
          /\ In m (ns ++ [y]) /\ ~ In m (columns X)).
Proof.
  split; [|split].
  - intros v. reflexivity.
  - intros Hy. unfold fit, _reset. run.
    destruct (target_feature p) as [| | |y| |]; try reflexivity.
    exfalso. now apply (Hy y).
  - intros y l ns Hy Hfn Hl Hmiss.
    destruct (select_missing X (ns ++ [y]) Hmiss) as (m & Hsel & Hin & Hnot).
    exists m. split; [|now split].
    unfold fit, _reset. run. rewrite Hy, Hfn. simpl.
    rewrite (check_names_strings l ns Hl). simpl.
    rewrite (str_list_app l ns y Hl). run. now rewrite Hsel.
Qed.

Lemma fit_fails_before_steps_witness :
  exists m,
    @fit sample_env sample_frame []
       (Pipeline (steps sample_pipeline) (PyList [PyStr "a"; PyStr "z"]) (PyStr "y")
          None, []) =
      ((Pipeline (steps sample_pipeline) (PyList [PyStr "a"; PyStr "z"]) (PyStr "y")
          None, [FrameSubset ["a"; "z"; "y"]]),
       inl (KeyError m))
    /\ ~ In m (columns sample_frame).
Proof.
  destruct (@fit_fails_before_steps sample_env sample_frame
              (Pipeline (steps sample_pipeline) (PyList [PyStr "a"; PyStr "z"])
                 (PyStr "y") None) []) as (_ & _ & H).
  destruct (H "y" [PyStr "a"; PyStr "z"] ["a"; "z"] eq_refl eq_refl eq_refl)
    as (m & Hrun & _ & Hnot).
  - exists "z". split; [simpl; tauto|]. simpl. intuition discriminate.
  - exists m. split; [exact Hrun|exact Hnot].
Defined.

(** X12: when the steps leave a frame with no column at all, not even the
    target, [fit] raises the ValueError 'no columns retained after fit!'
    and never trains; [training_cols_] has been set before the test and
    stays behind as the empty list. *)
Theorem fit_fails_without_columns {E : Env} (p p' : pipeline)
    (X frame1 Xt : frame) (log log' : list event) (y : string)
    (names : list pyval) (xy : list string) (b : gmap string pyval) :
  target_feature p = PyStr y ->
  py_iter (feature_names p) = inr names ->
  check_names names = inr tt ->
  str_list (names ++ [PyStr y]) = Some xy ->
  select X xy = inr frame1 ->
  _pre_transform frame1 [] (set_training_cols_ None p, log ++ [FrameSubset xy]) =
    ((p', log'), inr (Xt, b)) ->
  columns Xt = [] ->
  fit X [] (p, log) =
    ((set_training_cols_ (Some []) p', log' ++ [FrameColumns]),
     inl (ValueError "no columns retained after fit!")).
Proof.
  intros Hy Hiter Hnames Hxy Hsel Hpre Hcols.
  unfold fit, _reset. run. rewrite Hy, Hiter. simpl. rewrite Hnames. simpl.
  rewrite Hxy. run. rewrite Hsel. simpl. rewrite Hpre. simpl.
  now rewrite Hcols.
Qed.

Lemma fit_fails_without_columns_witness :
  @fit sample_env sample_frame [] (sample_pipeline_drop_all, []) =
    ((Pipeline
        [("drop", Transformer
                    (set_drop_ [PyStr "a"; PyStr "y"]
                       (H2OFeatureDropper_init (PyList [PyStr "a"; PyStr "y"])
                          (PyStr "y") PyNone)));
         ("model", sample_estimator)]
        (PyList [PyStr "a"]) (PyStr "y") (Some []),
      [FrameSubset ["a"; "y"]; FrameSubset []; FrameColumns]),
     inl (ValueError "no columns retained after fit!")).
Proof.
  apply (@fit_fails_without_columns sample_env sample_pipeline_drop_all
           (Pipeline
              [("drop", Transformer
                          (set_drop_ [PyStr "a"; PyStr "y"]
                             (H2OFeatureDropper_init (PyList [PyStr "a"; PyStr "y"])
                                (PyStr "y") PyNone)));
               ("model", sample_estimator)]
              (PyList [PyStr "a"]) (PyStr "y") None)
           sample_frame
           [Column "a" [Some 1%Q; None; None; None];
            Column "y" [Some 0%Q; Some 1%Q; Some 0%Q; Some 1%Q]]
           [] [] [FrameSubset ["a"; "y"]; FrameSubset []]
           "y" [PyStr "a"] ["a"; "y"] ∅);
    reflexivity.
Defined.

(** ** [predict] *)

Lemma set_steps_same (p : pipeline) (i : nat) (st : string * step_obj) :
  steps p !! i = Some st -> set_steps (<[i := st]> (steps p)) p = p.
Proof.
  intros H. unfold set_steps. rewrite list_insert_id by assumption. now destruct p.
Qed.

Lemma final_estimator_nonempty (p : pipeline) :
  steps p <> [] -> exists o, _final_estimator p = inr o.
Proof.
  unfold _final_estimator. generalize (steps p) as l.
  induction l as [|st [|st' l] IH]; intros Hne; [contradiction| |].
  - simpl. eauto.
  - change (List.last (map (fun st => Some (snd st)) (st :: st' :: l)) None)
      with (List.last (map (fun st => Some (snd st)) (st' :: l)) None).
    apply IH. discriminate.
Qed.

Lemma fit_steps_nonempty {E : Env} (X : frame) (p : pipeline) (log : list event)
    (w' : pipeline * list event) :
  fit X [] (p, log) = (w', inr tt) -> steps (fst w') <> [].
Proof.
  intros H. apply fit_inversion in H
    as (y & names & xy & frame1 & p1 & log1 & Xt & b & _ & _ & _ & _ & _ & _ & _
        & Htrain & ->).
  simpl. intros Hnil. rewrite Hnil in Htrain. discriminate Htrain.
Qed.

(** The transformers of a fitted pipeline take any frame through. *)
Lemma predict_transforms_fitted (names : list string) :
  forall (i : nat) (p : pipeline) (log : list event) (Y : frame),
    (forall j, (i <= j < i + length names)%nat ->
       exists name s drop,
         steps p !! j = Some (name, Transformer s) /\ drop_ s = Some drop) ->
    exists Yt rest,
      predict_transforms i names Y (p, log) = ((p, log ++ rest), inr Yt)
      /\ incl Yt Y
      /\ columns Yt = _retain_features Y (drops_from p i (length names))
      /\ Forall (fun e => is_train e = false) rest.
Proof.
  induction names as [|name0 names IH]; intros i p log Y Hfit.
  - exists Y, []. simpl. unfold ret. rewrite app_nil_r.
    repeat split; [apply incl_refl| |constructor].
    unfold drops_from. simpl. now rewrite retain_features_nil.
  - destruct (Hfit i) as (name & s & drop & Hi & Hd); [simpl; lia|].
    destruct (transform_fitted s Y log drop Hd) as (Y1 & Hrun & Hcols & Hsub & _).
    destruct (IH (S i) p (log ++ [FrameSubset (_retain_features Y drop)]) Y1)
      as (Yt & rest & Hrest & Hsub' & Hcols' & Hnt).
    { intros j Hj. apply Hfit. simpl. lia. }
    exists Yt, ([FrameSubset (_retain_features Y drop)] ++ rest).
    cbn [predict_transforms]. unfold bind at 1.
    rewrite (with_step_transformer i name s _ p log Hi), Hrun. cbn [fst snd].
    rewrite (set_steps_same p i _ Hi), Hrest.
    split; [now rewrite <- app_assoc|]. split; [|split].
    + intros c Hc. apply Hsub. now apply Hsub'.
    + rewrite Hcols'.
      change (drops_from p i (length (name0 :: names)))
        with (default [] (step_drop p i) ++ drops_from p (S i) (length names)).
      unfold step_drop at 1. rewrite Hi, Hd. cbn [default].
      now apply retain_features_twice.
    + apply Forall_app. split; [now repeat constructor|assumption].
Qed.

(** The first unfitted transformer stops [predict]. *)
Lemma predict_transforms_unfitted (names : list string) :
  forall (i k : nat) (p : pipeline) (log : list event) (Y : frame)
         (name : string) (s : selector),
    (i <= k < i + length names)%nat ->
    (forall j, (i <= j < k)%nat ->
       exists name s drop,
         steps p !! j = Some (name, Transformer s) /\ drop_ s = Some drop) ->
    steps p !! k = Some (name, Transformer s) -> drop_ s = None ->
    exists rest,
      predict_transforms i names Y (p, log) =
        ((p, log ++ rest), inl (NotFittedError "drop_"))
      /\ Forall (fun e => is_train e = false) rest.
Proof.
  induction names as [|name0 names IH]; intros i k p log Y name s Hk Hfit Hs Hd.
  - simpl in Hk. lia.
  - cbn [predict_transforms]. unfold bind at 1.
    destruct (decide (i = k)) as [->|Hne].
    + exists []. rewrite (with_step_transformer k name s _ p log Hs).
      unfold transform at 1 2 3. run. rewrite Hd. simpl.
      rewrite (set_steps_same p k _ Hs), app_nil_r. split; [reflexivity|constructor].
    + destruct (Hfit i) as (n & t & drop & Hi & Ht); [lia|].
      destruct (transform_fitted t Y log drop Ht) as (Y1 & Hrun & _).
      destruct (IH (S i) k p (log ++ [FrameSubset (_retain_features Y drop)]) Y1 name s)
        as (rest & Hrest & Hnt); try assumption.
      { simpl in Hk. lia. }
      { intros j Hj. apply Hfit. lia. }
      exists ([FrameSubset (_retain_features Y drop)] ++ rest).
      rewrite (with_step_transformer i n t _ p log Hi), Hrun. cbn [fst snd].
      rewrite (set_steps_same p i _ Hi), Hrest.
      split; [now rewrite <- app_assoc|].
      apply Forall_app. split; [now repeat constructor|assumption].
Qed.

(** X13: after a [fit] that returned, [predict] on any frame takes it through
    every transformer without an error -- never a NotFittedError -- leaves
    the pipeline as it is, trains nothing, and hands the estimator's
    [predict] the columns of the frame that no step's [drop_] names; what it
    returns or raises is what the estimator does on that frame.  Every
    training column the frame has is among the columns handed over. *)
Theorem predict_after_fit {E : Env} {A : Type} (X : frame) (p p' : pipeline)
    (log log' : list event) (estimator_predict : frame -> result A) (Y : frame)
    (log2 : list event) :
  fit X [] (p, log) = ((p', log'), inr tt) ->
  exists Yt rest,
    predict (Some estimator_predict) Y (p', log2) =
      ((p', log2 ++ rest), estimator_predict Yt)
    /\ Forall (fun e => is_train e = false) rest
    /\ incl Yt Y
    /\ columns Yt = _retain_features Y (drops_from p' 0 (length (steps p') - 1))
    /\ (forall x n, training_cols_ p' = Some x -> In n x -> In n (columns Y) ->
          In n (columns Yt)).
Proof.
  intros Hfit.
  pose proof (fit_steps_nonempty X p log _ Hfit) as Hne. simpl in Hne.
  destruct (final_estimator_nonempty p' Hne) as [o Ho].
  destruct (fit_result X p p' log log' Hfit)
    as (y & names & x & cols & new & _ & _ & Hx & _ & _ & _ & _ & Hsurv & _ & _
        & Hlen & Hsteps).
  destruct (predict_transforms_fitted (removelast (map fst (steps p'))) 0 p' log2 Y)
    as (Yt & rest & Hrun & Hsub & Hcols & Hnt).
  { intros j Hj. rewrite removelast_length_pred, length_map, Hlen in Hj.
    destruct (Hsteps j) as (name & s & s' & drop & _ & Hs' & _ & Hd); [lia|].
    now exists name, s', drop. }
  rewrite removelast_length_pred, length_map in Hcols.
  exists Yt, rest. split; [|split; [exact Hnt|split; [exact Hsub|split; [exact Hcols|]]]].
  - unfold predict. run. rewrite Ho. simpl. rewrite Hrun. simpl. reflexivity.
  - intros x' n Hx' Hn HY. rewrite Hx in Hx'. injection Hx' as <-.
    rewrite Hcols. unfold _retain_features. apply filter_In. split; [assumption|].
    destruct (Hsurv n Hn) as [_ Hb]. rewrite Hlen, Hb. reflexivity.
Qed.

Lemma predict_after_fit_witness :
  exists Yt rest,
    predict (Some (fun Xt => inr (nrow Xt))) sample_frame
      (fst (fst (@fit sample_env sample_frame [] (sample_pipeline, []))), []) =
      ((fst (fst (@fit sample_env sample_frame [] (sample_pipeline, []))), [] ++ rest),
       inr (nrow Yt))
    /\ incl Yt sample_frame.
Proof.
  destruct (@predict_after_fit sample_env nat sample_frame sample_pipeline
              (fst (fst (@fit sample_env sample_frame [] (sample_pipeline, []))))
              []
              (snd (fst (@fit sample_env sample_frame [] (sample_pipeline, []))))
              (fun Xt => inr (nrow Xt)) sample_frame [] eq_refl)
    as (Yt & rest & Hrun & _ & Hsub & _).
  exists Yt, rest. split; [exact Hrun|exact Hsub].
Defined.

(** X14: [predict] on a pipeline without steps raises an IndexError; when
    the final estimator has no [predict], an AttributeError, with nothing
    done; and when a step before the last is a transformer without [drop_],
    the steps before it being fitted, a NotFittedError: the pipeline is left
    as it is and the estimator is not asked. *)
Theorem predict_errors {A : Type} (p : pipeline) (Y : frame) (log : list event)
    (estimator_predict : frame -> result A) :
  (steps p = [] ->
     forall d : option (frame -> result A),
       predict d Y (p, log) =
         ((p, log), inl (IndexError "list index out of range")))
  /\ (steps p <> [] ->
      @predict A None Y (p, log) = ((p, log), inl (AttributeError "predict")))
  /\ (forall k name s,
        (k < length (steps p) - 1)%nat ->
        (forall j, (j < k)%nat ->
           exists name s drop,
             steps p !! j = Some (name, Transformer s) /\ drop_ s = Some drop) ->
        steps p !! k = Some (name, Transformer s) -> drop_ s = None ->
        exists rest,
          predict (Some estimator_predict) Y (p, log) =
            ((p, log ++ rest), inl (NotFittedError "drop_"))
          /\ Forall (fun e => is_train e = false) rest).
Proof.
  split; [|split].
  - intros Hnil d. unfold predict, _final_estimator. run. now rewrite Hnil.
  - intros Hne. destruct (final_estimator_nonempty p Hne) as [o Ho].
    unfold predict. run. now rewrite Ho.
  - intros k name s Hk Hfit Hs Hd.
    assert (Hne : steps p <> []).
    { intros Hnil. rewrite Hnil in Hk. simpl in Hk. lia. }
    destruct (final_estimator_nonempty p Hne) as [o Ho].
    destruct (predict_transforms_unfitted (removelast (map fst (steps p))) 0 k p log Y
                name s) as (rest & Hrun & Hnt); try assumption.
    { rewrite removelast_length_pred, length_map. lia. }
    { intros j Hj. apply Hfit. lia. }
    exists rest. split; [|exact Hnt].
    unfold predict. run. rewrite Ho. simpl. now rewrite Hrun.
Qed.

Lemma predict_errors_witness :
  (exists rest,
     predict (Some (fun Xt => inr (nrow Xt))) sample_frame (sample_pipeline, []) =
       ((sample_pipeline, [] ++ rest), inl (NotFittedError "drop_")))
  /\ @predict nat None sample_frame (sample_pipeline, []) =
       ((sample_pipeline, []), inl (AttributeError "predict")).
Proof.
  destruct (@predict_errors nat sample_pipeline sample_frame []
              (fun Xt => inr (nrow Xt))) as (_ & Hattr & Hunfit).
  split.
  - destruct (Hunfit 0%nat "drop"
                (H2OFeatureDropper_init (PyList [PyStr "a"]) PyNone PyNone))
      as (rest & Hrun & _).
    + simpl. lia.
    + intros j Hj. lia.
    + reflexivity.
    + reflexivity.
    + exists rest. exact Hrun.
  - apply Hattr. discriminate.
Defined.

(** ** Fitting is all or nothing *)

Section Atomicity.

Lemma readonly_ret {A} (a : A) : readonly (ret a).
Proof. intros s log. reflexivity. Qed.

Lemma readonly_raise {A} (e : exn) : readonly (@raise selector A e).
Proof. intros s log. reflexivity. Qed.

Lemma readonly_lift {A} (r : result A) : readonly (lift r).
Proof. intros s log. reflexivity. Qed.

Lemma readonly_getself : readonly getself.
Proof. intros s log. reflexivity. Qed.

Lemma readonly_emit (e : event) : readonly (emit e).
Proof. intros s log. reflexivity. Qed.

Lemma readonly_bind {A B} (m : M selector A) (k : A -> M selector B) :
  readonly m -> (forall a, readonly (k a)) -> readonly (bind m k).
Proof.
  intros Hm Hk s log. unfold bind. specialize (Hm s log).
  destruct (m (s, log)) as [[s1 l1] [e|a]]; simpl in *; [assumption|].
  subst s1. apply Hk.
Qed.

Lemma atomic_raise {A} (e : exn) : atomic_fit (@raise selector A e).
Proof. intros s log. reflexivity. Qed.

Lemma atomic_set_drop (d : list pyval) : atomic_fit (modify (set_drop_ d)).
Proof. intros s log. simpl. discriminate. Qed.

Lemma atomic_bind_readonly {A B} (m : M selector A) (k : A -> M selector B) :
  readonly m -> (forall a, atomic_fit (k a)) -> atomic_fit (bind m k).
Proof.
  intros Hm Hk s log. unfold bind. specialize (Hm s log).
  destruct (m (s, log)) as [[s1 l1] [e|a]]; simpl in *; [assumption|].
  subst s1. apply Hk.
Qed.

Lemma atomic_bind_fit {A B} (m : M selector A) (k : A -> M selector B) :
  atomic_fit m -> (forall a, total_on_fitted (k a)) -> atomic_fit (bind m k).
Proof.
  intros Hm Hk s log. unfold bind. specialize (Hm s log).
  destruct (m (s, log)) as [[s1 l1] [e|a]]; simpl in *; [assumption|].
  destruct (Hk a s1 l1 Hm) as [[b Hb] Hd]. now rewrite Hb.
Qed.

Lemma total_modify (f : selector -> selector) :
  (forall s, drop_ (f s) = drop_ s) -> total_on_fitted (modify f).
Proof.
  intros Hf s log Hd. simpl. split; [eauto|]. now rewrite Hf.
Qed.

Lemma total_bind {A B} (m : M selector A) (k : A -> M selector B) :
  total_on_fitted m -> (forall a, total_on_fitted (k a)) -> total_on_fitted (bind m k).
Proof.
  intros Hm Hk s log Hd. unfold bind. destruct (Hm s log Hd) as [[a Ha] Hd1].
  destruct (m (s, log)) as [[s1 l1] r]; simpl in *. subst r. now apply Hk.
Qed.

Lemma total_transform (X : frame) : total_on_fitted (transform X).
Proof.
  intros s log Hd. destruct (drop_ s) as [drop|] eqn:Hs; [|contradiction].
  destruct (transform_fitted s X log drop Hs) as (X' & Hrun & _).
  rewrite Hrun. simpl. split; [eauto|]. now rewrite Hs.
Qed.

End Atomicity.

Ltac readonly :=
  repeat first
    [ apply readonly_ret | apply readonly_raise | apply readonly_lift
    | apply readonly_getself | apply readonly_emit
    | apply readonly_bind; [|intros ?]
    | match goal with
      | |- readonly (if ?b then _ else _) => destruct b
      | |- readonly (match ?x with _ => _ end) => destruct x
      end ].

Ltac total_on_fitted :=
  repeat first
    [ apply total_transform | apply total_modify; intros []; reflexivity
    | apply total_bind; [|intros ?] ].

Ltac atomic_fit :=
  repeat first
    [ apply atomic_raise | apply atomic_set_drop
    | apply atomic_bind_readonly; [solve [readonly]|intros ?]
    | apply atomic_bind_fit; [solve [apply atomic_set_drop]|intros ?; solve [total_on_fitted]]
    | match goal with
      | |- atomic_fit (if ?b then _ else _) => destruct b
      | |- atomic_fit (match ?x with _ => _ end) => destruct x
      end ].

Lemma readonly_ratio_rows {E : Env} (cand : frame) (names : list string) (ratio : pyval) :
  readonly (ratio_rows cand names ratio).
Proof.
  induction names as [|col rest IH]; simpl; [apply readonly_ret|].
  apply readonly_bind; [apply readonly_emit|intros _].
  destruct (find_column col cand); [|apply readonly_raise].
  apply readonly_bind; [exact IH|intros rows]. apply readonly_ret.
Qed.

Lemma atomic_feature_dropper_fit (X : frame) : atomic_fit (H2OFeatureDropper_fit X).
Proof. unfold H2OFeatureDropper_fit. atomic_fit. Qed.

Lemma atomic_sparse_fit (X : frame) : atomic_fit (H2OSparseFeatureDropper_fit X).
Proof.
  unfold H2OSparseFeatureDropper_fit, _frame_from_x_y. rewrite bind_check_frame.
  atomic_fit.
Qed.

Lemma atomic_mcf {E : Env} (X : frame) :
  atomic_fit (H2OMulticollinearityFilterer_fit_transform X).
Proof.
  unfold H2OMulticollinearityFilterer_fit_transform, _frame_from_x_y, _validate_use.
  rewrite bind_check_frame. atomic_fit.
Qed.

Lemma atomic_nzv {E : Env} (X : frame) :
  atomic_fit (H2ONearZeroVarianceFilterer_fit_transform X).
Proof.
  unfold H2ONearZeroVarianceFilterer_fit_transform, _frame_from_x_y, _validate_use.
  rewrite bind_check_frame.
  apply atomic_bind_readonly; [readonly|intros self].
  apply atomic_bind_readonly; [readonly|intros cand].
  apply atomic_bind_readonly; [readonly|intros u].
  apply atomic_bind_readonly; [readonly|intros _].
  destruct (negb _); [apply atomic_raise|].
  destruct (String.eqb _ _); [atomic_fit|].
  apply atomic_bind_readonly; [readonly|intros ok].
  destruct (negb ok); [apply atomic_raise|].
  apply atomic_bind_readonly; [readonly|intros _].
  apply atomic_bind_readonly; [apply readonly_ratio_rows|intros rows].
  destruct rows; [apply atomic_raise|]. atomic_fit.
Qed.

Lemma atomic_fit_transform {E : Env} (X : frame) (kwargs : gmap string pyval) :
  atomic_fit (H2OPipeline.fit_transform X kwargs).
Proof.
  unfold H2OPipeline.fit_transform.
  destruct (negb _); [apply atomic_raise|].
  apply atomic_bind_readonly; [readonly|intros self].
  destruct (cls self).
  - apply atomic_bind_fit; [apply atomic_feature_dropper_fit|intros _].
    apply total_transform.
  - apply atomic_bind_fit; [apply atomic_sparse_fit|intros _]. apply total_transform.
  - apply atomic_mcf.
  - apply atomic_nzv.
Qed.

(** X15: fitting a selector is all or nothing.  Whenever [fit_transform] or
    [fit] raises -- a bad configuration, a column that cannot be resolved, an
    error of the engine -- the object is exactly as it was before the call,
    with no attribute half written; whenever it returns, the object has a
    [drop_]. *)
Theorem fitting_is_atomic {E : Env} (X : frame) (kwargs : gmap string pyval) :
  atomic_fit (H2OPipeline.fit_transform X kwargs)
  /\ atomic_fit (H2OFeatureDropper_fit X)
  /\ atomic_fit (H2OSparseFeatureDropper_fit X)
  /\ atomic_fit (H2OMulticollinearityFilterer_fit_transform X)
  /\ atomic_fit (H2OMulticollinearityFilterer_fit X)
  /\ atomic_fit (H2ONearZeroVarianceFilterer_fit_transform X)
  /\ atomic_fit (H2ONearZeroVarianceFilterer_fit X).
Proof.
  refine (conj (atomic_fit_transform X kwargs)
            (conj (atomic_feature_dropper_fit X)
               (conj (atomic_sparse_fit X)
                  (conj (atomic_mcf X) (conj _ (conj (atomic_nzv X) _)))))).
  - intros s log. unfold H2OMulticollinearityFilterer_fit, bind.
    pose proof (atomic_mcf X s log) as H.
    now destruct (H2OMulticollinearityFilterer_fit_transform X (s, log))
      as [[s1 l1] [e|a]].
  - intros s log. unfold H2ONearZeroVarianceFilterer_fit, bind.
    pose proof (atomic_nzv X s log) as H.
    now destruct (H2ONearZeroVarianceFilterer_fit_transform X (s, log))
      as [[s1 l1] [e|a]].
Qed.

(** ** The results of the two filterers *)

(** X16: on a resolved candidate frame and with a valid [use],
    H2OMulticollinearityFilterer asks the engine for the correlations of the
    candidate frame under the effective policy and hands their absolute
    values, labelled by the candidate columns, with the raw threshold to
    [filter_collinearity].  An error of either is raised with the object
    untouched; otherwise the object's [drop_], [mean_abs_correlations_] and
    [correlations_] are what [filter_collinearity] answered and the frame
    returned has the columns of the whole input, target included, that are
    not in [drop_] -- all of them when nothing is collinear. *)
Theorem mcf_fit_transform_result {E : Env} (s : selector) (X : frame)
    (names : list string) (cand : frame) (log : list event) :
  resolves s X names cand -> In (use s) _valid_use ->
  let u := effective_use cand (use s) (na_warn s) in
  let pre := log ++ [FrameSubset names] ++ use_events cand (use s) (na_warn s)
                 ++ [FrameCor u (na_rm s)] in
  let fitted := fst (fst (H2OMulticollinearityFilterer_fit_transform X (s, log))) in
  (forall e, h2o_cor cand u (na_rm s) = inl e ->
     H2OMulticollinearityFilterer_fit_transform X (s, log) = ((s, pre), inl e))
  /\ (forall c e,
        h2o_cor cand u (na_rm s) = inr c ->
        filter_collinearity (columns cand) (map (map num_abs) c) (threshold s) = inl e ->
        H2OMulticollinearityFilterer_fit_transform X (s, log) =
          ((s, pre ++ [FrameColumns; FrameColumns]), inl e))
  /\ (forall c drop macs corrs,
        h2o_cor cand u (na_rm s) = inr c ->
        filter_collinearity (columns cand) (map (map num_abs) c) (threshold s)
          = inr (drop, macs, corrs) ->
        exists Xt,
          H2OMulticollinearityFilterer_fit_transform X (s, log) =
            ((set_correlations_ corrs
                (set_mean_abs_correlations_ macs (set_drop_ (map PyStr drop) s)),
              pre ++ [FrameColumns; FrameColumns;
                      FrameSubset (_retain_features X (map PyStr drop))]),
             inr Xt)
          /\ drop_ fitted = Some (map PyStr drop)
          /\ mean_abs_correlations_ fitted = Some macs
          /\ correlations_ fitted = Some corrs
          /\ config fitted = config s
          /\ columns Xt = _retain_features X (map PyStr drop)
          /\ incl Xt X
          /\ (drop = [] -> columns Xt = columns X)).
Proof.
  intros Hres Hu u pre fitted. split; [|split].
  - intros e He. unfold H2OMulticollinearityFilterer_fit_transform. prologue Hres.
    rewrite (validate_use_valid _ _ _ _ Hu). run. fold u. rewrite He. simpl.
    unfold pre. now repeat rewrite <- app_assoc.
  - intros c e Hc He. unfold H2OMulticollinearityFilterer_fit_transform. prologue Hres.
    rewrite (validate_use_valid _ _ _ _ Hu). run. fold u. rewrite Hc. simpl.
    rewrite He. simpl. unfold pre. now repeat rewrite <- app_assoc.
  - intros c drop macs corrs Hc Hf.
    set (s' := set_correlations_ corrs
                 (set_mean_abs_correlations_ macs (set_drop_ (map PyStr drop) s))).
    destruct (transform_fitted s' X (pre ++ [FrameColumns; FrameColumns])
                (map PyStr drop) eq_refl) as (Xt & Hrun & Hcols & Hsub & _).
    assert (Hfit : H2OMulticollinearityFilterer_fit_transform X (s, log) =
              ((s', pre ++ [FrameColumns; FrameColumns;
                            FrameSubset (_retain_features X (map PyStr drop))]),
               inr Xt)).
    { unfold H2OMulticollinearityFilterer_fit_transform. prologue Hres.
      rewrite (validate_use_valid _ _ _ _ Hu). run. fold u. rewrite Hc. simpl.
      rewrite Hf. simpl. fold s'.
      replace (((((log ++ [FrameSubset names]) ++ use_events cand (use s) (na_warn s))
                  ++ [FrameCor u (na_rm s)]) ++ [FrameColumns]) ++ [FrameColumns])
        with (pre ++ [FrameColumns; FrameColumns])
        by (unfold pre; now repeat rewrite <- app_assoc).
      rewrite Hrun. now repeat rewrite <- app_assoc. }
    exists Xt. split; [exact Hfit|]. unfold fitted. rewrite Hfit. cbn [fst].
    refine (conj eq_refl (conj eq_refl (conj eq_refl (conj eq_refl
              (conj Hcols (conj Hsub _)))))).
    intros ->. rewrite Hcols. apply retain_features_nil.
Qed.

Lemma mcf_fit_transform_result_witness :
  exists Xt,
    @H2OMulticollinearityFilterer_fit_transform sample_env_collinear sample_frame
       (sample_mcf, []) =
      ((set_correlations_ [CorrRecord "a" "b" (Fin (7 # 8)) "b" (Fin (7 # 8))]
          (set_mean_abs_correlations_ [Fin (7 # 8)]
             (set_drop_ [PyStr "b"] sample_mcf)),
        [FrameSubset ["a"; "b"; "c"]; FrameCor "complete.obs" false;
         FrameColumns; FrameColumns; FrameSubset ["a"; "c"; "y"]]),
       inr Xt)
    /\ drop_ (fst (fst (@H2OMulticollinearityFilterer_fit_transform
                          sample_env_collinear sample_frame (sample_mcf, [])))) =
         Some [PyStr "b"]
    /\ mean_abs_correlations_
         (fst (fst (@H2OMulticollinearityFilterer_fit_transform
                      sample_env_collinear sample_frame (sample_mcf, [])))) =
         Some [Fin (7 # 8)]
    /\ columns Xt = ["a"; "c"; "y"].
Proof.
  destruct (@mcf_fit_transform_result sample_env_collinear sample_mcf
              sample_frame ["a"; "b"; "c"] sample_candidates [])
    as (_ & _ & H).
  - split; reflexivity.
  - simpl. auto.
  - destruct (H [[Fin 1; Fin (-7 # 8); Fin 0];
                 [Fin (-7 # 8); Fin 1; Fin 0];
                 [Fin 0; Fin 0; Fin 1]]
                ["b"] [Fin (7 # 8)]
                [CorrRecord "a" "b" (Fin (7 # 8)) "b" (Fin (7 # 8))]
                eq_refl eq_refl)
      as (Xt & Hrun & Hdrop & Hmac & _ & _ & Hcols & _).
    exists Xt. split; [exact Hrun|split; [exact Hdrop|split; [exact Hmac|exact Hcols]]].
Defined.

Lemma ratio_rows_run {E : Env} (cand : frame) (ratio : pyval) (s : selector) :
  List.NoDup (columns cand) ->
  forall (Y : frame) (log : list event),
    incl Y cand ->
    ratio_rows cand (map cname Y) ratio (s, log) =
      ((s, log ++ map FrameSeries (map cname Y)),
       inr (map (fun c => _near_zero_variance_ratio c ratio) Y)).
Proof.
  intros Hnd. induction Y as [|c Y IH]; intros log Hsub.
  - simpl. unfold ret. now rewrite app_nil_r.
  - cbn [map ratio_rows]. unfold bind at 1. unfold emit. cbn [fst snd].
    rewrite (find_column_NoDup cand c Hnd); [|apply Hsub; now left].
    unfold bind at 1. rewrite IH; [|intros d Hd; apply Hsub; now right].
    unfold ret. now rewrite <- app_assoc.
Qed.

Lemma combine_map_map {A B C} (f : A -> B) (g : A -> C) (l : list A) :
  combine (map f l) (map g l) = map (fun x => (f x, g x)) l.
Proof. induction l as [|x l IH]; simpl; [reflexivity|now rewrite IH]. Qed.

(** X17: on a resolved, non-empty candidate frame with distinct column names
    and a valid [use], H2ONearZeroVarianceFilterer with strategy 'ratio' and
    a numeric threshold above 1 asks [_near_zero_variance_ratio] for every
    candidate column in frame order; the object's [drop_] is the names of
    the columns it flags, in frame order, and its [var_] maps each of them
    to the ratio it reported and holds nothing else; the frame returned has
    the columns of the whole input that are not flagged.  Without any
    candidate column the method fails with an IndexError, the object
    untouched. *)
Theorem nzv_ratio_result {E : Env} (s : selector) (X : frame)
    (names : list string) (cand : frame) (log : list event) (t : num) :
  resolves s X names cand -> In (use s) _valid_use ->
  strategy s = "ratio" -> as_num (threshold s) = Some t -> num_ltb (Fin 1) t = true ->
  List.NoDup (columns cand) ->
  let pre := log ++ [FrameSubset names] ++ use_events cand (use s) (na_warn s)
                 ++ [FrameColumns; FrameColumns]
                 ++ map FrameSeries (columns cand) in
  let ratio_of := fun c => _near_zero_variance_ratio c (threshold s) in
  let fitted := fst (fst (H2ONearZeroVarianceFilterer_fit_transform X (s, log))) in
  (cand = [] ->
     H2ONearZeroVarianceFilterer_fit_transform X (s, log) =
       ((s, pre), inl (IndexError "too many indices for array")))
  /\ (cand <> [] ->
      let flagged := List.filter (fun c => astype_bool (snd (ratio_of c))) cand in
      let drop := map PyStr (columns flagged) in
      exists Xt var,
        H2ONearZeroVarianceFilterer_fit_transform X (s, log) =
          ((set_var_ var (set_drop_ drop s),
            pre ++ [FrameColumns; FrameSubset (_retain_features X drop)]),
           inr Xt)
        /\ drop_ fitted = Some drop
        /\ var_ fitted = Some var
        /\ var = py_dict (map (fun c => (cname c, fst (ratio_of c))) flagged)
        /\ columns Xt = _retain_features X drop
        /\ (forall c, In c flagged -> var !! cname c = Some (fst (ratio_of c)))
        /\ (forall n v, var !! n = Some v -> In n (columns flagged))).
Proof.
  intros Hres Hu Hst Ht Hgt Hnd pre ratio_of fitted.
  assert (Hok : gt_one (threshold s) = inr true).
  { unfold gt_one. rewrite Ht. now rewrite Hgt. }
  assert (Hrows : forall l,
            ratio_rows cand (columns cand) (threshold s) (s, l) =
              ((s, l ++ map FrameSeries (columns cand)), inr (map ratio_of cand))).
  { intros l. apply (ratio_rows_run cand (threshold s) s Hnd cand l), incl_refl. }
  split.
  - intros Hnil. unfold H2ONearZeroVarianceFilterer_fit_transform. prologue Hres.
    rewrite (validate_use_valid _ _ _ _ Hu). run. rewrite Hst. simpl.
    rewrite Hok. run. rewrite Hrows. subst cand. simpl.
    unfold pre. simpl. now repeat rewrite <- app_assoc.
  - intros Hne flagged drop.
    set (var := py_dict (map (fun c => (cname c, fst (ratio_of c))) flagged)).
    destruct (transform_fitted (set_var_ var (set_drop_ drop s)) X
                (pre ++ [FrameColumns]) drop eq_refl) as (Xt & Hrun & Hcols & _).
    assert (Hndf : List.NoDup (map fst (map (fun c => (cname c, fst (ratio_of c)))
                                          flagged))).
    { rewrite map_map. simpl. now apply NoDup_columns_filter. }
    assert (Hfit : H2ONearZeroVarianceFilterer_fit_transform X (s, log) =
              ((set_var_ var (set_drop_ drop s),
                pre ++ [FrameColumns; FrameSubset (_retain_features X drop)]),
               inr Xt)).
    { unfold H2ONearZeroVarianceFilterer_fit_transform. prologue Hres.
      rewrite (validate_use_valid _ _ _ _ Hu). run. rewrite Hst. simpl.
      rewrite Hok. run. rewrite Hrows.
      destruct (map ratio_of cand) as [|r rs] eqn:Hr;
        [apply map_eq_nil in Hr; contradiction|].
      rewrite <- Hr. cbv beta. cbn [fst snd].
      change (columns cand) with (map cname cand). rewrite !(map_map ratio_of).
      rewrite (mask_select_map cname (fun c => astype_bool (snd (ratio_of c))) cand).
      rewrite (mask_filter_map (fun c => fst (ratio_of c))
                 (fun c => astype_bool (snd (ratio_of c))) cand).
      rewrite combine_map_map.
      subst pre. repeat rewrite <- app_assoc in Hrun. repeat rewrite <- app_assoc.
      cbn [app] in Hrun |- *. exact Hrun. }
    exists Xt, var. split; [exact Hfit|]. unfold fitted. rewrite Hfit. cbn [fst].
    refine (conj eq_refl (conj eq_refl (conj eq_refl (conj Hcols (conj _ _))))).
    + intros c Hc. unfold var. apply py_dict_lookup; [exact Hndf|].
      apply in_map_iff. now exists c.
    + intros n v Hv. unfold var in Hv. apply py_dict_lookup in Hv; [|exact Hndf].
      apply in_map_iff in Hv as (c & Heq & Hc). injection Heq as <- _.
      unfold columns. now apply in_map.
Qed.

Lemma nzv_ratio_result_witness :
  exists Xt,
    @H2ONearZeroVarianceFilterer_fit_transform sample_env_ratio sample_frame
       (sample_nzv_ratio_ok, []) =
      ((set_var_ (py_dict [("a", Fin 30)]) (set_drop_ [PyStr "a"] sample_nzv_ratio_ok),
        [FrameSubset ["a"; "b"; "c"]; FrameColumns; FrameColumns;
         FrameSeries "a"; FrameSeries "b"; FrameSeries "c";
         FrameColumns; FrameSubset ["b"; "c"; "y"]]),
       inr Xt)
    /\ var_ (fst (fst (@H2ONearZeroVarianceFilterer_fit_transform sample_env_ratio
                         sample_frame (sample_nzv_ratio_ok, [])))) =
         Some (py_dict [("a", Fin 30)])
    /\ columns Xt = ["b"; "c"; "y"].
Proof.
  destruct (@nzv_ratio_result sample_env_ratio sample_nzv_ratio_ok sample_frame
              ["a"; "b"; "c"] sample_candidates [] (Fin 20)) as [_ H].
  - split; reflexivity.
  - simpl. auto.
  - reflexivity.
  - reflexivity.
  - reflexivity.
  - simpl. repeat (constructor; [simpl; intuition discriminate|]). constructor.
  - destruct H as (Xt & var & Hrun & _ & Hvar & Heq & Hcols & _); [discriminate|].
    subst var. exists Xt. split; [exact Hrun|split; [exact Hvar|exact Hcols]].
Defined.
